(** * fnos-git-auth: the protocol client, the cipher suite and the token
    lifecycle, embedded from the Python sources

    The development follows the source files:
    - [Py]       the fragment of the Python runtime the sources rely on
                 (exceptions, JSON values, truthiness, dictionaries);
    - [Crypto]   src/crypto.py;
    - [Config]   src/config.py (expiry bookkeeping);
    - [WsClient] src/ws_client.py (request ids, pending table, operations);
    - [Auth]     src/auth.py (login and the refresh cascade);
    - [Credentials] src/credentials.py (the saved credentials and their key).

    Python [str] values are represented by their UTF-8 bytes as Rocq
    [string]s, so [s.encode("utf-8")] and [b.decode("utf-8")] are the
    conversions between [string] and [list ascii]; [len] of a [str] is its
    number of bytes, which is its number of characters for ASCII text (keys,
    tokens, base64 and hexadecimal text are ASCII). *)

From Stdlib Require Import ZArith NArith Lia ZifyNat List Ascii String Bool.
From stdpp Require Import base option list gmap strings pretty.

Set Warnings "-register-all".

Abbreviation bytes := (list ascii).

(** ** The Python runtime fragment *)
Module Py.

(** Exception classes that occur in the sources and in the library calls they
    make. Every one of them is a subclass of [Exception], so a bare
    [except Exception] catches all of them. *)
Inductive exn_class :=
| RuntimeError
| TimeoutError
| ConnectionError
| ConnectionClosed
| ValueError
| BinasciiError
| TypeError
| AttributeError
| OverflowError.

(** An exception: its class and the place that raised it. Message texts are
    kept as short ASCII tags; the interpolated parts of the sources'
    f-strings are not modelled. *)
Record exn := Exn { exn_class_of : exn_class; exn_site : string }.

Inductive result (A : Type) : Type :=
| Ok (a : A)
| Raise (e : exn).
Arguments Ok {A} a.
Arguments Raise {A} e.

#[global] Instance result_ret : MRet result := @Ok.
#[global] Instance result_bind : MBind result :=
  fun A B f m => match m with Ok a => f a | Raise e => Raise e end.

Definition is_ok {A} (r : result A) : bool :=
  match r with Ok _ => true | Raise _ => false end.

(** JSON values as [json.loads] builds them. Floating-point numbers are left
    out: no claim depends on one. Dictionaries keep insertion order. *)
Inductive json :=
| JNull
| JBool (b : bool)
| JInt (n : Z)
| JStr (s : string)
| JList (items : list json)
| JDict (fields : list (string * json)).

Abbreviation dict := (list (string * json)).

(** [bool(v)]: what [if v] and [v or w] test. *)
Definition truthy (v : json) : bool :=
  match v with
  | JNull => false
  | JBool b => b
  | JInt n => negb (n =? 0)%Z
  | JStr s => negb (String.eqb s "")
  | JList l => match l with [] => false | _ => true end
  | JDict d => match d with [] => false | _ => true end
  end.

(** [a or b] *)
Definition py_or (a b : json) : json := if truthy a then a else b.

Fixpoint assoc_get (k : string) (d : dict) : option json :=
  match d with
  | [] => None
  | (k', v) :: d' => if String.eqb k k' then Some v else assoc_get k d'
  end.

(** [d.get(k)] *)
Definition dict_get (d : dict) (k : string) : json := default JNull (assoc_get k d).

(** [d.get(k, dflt)] *)
Definition dict_get_or (d : dict) (k : string) (dflt : json) : json :=
  default dflt (assoc_get k d).

(** [k in d] *)
Definition dict_has (d : dict) (k : string) : bool :=
  match assoc_get k d with Some _ => true | None => false end.

(** [d[k] = v]: a present key keeps its position, a new key goes last. *)
Fixpoint dict_set (k : string) (v : json) (d : dict) : dict :=
  match d with
  | [] => [(k, v)]
  | (k', v') :: d' =>
      if String.eqb k k' then (k, v) :: d' else (k', v') :: dict_set k v d'
  end.

(** [d.update(kwargs)] *)
Definition dict_update (d kwargs : dict) : dict :=
  fold_left (fun acc kv => dict_set kv.1 kv.2 acc) kwargs d.

(** [s.encode("utf-8")] and [b.decode("utf-8")] under the representation of
    [str] by its UTF-8 bytes. *)
Definition encode_utf8 (s : string) : bytes := list_ascii_of_string s.
Definition decode_utf8 (b : bytes) : string := string_of_list_ascii b.

(** [isinstance(e, cls)] for the classes above: [binascii.Error] is a
    subclass of [ValueError]; the others are unrelated to one another. *)
Definition exn_class_eqb (a b : exn_class) : bool :=
  match a, b with
  | RuntimeError, RuntimeError | TimeoutError, TimeoutError
  | ConnectionError, ConnectionError | ConnectionClosed, ConnectionClosed
  | ValueError, ValueError | BinasciiError, BinasciiError
  | TypeError, TypeError | AttributeError, AttributeError
  | OverflowError, OverflowError => true
  | _, _ => false
  end.

Definition is_instance (e : exn) (cls : exn_class) : bool :=
  exn_class_eqb (exn_class_of e) cls
  || (exn_class_eqb (exn_class_of e) BinasciiError && exn_class_eqb cls ValueError).

(** [except (ValueError, TypeError)] *)
Definition is_value_or_type_error (e : exn) : bool :=
  is_instance e ValueError || is_instance e TypeError.

(** [format(n, "x")] for a non-negative integer: lower-case hexadecimal
    without leading zeros. [fuel] bounds the number of digits. *)
Definition hex_digit (n : N) : ascii :=
  ascii_of_N (if n <? 10 then 48 + n else 87 + n)%N.

Fixpoint hex_digits (fuel : nat) (n : N) (acc : string) : string :=
  match fuel with
  | 0 => acc
  | S fuel' =>
      if (n =? 0)%N then acc
      else hex_digits fuel' (n / 16)%N (String (hex_digit (n mod 16)%N) acc)
  end.

Definition format_hex_N (n : N) : string :=
  if (n =? 0)%N then "0" else hex_digits (N.size_nat n) n "".

(** [format(z, "x")] for any integer: a negative one carries a minus sign. *)
Definition format_hex (z : Z) : string :=
  if (z <? 0)%Z then "-" +:+ format_hex_N (Z.to_N (- z)) else format_hex_N (Z.to_N z).

(** The value of hexadecimal text: of one digit, and of a string of digits
    read from the left. *)
Definition hex_digit_value (c : ascii) : N :=
  let n := N_of_ascii c in (if n <? 58 then n - 48 else n - 87)%N.

Fixpoint hex_value_from (acc : N) (s : string) : N :=
  match s with
  | EmptyString => acc
  | String c rest => hex_value_from (acc * 16 + hex_digit_value c)%N rest
  end.

Definition hex_value (s : string) : N := hex_value_from 0 s.

(** The text does not start with a sign (and is not empty). *)
Definition unsigned (s : string) : bool :=
  match s with
  | String c _ => negb (Ascii.eqb c "+" || Ascii.eqb c "-")
  | EmptyString => false
  end.

Fixpoint zeros (n : nat) : string :=
  match n with 0 => "" | S n' => String "0" (zeros n') end.

(** [s.zfill(width)]: zeros go after a leading sign. *)
Definition zfill (width : nat) (s : string) : string :=
  match s with
  | String c rest =>
      if Ascii.eqb c "+" || Ascii.eqb c "-"
      then String c (zeros (width - String.length s) +:+ rest)
      else zeros (width - String.length s) +:+ s
  | EmptyString => zeros width
  end.

(** [str(v)] as an f-string embeds a value: exact for strings, [None],
    booleans and integers. The text of a list or a dictionary is not
    modelled (no value the protocol embeds is one). *)
Definition py_str (v : json) : string :=
  match v with
  | JStr s => s
  | JNull => "None"
  | JBool true => "True"
  | JBool false => "False"
  | JInt n => pretty n
  | JList _ => "<list>"
  | JDict _ => "<dict>"
  end.

End Py.
Export Py.

(** ** [datetime] values

    A [datetime] is its number of microseconds since 0001-01-01T00:00:00 in
    its own local time, and its UTC offset (in microseconds) when it is
    aware; [datetime.now()] is naive. A [timedelta] is a number of
    microseconds. *)
Module Datetime.

Record datetime := { micros : Z; utcoffset : option Z }.

Definition naive (t : Z) : datetime := {| micros := t; utcoffset := None |}.

(** [datetime.max] is 9999-12-31T23:59:59.999999. *)
Definition MAX_MICROS : Z := 3652059 * 86400 * 1000000 - 1.

Definition in_range (t : Z) : bool := (0 <=? t)%Z && (t <=? MAX_MICROS)%Z.

(** [a > b] *)
Definition datetime_gt (a b : datetime) : result bool :=
  match utcoffset a, utcoffset b with
  | None, None => Ok (micros b <? micros a)%Z
  | Some oa, Some ob => Ok (micros b - ob <? micros a - oa)%Z
  | _, _ => Raise (Exn TypeError "can't compare offset-naive and offset-aware datetimes")
  end.

(** [a + delta] and [a - delta] for a [timedelta] *)
Definition datetime_add (a : datetime) (delta : Z) : result datetime :=
  let t := (micros a + delta)%Z in
  if in_range t then Ok {| micros := t; utcoffset := utcoffset a |}
  else Raise (Exn OverflowError "date value out of range").

Definition datetime_sub (a : datetime) (delta : Z) : result datetime :=
  datetime_add a (- delta)%Z.

End Datetime.
Export Datetime.

(** ** Library functions the sources call

    The primitives of PyCryptodome, [hmac]/[hashlib], [json] and [datetime]
    are taken as an interface: the program is verified for every
    implementation of it. [aes_block_encrypt key block] is the AES
    permutation on one 16-byte block; RSA encryption is randomised in the
    library and is taken as some function here, its value is never
    inspected by the client. [datetime_fromisoformat] is [None] where
    [datetime.fromisoformat] raises [ValueError]; [timedelta_hours v] and
    [timedelta_days v] are [timedelta(hours=v)] and [timedelta(days=v)]. *)
Class Libs := {
  aes_block_encrypt : bytes -> bytes -> bytes;
  aes_block_decrypt : bytes -> bytes -> bytes;
  rsa_pkcs1_encrypt : string -> bytes -> result bytes;
  hmac_sha256_digest : bytes -> bytes -> bytes;
  json_dumps_compact : json -> string;
  datetime_fromisoformat : string -> option datetime;
  datetime_isoformat : datetime -> string;
  timedelta_hours : json -> result Z;
  timedelta_days : json -> result Z;
}.

(** What the proofs need of the primitives: the block decryption inverts the
    block encryption on 16-byte blocks under a 32-byte key, and both keep the
    block length; an HMAC-SHA256 digest has 32 bytes. *)
Definition block_cipher_ok (L : Libs) : Prop :=
  ∀ key block : bytes, length key = 32 → length block = 16 →
    length (aes_block_encrypt key block) = 16 ∧
    aes_block_decrypt key (aes_block_encrypt key block) = block.

Definition hmac_digest_ok (L : Libs) : Prop :=
  ∀ key msg : bytes, length (hmac_sha256_digest key msg) = 32.

(** ** src/crypto.py *)
Module Crypto.

(** *** [base64] (standard alphabet, RFC 4648), as [base64.b64encode] and
    [base64.b64decode] compute it *)

Definition b64_char (n : N) : ascii :=
  ascii_of_N
    (if n <? 26 then n + 65
     else if n <? 52 then n + 71
     else if n <? 62 then n - 4
     else if n =? 62 then 43 else 47)%N.

Definition b64_index (c : ascii) : option N :=
  let n := N_of_ascii c in
  (if (65 <=? n) && (n <=? 90) then Some (n - 65)
   else if (97 <=? n) && (n <=? 122) then Some (n - 71)
   else if (48 <=? n) && (n <=? 57) then Some (n + 4)
   else if n =? 43 then Some 62
   else if n =? 47 then Some 63
   else None)%N.

Definition b64_pad : ascii := "="%char.

Fixpoint b64encode (bs : bytes) : bytes :=
  match bs with
  | [] => []
  | [a] =>
      let x := N_of_ascii a in
      [b64_char (x / 4); b64_char (x mod 4 * 16); b64_pad; b64_pad]%N
  | [a; b] =>
      let x := N_of_ascii a in
      let y := N_of_ascii b in
      [b64_char (x / 4); b64_char (x mod 4 * 16 + y / 16);
       b64_char (y mod 16 * 4); b64_pad]%N
  | a :: b :: c :: rest =>
      let x := N_of_ascii a in
      let y := N_of_ascii b in
      let z := N_of_ascii c in
      [b64_char (x / 4); b64_char (x mod 4 * 16 + y / 16);
       b64_char (y mod 16 * 4 + z / 64); b64_char (z mod 64)]%N
      ++ b64encode rest
  end.

Definition cons_ok (b : ascii) (r : result bytes) : result bytes :=
  rest ← r; Ok (b :: rest).

(** The decoding loop of [binascii.a2b_base64] in its default, non-strict
    mode: characters outside the alphabet are skipped, a pad sequence that
    completes a quad ends the input, and an incomplete quad at the end is an
    error. [quad_pos] is the position in the current quad, [leftchar] the
    bits not yet written, [pads] the pad characters seen in a row. *)
Fixpoint a2b_base64 (s : bytes) (quad_pos : nat) (leftchar : N) (pads : nat)
  : result bytes :=
  match s with
  | [] =>
      match quad_pos with
      | 0 => Ok []
      | 1 => Raise (Exn BinasciiError "a2b_base64: one data character too many")
      | _ => Raise (Exn BinasciiError "a2b_base64: incorrect padding")
      end
  | c :: rest =>
      if Ascii.eqb c b64_pad then
        if (2 <=? quad_pos) && (4 <=? quad_pos + S pads) then Ok []
        else a2b_base64 rest quad_pos leftchar
               (if 2 <=? quad_pos then S pads else pads)
      else
        match b64_index c with
        | None => a2b_base64 rest quad_pos leftchar pads
        | Some v =>
            match quad_pos with
            | 0 => a2b_base64 rest 1 v 0
            | 1 => cons_ok (ascii_of_N (leftchar * 4 + v / 16))
                     (a2b_base64 rest 2 (v mod 16) 0)
            | 2 => cons_ok (ascii_of_N (leftchar * 16 + v / 4))
                     (a2b_base64 rest 3 (v mod 4) 0)
            | _ => cons_ok (ascii_of_N (leftchar * 64 + v))
                     (a2b_base64 rest 0 0 0)
            end
        end
  end.

Definition is_ascii_text (s : bytes) : bool :=
  forallb (fun c => (N_of_ascii c <? 128)%N) s.

(** [base64.b64encode(b)]: bytes to bytes. *)
Definition b64encode_bytes (b : bytes) : bytes := b64encode b.

(** [base64.b64decode(s)] on a [str]: the text must be ASCII, then
    [a2b_base64]. *)
Definition b64decode (s : string) : result bytes :=
  let raw := encode_utf8 s in
  if is_ascii_text raw then a2b_base64 raw 0 0 0
  else Raise (Exn ValueError "b64decode: string argument should contain only ASCII characters").

(** *** [Crypto.Util.Padding] with the default style, PKCS#7 *)

Definition pad (data_to_pad : bytes) (block_size : nat) : bytes :=
  let padding_len := block_size - length data_to_pad mod block_size in
  data_to_pad ++ replicate padding_len (ascii_of_nat padding_len).

Definition unpad (padded_data : bytes) (block_size : nat) : result bytes :=
  let pdata_len := length padded_data in
  if pdata_len =? 0 then
    Raise (Exn ValueError "unpad: zero-length input cannot be unpadded")
  else if negb (pdata_len mod block_size =? 0) then
    Raise (Exn ValueError "unpad: input data is not padded")
  else
    let padding_len := nat_of_ascii (List.last padded_data zero) in
    if (padding_len <? 1) || (Nat.min block_size pdata_len <? padding_len) then
      Raise (Exn ValueError "unpad: padding is incorrect")
    else if negb (bool_decide (drop (pdata_len - padding_len) padded_data
                               = replicate padding_len (ascii_of_nat padding_len))) then
      Raise (Exn ValueError "unpad: PKCS#7 padding is incorrect")
    else Ok (take (pdata_len - padding_len) padded_data).

(** *** [AES.new(key, AES.MODE_CBC, iv)] and its [encrypt]/[decrypt] *)

Definition block_size : nat := 16.

Definition xor_ascii (a b : ascii) : ascii :=
  let '(Ascii a0 a1 a2 a3 a4 a5 a6 a7) := a in
  let '(Ascii b0 b1 b2 b3 b4 b5 b6 b7) := b in
  Ascii (xorb a0 b0) (xorb a1 b1) (xorb a2 b2) (xorb a3 b3)
        (xorb a4 b4) (xorb a5 b5) (xorb a6 b6) (xorb a7 b7).

Definition xor_bytes (a b : bytes) : bytes := zip_with xor_ascii a b.

Record cbc_cipher := { cbc_key : bytes; cbc_iv : bytes }.

Definition AES_new_cbc (key iv : bytes) : result cbc_cipher :=
  if negb ((length key =? 16) || (length key =? 24) || (length key =? 32)) then
    Raise (Exn ValueError "AES.new: incorrect AES key length")
  else if negb (length iv =? 16) then
    Raise (Exn ValueError "AES.new: incorrect IV length")
  else Ok {| cbc_key := key; cbc_iv := iv |}.

Section Cipher.
Context {L : Libs}.

(** Cipher block chaining over [nblocks] blocks of [data]; [prev] is the
    previous ciphertext block, the IV at the start. *)
Fixpoint cbc_encrypt_blocks (key : bytes) (nblocks : nat) (prev data : bytes) : bytes :=
  match nblocks with
  | 0 => []
  | S n =>
      let c := aes_block_encrypt key (xor_bytes (take block_size data) prev) in
      c ++ cbc_encrypt_blocks key n c (drop block_size data)
  end.

Fixpoint cbc_decrypt_blocks (key : bytes) (nblocks : nat) (prev data : bytes) : bytes :=
  match nblocks with
  | 0 => []
  | S n =>
      let c := take block_size data in
      xor_bytes (aes_block_decrypt key c) prev
      ++ cbc_decrypt_blocks key n c (drop block_size data)
  end.

Definition cbc_encrypt (cipher : cbc_cipher) (plaintext : bytes) : result bytes :=
  if negb (length plaintext mod block_size =? 0) then
    Raise (Exn ValueError "encrypt: data must be padded to 16 byte boundary in CBC mode")
  else Ok (cbc_encrypt_blocks (cbc_key cipher) (length plaintext / block_size)
             (cbc_iv cipher) plaintext).

Definition cbc_decrypt (cipher : cbc_cipher) (ciphertext : bytes) : result bytes :=
  if negb (length ciphertext mod block_size =? 0) then
    Raise (Exn ValueError "decrypt: data must be padded to 16 byte boundary in CBC mode")
  else Ok (cbc_decrypt_blocks (cbc_key cipher) (length ciphertext / block_size)
             (cbc_iv cipher) ciphertext).

(** *** The functions of crypto.py *)

(** [rsa_encrypt(public_key_pem, plaintext)] *)
Definition rsa_encrypt (public_key_pem plaintext : string) : result string :=
  ciphertext ← rsa_pkcs1_encrypt public_key_pem (encode_utf8 plaintext);
  Ok (decode_utf8 (b64encode ciphertext)).

(** [aes_encrypt(data, key, iv)] *)
Definition aes_encrypt (data key : string) (iv : bytes) : result string :=
  cipher ← AES_new_cbc (encode_utf8 key) iv;
  ciphertext ← cbc_encrypt cipher (pad (encode_utf8 data) block_size);
  Ok (decode_utf8 (b64encode ciphertext)).

(** [aes_decrypt(ciphertext, key, iv)]: the result is the base64 text of the
    decrypted bytes. *)
Definition aes_decrypt (ciphertext key : string) (iv : bytes) : result string :=
  cipher ← AES_new_cbc (encode_utf8 key) iv;
  raw ← b64decode ciphertext;
  padded ← cbc_decrypt cipher raw;
  decrypted ← unpad padded block_size;
  Ok (decode_utf8 (b64encode decrypted)).

(** [encrypt_login_request(data, public_key, aes_key, iv)] *)
Definition encrypt_login_request (data public_key aes_key : string) (iv : bytes)
  : result dict :=
  rsa_encrypted ← rsa_encrypt public_key aes_key;
  aes_encrypted ← aes_encrypt data aes_key iv;
  Ok [("req", JStr "encrypted");
      ("iv", JStr (decode_utf8 (b64encode iv)));
      ("rsa", JStr rsa_encrypted);
      ("aes", JStr aes_encrypted)].

(** [get_signature(data, key)] *)
Definition get_signature (data key : string) : result string :=
  key_bytes ← b64decode key;
  Ok (decode_utf8 (b64encode (hmac_sha256_digest key_bytes (encode_utf8 data)))).

(** [NO_SIGN_REQUESTS] *)
Definition NO_SIGN_REQUESTS : list string :=
  ["encrypted"; "util.getSI"; "util.crypto.getRSAPub"; "ping"].

(** [req in NO_SIGN_REQUESTS]: list membership by [==]; a value that is not
    a string equals none of the entries. *)
Definition in_no_sign (req : json) : bool :=
  match req with
  | JStr s => bool_decide (s ∈ NO_SIGN_REQUESTS)
  | _ => false
  end.

(** [sign_request(data, sign_key)]. [sign_key] is [None] ([JNull]) or a
    [str]; a value of another type that is true reaches [b64decode], which
    raises [TypeError]. *)
Definition sign_request (data : dict) (sign_key : json) : result string :=
  let req := dict_get_or data "req" (JStr "") in
  let json_str := json_dumps_compact (JDict data) in
  if negb (in_no_sign req) && truthy sign_key then
    match sign_key with
    | JStr key =>
        signature ← get_signature json_str key;
        Ok (signature +:+ json_str)
    | _ => Raise (Exn TypeError "b64decode: argument should be a bytes-like object or ASCII string")
    end
  else Ok json_str.

(** Verification of a signed frame as its receiver performs it: the first 44
    characters are the signature, the HMAC is recomputed over the remaining
    text under the decoded key and compared with it. *)
Definition frame_verifies (wire : string) (key_bytes : bytes) : bool :=
  let signature := substring 0 44 wire in
  let body := substring 44 (String.length wire - 44) wire in
  bool_decide
    (decode_utf8 (b64encode (hmac_sha256_digest key_bytes (encode_utf8 body))) = signature).

End Cipher.
End Crypto.

(** ** ISO-8601 text of naive timestamps

    The text [datetime.isoformat()] writes for a naive timestamp,
    [YYYY-MM-DDTHH:MM:SS] with [.ffffff] when the microseconds are not zero,
    and the reading of exactly that text. The library's [fromisoformat]
    reads more forms than this one; the examples use only this one. *)
Module IsoFormat.

Definition is_leap (y : Z) : bool :=
  ((y mod 4 =? 0) && (negb (y mod 100 =? 0) || (y mod 400 =? 0)))%Z.

Definition days_before_year (y : Z) : Z :=
  (let p := y - 1 in p * 365 + p / 4 - p / 100 + p / 400)%Z.

Definition days_in_month (y m : Z) : Z :=
  (if m =? 2 then (if is_leap y then 29 else 28)
   else if (m =? 4) || (m =? 6) || (m =? 9) || (m =? 11) then 30 else 31)%Z.

Definition days_before_month (y m : Z) : Z :=
  (nth (Z.to_nat (m - 1)) [0; 31; 59; 90; 120; 151; 181; 212; 243; 273; 304; 334] 0
   + (if (2 <? m) && is_leap y then 1 else 0))%Z.

(** Day number of a date, 0001-01-01 being day 1. *)
Definition ymd2ord (y m d : Z) : Z :=
  (days_before_year y + days_before_month y m + d)%Z.

Definition digit_val (c : ascii) : option Z :=
  let n := Z.of_N (N_of_ascii c) in
  if ((48 <=? n) && (n <=? 57))%Z then Some (n - 48)%Z else None.

Fixpoint number (cs : bytes) (acc : Z) : option Z :=
  match cs with
  | [] => Some acc
  | c :: rest => d ← digit_val c; number rest (acc * 10 + d)%Z
  end.

Definition field (cs : bytes) (start len : nat) : option Z :=
  number (take len (drop start cs)) 0.

Definition char_at (cs : bytes) (i : nat) (c : ascii) : bool :=
  bool_decide (cs !! i = Some c).

Definition fromisoformat (s : string) : option datetime :=
  let cs := list_ascii_of_string s in
  if ((length cs =? 19) || ((length cs =? 26) && char_at cs 19 "."))
     && char_at cs 4 "-" && char_at cs 7 "-" && char_at cs 10 "T"
     && char_at cs 13 ":" && char_at cs 16 ":" then
    y ← field cs 0 4; mo ← field cs 5 2; d ← field cs 8 2;
    h ← field cs 11 2; mi ← field cs 14 2; sec ← field cs 17 2;
    us ← (if length cs =? 26 then field cs 20 6 else Some 0%Z);
    if ((1 <=? y) && (1 <=? mo) && (mo <=? 12) && (1 <=? d) && (d <=? days_in_month y mo)
        && (h <? 24) && (mi <? 60) && (sec <? 60))%Z
    then Some (naive ((((ymd2ord y mo d - 1) * 86400 + h * 3600 + mi * 60 + sec)
                       * 1000000 + us)%Z))
    else None
  else None.

(** Year, month and day of a day count from 0001-01-01 (day 0). *)
Definition civil_of_days (n : Z) : Z * Z * Z :=
  (let z := n + 306 in
   let era := z / 146097 in
   let doe := z - era * 146097 in
   let yoe := (doe - doe / 1460 + doe / 36524 - doe / 146096) / 365 in
   let doy := doe - (365 * yoe + yoe / 4 - yoe / 100) in
   let mp := (5 * doy + 2) / 153 in
   let d := doy - (153 * mp + 2) / 5 + 1 in
   let m := if mp <? 10 then mp + 3 else mp - 9 in
   (if m <=? 2 then yoe + era * 400 + 1 else yoe + era * 400, m, d))%Z.

Definition decimal (width : nat) (n : Z) : string := zfill width (pretty n).

Definition isoformat (t : datetime) : string :=
  (let us := micros t mod 1000000 in
   let secs := micros t / 1000000 in
   let '(y, m, d) := civil_of_days (secs / 86400) in
   let sod := secs mod 86400 in
   decimal 4 y +:+ "-" +:+ decimal 2 m +:+ "-" +:+ decimal 2 d +:+ "T"
   +:+ decimal 2 (sod / 3600) +:+ ":" +:+ decimal 2 (sod mod 3600 / 60)
   +:+ ":" +:+ decimal 2 (sod mod 60)
   +:+ (if us =? 0 then "" else "." +:+ decimal 6 us))%Z.

(** [timedelta(hours=v)] and [timedelta(days=v)] for the values of the
    model: an integer or a boolean is a number, anything else is a
    [TypeError]; more than 999999999 days is an [OverflowError]. *)
Definition timedelta_of (unit_micros : Z) (v : json) : result Z :=
  let build (n : Z) :=
    (if Z.abs (n * unit_micros) <=? 999999999 * 86400000000
     then Ok (n * unit_micros)
     else Raise (Exn OverflowError "timedelta: days out of range"))%Z in
  match v with
  | JInt n => build n
  | JBool b => build (if b then 1 else 0)%Z
  | _ => Raise (Exn TypeError "timedelta: unsupported type for a component")
  end.

End IsoFormat.

(** ** A small implementation of the library interface

    It serves to run the model on concrete inputs. The block "cipher" is an
    exclusive-or with the first 16 key bytes and the "digest" is the first 32
    bytes of key and message: neither is cryptography, both satisfy what the
    proofs need of AES and HMAC-SHA256. The serialiser writes compact JSON
    for values whose strings need no escaping. Timestamps are read and
    written by [IsoFormat]. *)
Module Toy.
Import Crypto.

Definition block_encrypt (key block : bytes) : bytes := xor_bytes block (take 16 key).

Definition digest (key msg : bytes) : bytes :=
  take 32 (key ++ msg ++ replicate 32 zero).

Definition quote : string := String "034"%char EmptyString.

Fixpoint dumps (v : json) : string :=
  match v with
  | JNull => "null"
  | JBool true => "true"
  | JBool false => "false"
  | JInt n => pretty n
  | JStr s => quote +:+ s +:+ quote
  | JList l =>
      "[" +:+
      (fix items (l : list json) : string :=
         match l with
         | [] => ""
         | [x] => dumps x
         | x :: r => dumps x +:+ "," +:+ items r
         end) l +:+ "]"
  | JDict d =>
      "{" +:+
      (fix fields (d : list (string * json)) : string :=
         match d with
         | [] => ""
         | [(k, x)] => quote +:+ k +:+ quote +:+ ":" +:+ dumps x
         | (k, x) :: r => quote +:+ k +:+ quote +:+ ":" +:+ dumps x +:+ "," +:+ fields r
         end) d +:+ "}"
  end.

Definition libs : Libs := {|
  aes_block_encrypt := block_encrypt;
  aes_block_decrypt := block_encrypt;
  rsa_pkcs1_encrypt := fun _ plaintext => Ok plaintext;
  hmac_sha256_digest := digest;
  json_dumps_compact := dumps;
  datetime_fromisoformat := IsoFormat.fromisoformat;
  datetime_isoformat := IsoFormat.isoformat;
  timedelta_hours := IsoFormat.timedelta_of 3600000000;
  timedelta_days := IsoFormat.timedelta_of 86400000000;
|}.

End Toy.

(** ** The program state

    [FnOsClient] objects, the module-level request-id generator, the
    persisted configuration, and the environment the program acts on. *)
Module State.

(** An [asyncio.Future] as [request] creates it. *)
Inductive future :=
| FPending
| FResult (data : dict)
| FException (e : exn)
| FCancelled.

(** [future.done()] *)
Definition done (f : future) : bool :=
  match f with FPending => false | _ => true end.

(** [self._ws]: [None], an open socket, or a socket the peer has closed. *)
Inductive socket := NoSocket | SocketOpen | SocketClosed.

(** The connection side of an [FnOsClient]: the socket, whether the
    [_listen] task is running, the table [self._pending] from request id to
    future, and the futures created so far (a future is named by its
    position in creation order). *)
Record conn := {
  ws : socket;
  listening : bool;
  pending : gmap string nat;
  futures : list future;
}.

(** [class ReqIdGenerator] *)
Record ReqIdGenerator := { _index : N }.

Record client := {
  connection : conn;
  _aes_key : string;
  _iv : bytes;
  si : json;
  pub : json;
  back_id : string;
  token : json;
  secret : json;
  sign_key : json;
  uid : json;
  admin : json;
}.

(** What the network does with one request: the server replies with a body
    (the frame carries the request's id), nothing arrives before the
    deadline, or sending fails. *)
Inductive net_outcome :=
| Reply (body : dict)
| NoReply
| SendFails.

(** The lines the program prints, by the statement that prints them. *)
Inductive out_line :=
| OutConnecting
| OutGettingPublicKey
| OutVerifyingCredentials
| OutGettingEntryToken
| OutGotEntryToken
| OutEntryTokenFailed (e : exn)
| OutFallbackWarning
| OutConfiguringGit
| OutGitHeaderFailed
| OutHooksFailed
| OutLoginSucceeded
| OutEntryTokenHint
| OutRefreshing
| OutRefreshingWithLongToken
| OutTokenRefreshed
| OutFnosTokenFailed (e : exn)
| OutLongTokenFailed (e : exn)
| OutReLogin.

(** What the program reads and does not change: the local clock
    ([datetime.now()], in microseconds since 0001-01-01T00:00:00), the
    unix time in seconds ([int(time.time())]), the preferences of
    config.json, the saved credentials as [get_credentials()] returns them,
    the values the random source yields for the session key and the IV, and
    whether the git collaborators succeed. *)
Record env := {
  e_now : Z;
  e_unix_time : Z;
  e_prefs : dict;
  e_credentials : option dict;
  e_random_key : string;
  e_random_iv : bytes;
  e_git_ok : bool;
  e_hooks_ok : bool;
}.

Record world := {
  w_env : env;
  w_server : option dict;
  w_generator : ReqIdGenerator;
  w_connects : list bool;
  w_replies : list net_outcome;
  w_git_header : option (json * json);
  w_sent : list string;
  w_out : list out_line;
  w_client : client;
}.

Definition set_server (v : option dict) (w : world) : world :=
  {| w_env := w_env w; w_server := v; w_generator := w_generator w;
     w_connects := w_connects w; w_replies := w_replies w;
     w_git_header := w_git_header w; w_sent := w_sent w; w_out := w_out w;
     w_client := w_client w |}.

Definition set_generator (v : ReqIdGenerator) (w : world) : world :=
  {| w_env := w_env w; w_server := w_server w; w_generator := v;
     w_connects := w_connects w; w_replies := w_replies w;
     w_git_header := w_git_header w; w_sent := w_sent w; w_out := w_out w;
     w_client := w_client w |}.

Definition set_connects (v : list bool) (w : world) : world :=
  {| w_env := w_env w; w_server := w_server w; w_generator := w_generator w;
     w_connects := v; w_replies := w_replies w;
     w_git_header := w_git_header w; w_sent := w_sent w; w_out := w_out w;
     w_client := w_client w |}.

Definition set_replies (v : list net_outcome) (w : world) : world :=
  {| w_env := w_env w; w_server := w_server w; w_generator := w_generator w;
     w_connects := w_connects w; w_replies := v;
     w_git_header := w_git_header w; w_sent := w_sent w; w_out := w_out w;
     w_client := w_client w |}.

Definition set_git_header (v : option (json * json)) (w : world) : world :=
  {| w_env := w_env w; w_server := w_server w; w_generator := w_generator w;
     w_connects := w_connects w; w_replies := w_replies w;
     w_git_header := v; w_sent := w_sent w; w_out := w_out w;
     w_client := w_client w |}.

Definition add_sent (message : string) (w : world) : world :=
  {| w_env := w_env w; w_server := w_server w; w_generator := w_generator w;
     w_connects := w_connects w; w_replies := w_replies w;
     w_git_header := w_git_header w; w_sent := w_sent w ++ [message];
     w_out := w_out w; w_client := w_client w |}.

Definition add_out (line : out_line) (w : world) : world :=
  {| w_env := w_env w; w_server := w_server w; w_generator := w_generator w;
     w_connects := w_connects w; w_replies := w_replies w;
     w_git_header := w_git_header w; w_sent := w_sent w;
     w_out := w_out w ++ [line]; w_client := w_client w |}.

Definition set_client (v : client) (w : world) : world :=
  {| w_env := w_env w; w_server := w_server w; w_generator := w_generator w;
     w_connects := w_connects w; w_replies := w_replies w;
     w_git_header := w_git_header w; w_sent := w_sent w; w_out := w_out w;
     w_client := v |}.

Definition set_connection (v : conn) (c : client) : client :=
  {| connection := v; _aes_key := _aes_key c; _iv := _iv c; si := si c;
     pub := pub c; back_id := back_id c; token := token c; secret := secret c;
     sign_key := sign_key c; uid := uid c; admin := admin c |}.

(** Computations of the program: they read and change the world and return
    a value or raise. *)
Definition M (A : Type) : Type := world → result A * world.

#[global] Instance M_ret : MRet M := fun A a w => (Ok a, w).
#[global] Instance M_bind : MBind M := fun A B f m w =>
  match m w with
  | (Ok a, w') => f a w'
  | (Raise e, w') => (Raise e, w')
  end.

Definition raise {A} (e : exn) : M A := fun w => (Raise e, w).
Definition lift {A} (r : result A) : M A := fun w => (r, w).
Definition get_world : M world := fun w => (Ok w, w).
Definition modify (f : world → world) : M unit := fun w => (Ok tt, f w).
Definition print (line : out_line) : M unit := modify (add_out line).

(** [try: body except Exception as e: handler] *)
Definition try_except {A} (body : M A) (handler : exn → M A) : M A := fun w =>
  match body w with
  | (Ok a, w') => (Ok a, w')
  | (Raise e, w') => handler e w'
  end.

(** [try: body finally: cleanup] *)
Definition try_finally {A} (body : M A) (cleanup : M unit) : M A := fun w =>
  match body w with
  | (r, w') =>
      match cleanup w' with
      | (Ok _, w'') => (r, w'')
      | (Raise e, w'') => (Raise e, w'')
      end
  end.

(** A computation keeps a component of the world, whatever it returns. *)
Definition keeps {X A} (proj : world → X) (m : M A) : Prop :=
  ∀ w, proj (m w).2 = proj w.

End State.
Export State.

(** ** src/config.py *)
Module Config.
Section Config.
Context {L : Libs}.

(** [DEFAULT_PREFERENCES]; the two defaults the source writes as the floats
    30.0 and 1.0 are written as the integers they equal. *)
Definition DEFAULT_PREFERENCES : dict :=
  [("timeout", JInt 30); ("device_type", JStr "Browser");
   ("device_name", JStr "fnos-git-auth"); ("language", JStr "zh");
   ("token_expire_hours", JInt 24); ("token_refresh_threshold_hours", JInt 1);
   ("fn_connect_cookie", JStr "mode=relay; language=zh");
   ("use_ssl", JBool true); ("auto_save_credentials", JBool true);
   ("auto_refresh_token", JBool true)].

(** [get_server_config()]: the [server] entry of the configuration file. *)
Definition get_server_config (w : world) : option dict := w_server w.

(** [get_preferences()] and [get_preference(key, default)] *)
Definition get_preferences (w : world) : dict :=
  dict_update DEFAULT_PREFERENCES (e_prefs (w_env w)).

Definition get_preference (w : world) (key : string) (default : json) : json :=
  dict_get_or (get_preferences w) key (dict_get_or DEFAULT_PREFERENCES key default).

(** [save_server_config(url, update_last_login, **kwargs)] *)
Definition save_server_config (url : json) (update_last_login : bool)
    (kwargs : dict) (w : world) : world :=
  let server := default [] (w_server w) in
  let server := dict_set "url" url server in
  let server :=
    if update_last_login
    then dict_set "last_login" (JStr (datetime_isoformat (naive (e_now (w_env w))))) server
    else server in
  set_server (Some (dict_update server kwargs)) w.

(** [datetime.fromisoformat(v)] on a value of any type. *)
Definition fromisoformat_value (v : json) : result datetime :=
  match v with
  | JStr s =>
      match datetime_fromisoformat s with
      | Some t => Ok t
      | None => Raise (Exn ValueError "fromisoformat: invalid isoformat string")
      end
  | _ => Raise (Exn TypeError "fromisoformat: argument must be str")
  end.

(** [_check_expires_at(expires_at_str)]; [now] is the reading of
    [datetime.now()]. *)
Definition _check_expires_at (now : Z) (expires_at_str : json) : result bool :=
  if negb (truthy expires_at_str) then Ok true
  else
    match (expires_at ← fromisoformat_value expires_at_str;
           datetime_gt (naive now) expires_at) with
    | Ok b => Ok b
    | Raise e => if is_value_or_type_error e then Ok true else Raise e
    end.

(** [not config] for the optional dictionary [get_server_config()] returns *)
Definition no_config (config : option dict) : bool :=
  match config with
  | None | Some [] => true
  | Some _ => false
  end.

(** [is_entry_token_expired()] *)
Definition is_entry_token_expired (w : world) : result bool :=
  let config := get_server_config w in
  if no_config config then Ok true
  else
    let config := default [] config in
    let expires_at :=
      py_or (dict_get config "entry_token_expires_at") (dict_get config "expires_at") in
    _check_expires_at (e_now (w_env w)) expires_at.

(** [is_fnos_token_expired()] *)
Definition is_fnos_token_expired (w : world) : result bool :=
  let config := get_server_config w in
  if no_config config then Ok true
  else
    let config := default [] config in
    let expires_at := dict_get config "fnos_token_expires_at" in
    let expires_at :=
      if negb (truthy expires_at) then dict_get config "expires_at" else expires_at in
    _check_expires_at (e_now (w_env w)) expires_at.

(** [is_long_token_expired()] *)
Definition is_long_token_expired (w : world) : result bool :=
  let config := get_server_config w in
  if no_config config then Ok true
  else
    _check_expires_at (e_now (w_env w))
      (dict_get (default [] config) "long_token_expires_at").

(** [is_token_expired()] *)
Definition is_token_expired (w : world) : result bool := is_entry_token_expired w.

(** [token_needs_refresh()] *)
Definition token_needs_refresh (w : world) : result bool :=
  let config := get_server_config w in
  if no_config config then Ok false
  else
    let config := default [] config in
    let expires_at_str :=
      py_or (dict_get config "entry_token_expires_at") (dict_get config "expires_at") in
    if negb (truthy expires_at_str) then Ok false
    else
      let threshold_hours :=
        get_preference w "token_refresh_threshold_hours" (JInt 1) in
      match (expires_at ← fromisoformat_value expires_at_str;
             threshold ← timedelta_hours threshold_hours;
             limit ← datetime_sub expires_at threshold;
             datetime_gt (naive (e_now (w_env w))) limit) with
      | Ok b => Ok b
      | Raise e => if is_value_or_type_error e then Ok false else Raise e
      end.

(** [delete_server_config()]: the tokens go, the address stays. *)
Definition delete_server_config (w : world) : world :=
  let server := default [] (w_server w) in
  let url := dict_get server "url" in
  if truthy url then set_server (Some [("url", url)]) w else set_server None w.

(** [get_token_status()] *)
Definition get_token_status (w : world) : result dict :=
  let config := get_server_config w in
  if no_config config then Ok [("logged_in", JBool false)]
  else
    let config := default [] config in
    entry_token_expired ← is_entry_token_expired w;
    fnos_token_expired ← is_fnos_token_expired w;
    long_token_expired ← is_long_token_expired w;
    Ok [("logged_in",
         JBool (truthy (py_or (dict_get config "fnos_token") (dict_get config "long_token"))));
        ("entry_token_expired", JBool entry_token_expired);
        ("fnos_token_expired", JBool fnos_token_expired);
        ("long_token_expired", JBool long_token_expired);
        ("has_credentials", JBool (truthy (dict_get config "username")))].

(** How the specification reads a stored expiry value: absent (missing or
    any false value), unparsable (not a string, or text [fromisoformat]
    rejects), a timestamp with a UTC offset (which cannot be compared with
    the naive local clock), or a local timestamp. *)
Inductive reading :=
| Absent
| Unparsable
| Aware
| Local (t : Z).

Definition read_expiry (v : json) : reading :=
  if negb (truthy v) then Absent
  else
    match v with
    | JStr s =>
        match datetime_fromisoformat s with
        | None => Unparsable
        | Some d =>
            match utcoffset d with
            | None => Local (micros d)
            | Some _ => Aware
            end
        end
    | _ => Unparsable
    end.

(** The expiry the specification states: a local timestamp [t] is expired
    at the clock reading [now] when [t < now]; every other reading is. *)
Definition expired (now : Z) (r : reading) : bool :=
  match r with
  | Local t => (t <? now)%Z
  | _ => true
  end.

(** The stored value each predicate consults: its own field, and for the
    entry token and the session token the legacy field [expires_at] when
    their own is missing or false. *)
Definition stored_entry_expiry (config : option dict) : json :=
  let config := default [] config in
  py_or (dict_get config "entry_token_expires_at") (dict_get config "expires_at").

Definition stored_fnos_expiry (config : option dict) : json :=
  let config := default [] config in
  py_or (dict_get config "fnos_token_expires_at") (dict_get config "expires_at").

Definition stored_long_expiry (config : option dict) : json :=
  dict_get (default [] config) "long_token_expires_at".

End Config.
End Config.

(** ** src/ws_client.py *)
Module WsClient.

(** *** Request ids *)

(** [ReqIdGenerator.generate(back_id)]; [unix_time] is [int(time.time())].
    The result is the id and the generator after the call. *)
Definition generate (g : ReqIdGenerator) (unix_time : Z) (back_id : string)
  : string * ReqIdGenerator :=
  let index' := (_index g + 1)%N in
  let timestamp := zfill 8 (format_hex unix_time) in
  let index := zfill 4 (format_hex_N index') in
  (timestamp +:+ back_id +:+ index, {| _index := index' |}).

(** [_reqid_generator = ReqIdGenerator()]: one generator for the module,
    shared by every client. *)
Definition _reqid_generator : ReqIdGenerator := {| _index := 0 |}.

(** The ids a sequence of calls of [generate] yields; a call is the clock
    reading and the back id it is made with. *)
Fixpoint generate_all (g : ReqIdGenerator) (calls : list (Z * string)) : list string :=
  match calls with
  | [] => []
  | (unix_time, back_id) :: rest =>
      let '(reqid, g') := generate g unix_time back_id in
      reqid :: generate_all g' rest
  end.

(** *** The pending table and the receive loop *)

Definition set_future (fid : nat) (f : future) (c : conn) : conn :=
  {| ws := ws c; listening := listening c; pending := pending c;
     futures := <[fid := f]> (futures c) |}.

Definition set_pending (p : gmap string nat) (c : conn) : conn :=
  {| ws := ws c; listening := listening c; pending := p; futures := futures c |}.

Definition stop_listening (c : conn) : conn :=
  {| ws := ws c; listening := false; pending := pending c; futures := futures c |}.

(** [future = asyncio.Future(); self._pending[reqid] = future], the last
    two statements of [request] before it waits. *)
Definition enqueue (reqid : string) (c : conn) : conn :=
  {| ws := ws c; listening := listening c;
     pending := <[reqid := length (futures c)]> (pending c);
     futures := futures c ++ [FPending] |}.

(** An inbound frame as [json.loads] reads it: a decoding error or a value. *)
Inductive frame :=
| BadJson
| Json (data : json).

(** One iteration of the loop of [_listen]. A frame that is not an object
    makes [data.get] raise [AttributeError], and a request id that is a
    non-empty list or object makes the membership test raise [TypeError]:
    both reach the outer [except Exception], which ends the loop. *)
Definition listen_message (message : frame) (c : conn) : conn :=
  if negb (listening c) then c
  else
    match message with
    | BadJson => c
    | Json (JDict data) =>
        let reqid := dict_get data "reqid" in
        if truthy reqid then
          match reqid with
          | JStr r =>
              match pending c !! r with
              | Some fid =>
                  let c' := set_pending (delete r (pending c)) c in
                  match futures c !! fid with
                  | Some FPending => set_future fid (FResult data) c'
                  | _ => c'
                  end
              | None => c
              end
          | JList _ | JDict _ => stop_listening c
          | _ => c
          end
        else c
    | Json _ => stop_listening c
    end.

(** The deadline of [asyncio.wait_for] passes: the awaited future is
    cancelled unless it is done. *)
Definition deadline (fid : nat) (c : conn) : conn :=
  match futures c !! fid with
  | Some FPending => set_future fid FCancelled c
  | _ => c
  end.

(** [self._pending.pop(reqid, None)] in the timeout handler of [request]. *)
Definition forget (reqid : string) (c : conn) : conn :=
  set_pending (delete reqid (pending c)) c.

(** The receive loop observes [websockets.ConnectionClosed]: it logs and
    returns. *)
Definition remote_closed (c : conn) : conn :=
  {| ws := match ws c with SocketOpen => SocketClosed | s => s end;
     listening := false; pending := pending c; futures := futures c |}.

(** [FnOsClient.close()]: the listen task is cancelled, the socket closed
    and [self._ws] set to [None]. *)
Definition close_connection (c : conn) : conn :=
  {| ws := NoSocket; listening := false; pending := pending c; futures := futures c |}.

(** What can happen on a connection, in any interleaving the cooperative
    scheduler allows. *)
Inductive event :=
| Enqueue (reqid : string)
| Receive (message : frame)
| Deadline (fid : nat)
| Forget (reqid : string)
| RemoteClosed
| Close.

Definition step (c : conn) (ev : event) : conn :=
  match ev with
  | Enqueue reqid => enqueue reqid c
  | Receive message => listen_message message c
  | Deadline fid => deadline fid c
  | Forget reqid => forget reqid c
  | RemoteClosed => remote_closed c
  | Close => close_connection c
  end.

Definition run (events : list event) (c : conn) : conn := fold_left step events c.

(** A response frame for the request id [reqid]. *)
Definition response (reqid : string) (body : dict) : frame :=
  Json (JDict (dict_set "reqid" (JStr reqid) body)).

(** *** The client object *)

(** [FnOsClient.__init__] *)
Definition FnOsClient_init : client :=
  {| connection := {| ws := NoSocket; listening := false; pending := ∅; futures := [] |};
     _aes_key := ""; _iv := []; si := JNull; pub := JNull;
     back_id := "0000000000000000"; token := JNull; secret := JNull;
     sign_key := JNull; uid := JNull; admin := JNull |}.

(** [is_connected] *)
Definition is_connected (c : client) : bool :=
  match ws (connection c) with SocketOpen => true | _ => false end.

Definition set_keys (key : string) (iv : bytes) (c : client) : client :=
  {| connection := connection c; _aes_key := key; _iv := iv; si := si c;
     pub := pub c; back_id := back_id c; token := token c; secret := secret c;
     sign_key := sign_key c; uid := uid c; admin := admin c |}.

Definition set_pub_si (pub' si' : json) (c : client) : client :=
  {| connection := connection c; _aes_key := _aes_key c; _iv := _iv c; si := si';
     pub := pub'; back_id := back_id c; token := token c; secret := secret c;
     sign_key := sign_key c; uid := uid c; admin := admin c |}.

Definition set_token (token' : json) (c : client) : client :=
  {| connection := connection c; _aes_key := _aes_key c; _iv := _iv c; si := si c;
     pub := pub c; back_id := back_id c; token := token'; secret := secret c;
     sign_key := sign_key c; uid := uid c; admin := admin c |}.

Definition set_secret (secret' : json) (c : client) : client :=
  {| connection := connection c; _aes_key := _aes_key c; _iv := _iv c; si := si c;
     pub := pub c; back_id := back_id c; token := token c; secret := secret';
     sign_key := sign_key c; uid := uid c; admin := admin c |}.

Definition set_sign_key (sign_key' : json) (c : client) : client :=
  {| connection := connection c; _aes_key := _aes_key c; _iv := _iv c; si := si c;
     pub := pub c; back_id := back_id c; token := token c; secret := secret c;
     sign_key := sign_key'; uid := uid c; admin := admin c |}.

Definition set_identity (back_id' : string) (uid' admin' : json) (c : client) : client :=
  {| connection := connection c; _aes_key := _aes_key c; _iv := _iv c; si := si c;
     pub := pub c; back_id := back_id'; token := token c; secret := secret c;
     sign_key := sign_key c; uid := uid'; admin := admin' |}.

Definition modify_client (f : client → client) : M unit :=
  modify (fun w => set_client (f (w_client w)) w).

Definition modify_connection (f : conn → conn) : M unit :=
  modify_client (fun c => set_connection (f (connection c)) c).

Definition get_client : M client := w ← get_world; mret (w_client w).

(** [response.get("backId", self.back_id)] kept as text. *)
Definition back_id_of (response : dict) (current : string) : string :=
  match assoc_get "backId" response with
  | Some v => py_str v
  | None => current
  end.

(** A [str] argument of a library call: a value of another type makes the
    call raise [TypeError]. *)
Definition as_str (site : string) (v : json) : result string :=
  match v with
  | JStr s => Ok s
  | _ => Raise (Exn TypeError site)
  end.

Section Client.
Context {L : Libs}.

(** [connect(server)]: a fresh session key and IV, then the socket; the
    world says whether the connection is established. *)
Definition connect (server : json) : M unit :=
  w ← get_world;
  modify_client (set_keys (e_random_key (w_env w)) (e_random_iv (w_env w)));;
  match w_connects w with
  | true :: rest =>
      modify (set_connects rest);;
      modify_connection (fun c =>
        {| ws := SocketOpen; listening := true;
           pending := pending c; futures := futures c |})
  | _ :: rest =>
      modify (set_connects rest);;
      raise (Exn ConnectionError "connect: connection failed")
  | [] => raise (Exn ConnectionError "connect: connection failed")
  end.

(** [close()] *)
Definition close : M unit := modify_connection close_connection.

(** The outcome of the wait in [request]: the result of the future if it
    has one; otherwise the deadline passes, the future is cancelled, the
    entry is removed and [TimeoutError] is raised. *)
Definition await_future (reqid : string) (fid : nat) : M dict :=
  c ← get_client;
  match futures (connection c) !! fid with
  | Some (FResult data) => mret data
  | Some (FException e) => raise e
  | _ =>
      modify_connection (deadline fid);;
      modify_connection (forget reqid);;
      raise (Exn TimeoutError "request: timed out")
  end.

Definition next_outcome : M net_outcome :=
  w ← get_world;
  match w_replies w with
  | outcome :: rest => modify (set_replies rest);; mret outcome
  | [] => mret NoReply
  end.

(** [request(req, **kwargs)] *)
Definition request (req : string) (kwargs : dict) : M dict :=
  c ← get_client;
  if negb (is_connected c) then
    raise (Exn RuntimeError "request: not connected to the server")
  else
    w ← get_world;
    let '(reqid, g) := generate (w_generator w) (e_unix_time (w_env w)) (back_id c) in
    modify (set_generator g);;
    let data := dict_update [("req", JStr req); ("reqid", JStr reqid)] kwargs in
    data ← (if bool_decide (req ∈ ["user.login"; "user.add"]) then
              lift (public_key ← as_str "RSA.import_key" (pub c);
                    Crypto.encrypt_login_request (json_dumps_compact (JDict data))
                      public_key (_aes_key c) (_iv c))
            else mret data);
    message ← lift (Crypto.sign_request data (sign_key c));
    outcome ← next_outcome;
    match outcome with
    | SendFails => raise (Exn ConnectionClosed "send: connection closed")
    | _ =>
        modify (add_sent message);;
        let fid := length (futures (connection c)) in
        modify_connection (enqueue reqid);;
        match outcome with
        | Reply body => modify_connection (listen_message (response reqid body))
        | _ => mret tt
        end;;
        await_future reqid fid
    end.

(** [get_rsa_pub()] *)
Definition get_rsa_pub : M dict :=
  response ← request "util.crypto.getRSAPub" [];
  if dict_has response "errno" then
    raise (Exn RuntimeError "get_rsa_pub: the server reported an error")
  else
    modify_client (set_pub_si (dict_get response "pub") (dict_get response "si"));;
    mret response.

(** [login(username, password, stay)], with the device type and name of the
    preferences. *)
Definition login (username password : json) (stay : bool) : M dict :=
  w ← get_world;
  let device_type := Config.get_preference w "device_type" (JStr "Browser") in
  let device_name := Config.get_preference w "device_name" (JStr "fnos-git-auth") in
  c ← get_client;
  (if negb (truthy (pub c)) then get_rsa_pub;; mret tt else mret tt);;
  c ← get_client;
  response ← request "user.login"
    [("user", username); ("password", password); ("stay", JBool stay);
     ("deviceType", device_type); ("deviceName", device_name); ("si", si c)];
  if dict_has response "errno" then
    raise (Exn RuntimeError "login: the server reported an error")
  else
    modify_client (fun c =>
      set_secret (dict_get response "secret")
        (set_token (dict_get response "token")
           (set_identity (back_id_of response (back_id c))
              (dict_get response "uid") (dict_get response "admin") c)));;
    c ← get_client;
    (if truthy (secret c) then
       key ← lift (ciphertext ← as_str "b64decode" (secret c);
                   Crypto.aes_decrypt ciphertext (_aes_key c) (_iv c));
       modify_client (set_sign_key (JStr key))
     else mret tt);;
    mret response.

(** [get_si()] *)
Definition get_si : M dict :=
  response ← request "util.getSI" [];
  modify_client (fun c => set_pub_si (pub c) (dict_get response "si") c);;
  mret response.

(** [auth_token(main)] *)
Definition auth_token (main : bool) : M dict :=
  c ← get_client;
  (if negb (truthy (si c)) then get_rsa_pub;; mret tt else mret tt);;
  c ← get_client;
  response ← request "user.authToken"
    [("token", token c); ("main", JBool main); ("si", si c)];
  if dict_has response "errno" then
    raise (Exn RuntimeError "auth_token: token validation failed")
  else
    modify_client (fun c =>
      set_identity (back_id_of response (back_id c))
        (dict_get response "uid") (dict_get response "admin") c);;
    mret response.

(** [exchange_entry_token()] *)
Definition exchange_entry_token : M dict :=
  response ← request "appcgi.sac.entry.v1.exchangeEntryToken" [];
  if dict_has response "errno" then
    raise (Exn RuntimeError "exchange_entry_token: the server reported an error")
  else mret response.

(** [token_login(long_token)] *)
Definition token_login (long_token : json) : M dict :=
  w ← get_world;
  let device_type := Config.get_preference w "device_type" (JStr "Browser") in
  let device_name := Config.get_preference w "device_name" (JStr "fnos-git-auth") in
  response ← request "user.tokenLogin"
    [("token", long_token); ("deviceType", device_type); ("deviceName", device_name)];
  if dict_has response "errno" then
    raise (Exn RuntimeError "token_login: the server reported an error")
  else
    let new_token := dict_get response "token" in
    (if truthy new_token then modify_client (set_token new_token) else mret tt);;
    let secret := dict_get response "secret" in
    (if truthy secret then
       modify_client (set_secret secret);;
       c ← get_client;
       key ← lift (ciphertext ← as_str "b64decode" secret;
                   Crypto.aes_decrypt ciphertext (_aes_key c) (_iv c));
       modify_client (set_sign_key (JStr key))
     else mret tt);;
    modify_client (fun c =>
      set_identity (back_id_of response (back_id c))
        (dict_get response "uid") (dict_get response "admin") c);;
    mret response.

End Client.
End WsClient.

(** ** src/auth.py *)
Module Auth.
Import Config WsClient.

Section Auth.
Context {L : Libs}.

(** The collaborators of git_config.py, git_hooks.py and credentials.py, by
    what they return: [set_git_extra_header] records the header it
    installs. *)
Definition set_git_extra_header (server token : json) : M bool :=
  w ← get_world;
  if e_git_ok (w_env w) then
    modify (set_git_header (Some (server, token)));; mret true
  else mret false.

Definition setup_global_hooks : M bool :=
  w ← get_world; mret (e_hooks_ok (w_env w)).

Definition get_credentials : M (option dict) :=
  w ← get_world; mret (e_credentials (w_env w)).

(** [(now + delta).isoformat()] for a [timedelta] that may fail to build. *)
Definition expires_after (w : world) (delta : result Z) : result json :=
  d ← delta;
  t ← datetime_add (naive (e_now (w_env w))) d;
  Ok (JStr (datetime_isoformat t)).

(** The inner [try] of [do_login]: the entry token the exchange yields,
    [None] when it yields none or raises. *)
Definition login_entry_token : M json :=
  try_except
    (print OutGettingEntryToken;;
     entry_response ← exchange_entry_token;
     let entry_data := dict_get_or entry_response "data" (JDict []) in
     let entry_token :=
       match entry_data with
       | JDict d => dict_get d "token"
       | _ => JNull
       end in
     (if truthy entry_token then print OutGotEntryToken else mret tt);;
     mret entry_token)
    (fun e => print (OutEntryTokenFailed e);; mret JNull).

(** [do_login(server, username, password)]; the parameter [save_creds] is
    read and not used by the source. *)
Definition do_login (server username password : json) : M unit :=
  try_finally
    (modify (set_client FnOsClient_init);;
     print OutConnecting;;
     connect server;;
     print OutGettingPublicKey;;
     get_rsa_pub;;
     print OutVerifyingCredentials;;
     response ← login username password true;
     c ← get_client;
     let fnos_token := token c in
     let long_token := dict_get response "longToken" in
     entry_token ← login_entry_token;
     let entry_token_warning := negb (truthy entry_token) in
     (if entry_token_warning then print OutFallbackWarning else mret tt);;
     let entry_token := if entry_token_warning then fnos_token else entry_token in
     if negb (truthy fnos_token) then
       raise (Exn RuntimeError "do_login: the server returned no token")
     else
       w ← get_world;
       entry_token_expires_at ←
         lift (expires_after w
                 (timedelta_hours (get_preference w "entry_token_expire_hours" (JInt 8))));
       fnos_token_expires_at ←
         lift (expires_after w
                 (timedelta_hours (get_preference w "fnos_token_expire_hours" (JInt 8))));
       long_token_expires_at ←
         (if truthy long_token
          then lift (expires_after w
                       (timedelta_days (get_preference w "long_token_expire_days" (JInt 25))))
          else mret JNull);
       c ← get_client;
       modify (save_server_config server true
         [("username", username);
          ("fnos_token", fnos_token);
          ("fnos_token_expires_at", fnos_token_expires_at);
          ("long_token", long_token);
          ("long_token_expires_at", long_token_expires_at);
          ("entry_token", entry_token);
          ("entry_token_expires_at", entry_token_expires_at);
          ("sign_key", sign_key c);
          ("uid", uid c);
          ("admin", admin c);
          ("back_id", JStr (back_id c));
          ("expires_at", entry_token_expires_at)]);;
       print OutConfiguringGit;;
       git_configured ← set_git_extra_header server entry_token;
       (if negb git_configured then print OutGitHeaderFailed else mret tt);;
       hooks_configured ← setup_global_hooks;
       (if negb hooks_configured then print OutHooksFailed else mret tt);;
       print OutLoginSucceeded;;
       (if entry_token_warning then print OutEntryTokenHint else mret tt))
    close.

(** [_get_entry_token(client)] *)
Definition _get_entry_token : M json :=
  print OutGettingEntryToken;;
  entry_response ← exchange_entry_token;
  let entry_data := dict_get_or entry_response "data" (JDict []) in
  match entry_data with
  | JDict d =>
      if truthy (dict_get d "token") then
        print OutGotEntryToken;; mret (dict_get d "token")
      else raise (Exn RuntimeError "_get_entry_token: no entry-token")
  | _ => raise (Exn RuntimeError "_get_entry_token: no entry-token")
  end.

(** [_refresh_with_fnos_token(server, fnos_token, sign_key)] *)
Definition _refresh_with_fnos_token (server fnos_token sign_key : json) : M unit :=
  try_finally
    (modify (set_client FnOsClient_init);;
     print OutRefreshing;;
     connect server;;
     modify_client (fun c => set_sign_key sign_key (set_token fnos_token c));;
     auth_token true;;
     entry_token ← _get_entry_token;
     w ← get_world;
     let config := default [] (get_server_config w) in
     entry_token_expires_at ←
       lift (expires_after w
               (timedelta_hours (get_preference w "entry_token_expire_hours" (JInt 8))));
     modify (save_server_config server false
       [("username", dict_get config "username");
        ("fnos_token", fnos_token);
        ("fnos_token_expires_at", dict_get config "fnos_token_expires_at");
        ("long_token", dict_get config "long_token");
        ("long_token_expires_at", dict_get config "long_token_expires_at");
        ("entry_token", entry_token);
        ("entry_token_expires_at", entry_token_expires_at);
        ("sign_key", sign_key);
        ("uid", dict_get config "uid");
        ("admin", dict_get config "admin");
        ("back_id", dict_get config "back_id");
        ("expires_at", entry_token_expires_at)]);;
     set_git_extra_header server entry_token;;
     print OutTokenRefreshed)
    close.

(** [_refresh_with_long_token(server, long_token)] *)
Definition _refresh_with_long_token (server long_token : json) : M unit :=
  try_finally
    (modify (set_client FnOsClient_init);;
     print OutRefreshingWithLongToken;;
     connect server;;
     get_rsa_pub;;
     response ← token_login long_token;
     c ← get_client;
     let new_fnos_token := py_or (dict_get response "token") (token c) in
     let new_sign_key := sign_key c in
     if negb (truthy new_fnos_token) then
       raise (Exn RuntimeError "_refresh_with_long_token: no new fnos_token")
     else
       entry_token ← _get_entry_token;
       w ← get_world;
       let config := default [] (get_server_config w) in
       fnos_token_expires_at ←
         lift (expires_after w
                 (timedelta_hours (get_preference w "fnos_token_expire_hours" (JInt 8))));
       entry_token_expires_at ←
         lift (expires_after w
                 (timedelta_hours (get_preference w "entry_token_expire_hours" (JInt 8))));
       c ← get_client;
       modify (save_server_config server false
         [("username", dict_get config "username");
          ("fnos_token", new_fnos_token);
          ("fnos_token_expires_at", fnos_token_expires_at);
          ("long_token", long_token);
          ("long_token_expires_at", dict_get config "long_token_expires_at");
          ("entry_token", entry_token);
          ("entry_token_expires_at", entry_token_expires_at);
          ("sign_key", new_sign_key);
          ("uid", py_or (uid c) (dict_get config "uid"));
          ("admin", py_or (admin c) (dict_get config "admin"));
          ("back_id", py_or (JStr (back_id c)) (dict_get config "back_id"));
          ("expires_at", entry_token_expires_at)]);;
       set_git_extra_header server entry_token;;
       print OutTokenRefreshed)
    close.

(** A strategy of the cascade inside its [try ... except Exception]: [true]
    when it returned, [false] when it raised (the exception is printed). *)
Definition attempt (strategy : M unit) (report : exn → out_line) : M bool :=
  try_except (strategy;; mret true) (fun e => print (report e);; mret false).

(** The third strategy of [do_refresh] and its final failure: a full login
    with the saved credentials, whose exceptions are not caught. *)
Definition login_with_saved_credentials (server : json) : M unit :=
  creds ← get_credentials;
  let creds := default [] creds in
  if truthy (dict_get creds "username") && truthy (dict_get creds "password") then
    print OutReLogin;;
    do_login server (dict_get creds "username") (dict_get creds "password")
  else
    raise (Exn RuntimeError
             "do_refresh: the tokens are no longer valid and no credentials are saved").

(** [do_refresh] from its second strategy on. *)
Definition refresh_from_long_token (server long_token : json) (long_expired : bool)
  : M unit :=
  refreshed ←
    (if truthy long_token && negb long_expired
     then attempt (_refresh_with_long_token server long_token) OutLongTokenFailed
     else mret false);
  if refreshed : bool then mret tt else login_with_saved_credentials server.

(** [do_refresh()] *)
Definition do_refresh : M unit :=
  w ← get_world;
  let config := get_server_config w in
  if no_config config || negb (truthy (dict_get (default [] config) "url")) then
    raise (Exn RuntimeError "do_refresh: not logged in")
  else
    let config := default [] config in
    let server := dict_get config "url" in
    let fnos_token := dict_get config "fnos_token" in
    let long_token := dict_get config "long_token" in
    let sign_key := dict_get config "sign_key" in
    if negb (truthy fnos_token) && negb (truthy long_token) then
      raise (Exn RuntimeError "do_refresh: not logged in")
    else
      fnos_expired ← lift (is_fnos_token_expired w);
      long_expired ← lift (is_long_token_expired w);
      refreshed ←
        (if truthy fnos_token && truthy sign_key && negb fnos_expired
         then attempt (_refresh_with_fnos_token server fnos_token sign_key)
                OutFnosTokenFailed
         else mret false);
      if refreshed : bool then mret tt
      else refresh_from_long_token server long_token long_expired.

(** The token field of an [exchangeEntryToken] response as the
    specification reads it: [data.token] when [data] is an object, [None]
    otherwise. *)
Definition entry_token_of (response : dict) : json :=
  match dict_get_or response "data" (JDict []) with
  | JDict d => dict_get d "token"
  | _ => JNull
  end.

End Auth.
End Auth.

(** ** src/credentials.py *)
Module Credentials.
Import Crypto.

(** What the module keeps on disk, and the random source: the key file
    [.key] (absent, or its bytes), the credentials file (absent or not
    readable as JSON, both of which [_read_credentials_file] turns into the
    empty dictionary, or the JSON value it holds), and the bytes
    [get_random_bytes] will yield, by position. File permissions are not
    modelled. *)
Record store := {
  key_file : option bytes;
  credentials_file : option json;
  random_byte : nat → ascii;
  random_pos : nat;
}.

(** [get_random_bytes(n)] *)
Definition get_random_bytes (n : nat) (s : store) : bytes * store :=
  (map (random_byte s) (seq (random_pos s) n),
   {| key_file := key_file s; credentials_file := credentials_file s;
      random_byte := random_byte s; random_pos := random_pos s + n |}).

Definition write_key (key : bytes) (s : store) : store :=
  {| key_file := Some key; credentials_file := credentials_file s;
     random_byte := random_byte s; random_pos := random_pos s |}.

Definition write_credentials (data : option json) (s : store) : store :=
  {| key_file := key_file s; credentials_file := data;
     random_byte := random_byte s; random_pos := random_pos s |}.

(** [bytes.decode("utf-8")]: the bytes must be well-formed UTF-8 (no
    overlong form, no surrogate, nothing above U+10FFFF); otherwise
    [UnicodeDecodeError], a [ValueError], is raised. *)
Definition byte_in (lo hi : N) (c : ascii) : bool :=
  ((lo <=? N_of_ascii c) && (N_of_ascii c <=? hi))%N.

Fixpoint valid_utf8 (b : bytes) : bool :=
  match b with
  | [] => true
  | c :: rest =>
      if byte_in 0 127 c then valid_utf8 rest
      else if byte_in 194 223 c then
        match rest with
        | c1 :: rest1 => byte_in 128 191 c1 && valid_utf8 rest1
        | _ => false
        end
      else if byte_in 224 239 c then
        match rest with
        | c1 :: c2 :: rest2 =>
            (if byte_in 224 224 c then byte_in 160 191 c1
             else if byte_in 237 237 c then byte_in 128 159 c1
             else byte_in 128 191 c1)
            && byte_in 128 191 c2 && valid_utf8 rest2
        | _ => false
        end
      else if byte_in 240 244 c then
        match rest with
        | c1 :: c2 :: c3 :: rest3 =>
            (if byte_in 240 240 c then byte_in 144 191 c1
             else if byte_in 244 244 c then byte_in 128 143 c1
             else byte_in 128 191 c1)
            && byte_in 128 191 c2 && byte_in 128 191 c3 && valid_utf8 rest3
        | _ => false
        end
      else false
  end.

Definition decode_utf8_strict (b : bytes) : result string :=
  if valid_utf8 b then Ok (decode_utf8 b)
  else Raise (Exn ValueError "decode: invalid utf-8").

Section Credentials.
Context {L : Libs}.

(** [_get_or_create_key()] *)
Definition _get_or_create_key (s : store) : bytes * store :=
  let create :=
    let '(key, s1) := get_random_bytes 32 s in
    (key, write_key key s1) in
  match key_file s with
  | Some key => if length key =? 32 then (key, s) else create
  | None => create
  end.

(** [_encrypt(data)] *)
Definition _encrypt (data : string) (s : store) : result string * store :=
  let '(key, s1) := _get_or_create_key s in
  let '(iv, s2) := get_random_bytes 16 s1 in
  (cipher ← AES_new_cbc key iv;
   ciphertext ← cbc_encrypt cipher (pad (encode_utf8 data) block_size);
   Ok (decode_utf8 (b64encode (iv ++ ciphertext))),
   s2).

(** [_decrypt(encrypted)]; the argument is the value stored in the file,
    of any JSON type. *)
Definition _decrypt (encrypted : json) (s : store) : result string * store :=
  let '(key, s1) := _get_or_create_key s in
  (text ← WsClient.as_str "b64decode" encrypted;
   data ← b64decode text;
   let iv := take 16 data in
   let ciphertext := drop 16 data in
   cipher ← AES_new_cbc key iv;
   padded ← cbc_decrypt cipher ciphertext;
   plaintext ← unpad padded block_size;
   decode_utf8_strict plaintext,
   s1).

(** [_read_credentials_file()] *)
Definition _read_credentials_file (s : store) : json :=
  default (JDict []) (credentials_file s).

(** [save_credentials(username, password)] *)
Definition save_credentials (username password : string) (s : store)
  : result unit * store :=
  match _encrypt password s with
  | (Ok encrypted, s1) =>
      (Ok tt,
       write_credentials
         (Some (JDict [("username", JStr username); ("password", JStr encrypted)])) s1)
  | (Raise e, s1) => (Raise e, s1)
  end.

(** [get_credentials()]: [data.get] raises [AttributeError] when the file
    holds JSON that is not an object; an exception of [_decrypt] is caught
    and gives [None]. *)
Definition get_credentials (s : store) : result (option dict) * store :=
  match _read_credentials_file s with
  | JDict data =>
      if negb (truthy (dict_get data "username")) || negb (truthy (dict_get data "password"))
      then (Ok None, s)
      else
        match _decrypt (dict_get data "password") s with
        | (Ok password, s1) =>
            (Ok (Some [("username", dict_get data "username");
                       ("password", JStr password)]), s1)
        | (Raise _, s1) => (Ok None, s1)
        end
  | _ => (Raise (Exn AttributeError "get_credentials: object has no attribute get"), s)
  end.

(** [delete_credentials()] *)
Definition delete_credentials (s : store) : store := write_credentials None s.

End Credentials.
End Credentials.

(** ** Outcomes of computations

    Properties of a computation that the theorems about auth.py state: it
    leaves a component of the world as it was when it raises, it never
    raises, it preserves a property of the world; and the components of the
    world that no operation of the client writes. *)
Module Outcomes.

Definition raises_keep {X A} (proj : world → X) (m : M A) : Prop :=
  ∀ w e w', m w = (Raise e, w') → proj w' = proj w.

Definition never_raises {A} (m : M A) : Prop :=
  ∀ w, is_ok (m w).1 = true.

Definition preserves {A} (P : world → Prop) (m : M A) : Prop :=
  ∀ w, P w → P (m w).2.

Definition untouched_by_client {X} (proj : world → X) : Prop :=
  (∀ w c, proj (set_client c w) = proj w) ∧
  (∀ w g, proj (set_generator g w) = proj w) ∧
  (∀ w r, proj (set_replies r w) = proj w) ∧
  (∀ w r, proj (set_connects r w) = proj w) ∧
  (∀ w s, proj (add_sent s w) = proj w) ∧
  (∀ w l, proj (add_out l w) = proj w).


(** [client.token] of the current client *)
Definition client_token (w : world) : json := token (w_client w).

End Outcomes.

(** ** Concrete inputs used by the examples *)
Module Samples.

Definition key0 : string := "00000000000000000000000000000000".
Definition iv0 : bytes := replicate 16 zero.

(** A request as [FnOsClient.request] builds it, and a signing key: the
    base64 text of the four bytes of [test]. *)
Definition info_request : dict :=
  [("req", JStr "user.info"); ("reqid", JStr "65a1b2c300000000000000000001")].
Definition test_key : string := "dGVzdA==".

(** 2026-11-04T07:23:00 on the local clock and as unix time. *)
Definition now0 : Z := 63929373780000000.

Definition env0 : env :=
  {| e_now := now0; e_unix_time := 1793776980; e_prefs := [];
     e_credentials := None; e_random_key := key0; e_random_iv := iv0;
     e_git_ok := true; e_hooks_ok := true |}.

Definition with_credentials (creds : dict) (e : env) : env :=
  {| e_now := e_now e; e_unix_time := e_unix_time e; e_prefs := e_prefs e;
     e_credentials := Some creds; e_random_key := e_random_key e;
     e_random_iv := e_random_iv e; e_git_ok := e_git_ok e;
     e_hooks_ok := e_hooks_ok e |}.

(** A world before any request: the given environment and stored server
    configuration, and what the network will do. *)
Definition world_of (e : env) (server : option dict) (connects : list bool)
    (replies : list net_outcome) : world :=
  {| w_env := e; w_server := server; w_generator := WsClient._reqid_generator;
     w_connects := connects; w_replies := replies; w_git_header := None;
     w_sent := []; w_out := []; w_client := WsClient.FnOsClient_init |}.

(** Replies of a server to [util.crypto.getRSAPub], [user.login] and
    [exchangeEntryToken]. *)
Definition pub_reply : net_outcome :=
  Reply [("pub", JStr "PEM"); ("si", JStr "si-1")].

Definition login_reply : net_outcome :=
  Reply [("token", JStr "fnos-1"); ("uid", JInt 1000); ("admin", JBool true);
         ("backId", JStr "00000000000003e8"); ("longToken", JStr "long-1")].

Definition entry_reply : net_outcome :=
  Reply [("data", JDict [("token", JStr "entry-1")])].

Definition empty_entry_reply : net_outcome := Reply [("data", JDict [])].

(** Two connections of one process, one after the other, each fetching the
    public key as its first request. *)
Definition first_connection : M dict :=
  modify (set_client WsClient.FnOsClient_init);;
  WsClient.connect (JStr "nas.example");;
  response ← WsClient.get_rsa_pub (L:=Toy.libs);
  WsClient.close;;
  mret response.

Definition second_connection : M dict :=
  modify (set_client WsClient.FnOsClient_init);;
  WsClient.connect (JStr "nas.example");;
  WsClient.get_rsa_pub (L:=Toy.libs).

(** An open connection, and the same with two requests waiting. *)
Definition open_conn : conn :=
  {| ws := SocketOpen; listening := true; pending := ∅; futures := [] |}.
Definition reqid1 : string := "6aeadd5400000000000000000001".
Definition reqid2 : string := "6aeadd5400000000000000000002".
Definition two_pending : conn :=
  WsClient.run [WsClient.Enqueue reqid1; WsClient.Enqueue reqid2] open_conn.

(** Stored configurations and replies for the refresh cascade: a session
    token that has expired with a long token that has not, and a reply to
    [user.tokenLogin] whose secret does not decrypt to padded data; a
    session token that has not expired with a signing key that is not
    base64 text. *)
Definition server_expired_session : dict :=
  [("url", JStr "nas.example"); ("username", JStr "alice");
   ("fnos_token", JStr "fnos-0");
   ("fnos_token_expires_at", JStr "2026-11-04T06:00:00");
   ("long_token", JStr "long-1");
   ("long_token_expires_at", JStr "2026-11-29T07:23:00");
   ("entry_token", JStr "entry-0");
   ("entry_token_expires_at", JStr "2026-11-04T06:00:00");
   ("sign_key", JStr "c2ln"); ("uid", JInt 1000); ("admin", JBool true);
   ("back_id", JStr "00000000000003e8")].

Definition bad_secret_reply : net_outcome :=
  Reply [("token", JStr "fnos-2"); ("secret", JStr "AAAAAAAAAAAAAAAAAAAAAA==");
         ("uid", JInt 1000); ("admin", JBool true);
         ("backId", JStr "00000000000003e8")].

Definition saved_credentials : dict :=
  [("username", JStr "alice"); ("password", JStr "pw")].

Definition world_bad_secret : world :=
  world_of (with_credentials saved_credentials env0) (Some server_expired_session)
    [true; true] [pub_reply; bad_secret_reply; pub_reply; login_reply; entry_reply].

Definition server_corrupt_key : dict :=
  [("url", JStr "nas.example"); ("username", JStr "alice");
   ("fnos_token", JStr "fnos-0");
   ("fnos_token_expires_at", JStr "2026-11-04T09:00:00");
   ("long_token", JStr "long-1");
   ("long_token_expires_at", JStr "2026-11-29T07:23:00");
   ("entry_token", JStr "entry-0");
   ("entry_token_expires_at", JStr "2026-11-04T06:00:00");
   ("sign_key", JStr "a"); ("uid", JInt 1000); ("admin", JBool true);
   ("back_id", JStr "00000000000003e8")].

Definition token_login_reply : net_outcome :=
  Reply [("token", JStr "fnos-2"); ("uid", JInt 1000); ("admin", JBool true);
         ("backId", JStr "00000000000003e8")].

Definition world_corrupt_key : world :=
  world_of env0 (Some server_corrupt_key) [true; true]
    [pub_reply; pub_reply; token_login_reply; entry_reply].

(** A connected client whose exchange request is answered without a token,
    and the worlds of a login whose exchange yields no token. *)
Definition world_connected_no_token : world :=
  (WsClient.connect (JStr "nas.example")
     (world_of env0 None [true] [empty_entry_reply])).2.

Definition login_world : world :=
  world_of env0 None [true] [pub_reply; login_reply; empty_entry_reply].

Definition login_world1 : world :=
  (WsClient.connect (JStr "nas.example")
     (add_out OutConnecting (set_client WsClient.FnOsClient_init login_world))).2.

Definition login_world2 : world :=
  (WsClient.get_rsa_pub (L:=Toy.libs) (add_out OutGettingPublicKey login_world1)).2.

Definition login_world3 : world :=
  (WsClient.login (L:=Toy.libs) (JStr "alice") (JStr "pw") true
     (add_out OutVerifyingCredentials login_world2)).2.

Definition login_world4 : world :=
  (WsClient.exchange_entry_token (L:=Toy.libs)
     (add_out OutGettingEntryToken login_world3)).2.

Definition two_calls : list (Z * string) :=
  [(1793776980%Z, "0000000000000000"); (1793776980%Z, "0000000000000000")].

(** Stored configurations: one whose entry token expires exactly at [now0],
    one without any expiry field, one whose expiry is not a timestamp. *)
Definition server_expiring_now : dict :=
  [("url", JStr "nas.example"); ("entry_token", JStr "entry-1");
   ("entry_token_expires_at", JStr "2026-11-04T07:23:00")].

Definition server_without_expiry : dict :=
  [("url", JStr "nas.example"); ("entry_token", JStr "entry-1")].

Definition server_garbled_expiry : dict :=
  [("url", JStr "nas.example"); ("entry_token", JStr "entry-1");
   ("entry_token_expires_at", JStr "tomorrow")].

(** A connected client that holds a signing key that is not base64 text;
    the kwargs of a login, and the envelope of the login request of
    [login_world2]. *)
Definition world_bad_sign_key : world :=
  set_client (WsClient.set_sign_key (JStr "a") (w_client world_connected_no_token))
    world_connected_no_token.

Definition login_kwargs : dict :=
  [("user", JStr "alice"); ("password", JStr "pw"); ("stay", JBool true);
   ("deviceType", JStr "Browser"); ("deviceName", JStr "fnos-git-auth");
   ("si", JStr "si-1")].

Definition login_envelope0 : dict :=
  match Crypto.encrypt_login_request (L:=Toy.libs)
          (Toy.dumps (JDict (dict_update
             [("req", JStr "user.login"); ("reqid", JStr "6aeadd5400000000000000000002")]
             login_kwargs)))
          "PEM" key0 iv0 with
  | Ok envelope => envelope
  | Raise _ => []
  end.

(** An environment whose configuration file sets two preferences. *)
Definition env_with_prefs : env :=
  {| e_now := now0; e_unix_time := 1793776980;
     e_prefs := [("timeout", JInt 60); ("language", JNull)];
     e_credentials := None; e_random_key := key0; e_random_iv := iv0;
     e_git_ok := true; e_hooks_ok := true |}.

(** Worlds for the cascade: every connection fails and no credentials are
    saved; a login that is answered in full; a valid session token; a
    reply to [user.tokenLogin] that carries no token. *)
Definition world_offline : world :=
  world_of env0 (Some server_expired_session) [false] [].

Definition world_login_ok : world :=
  world_of env0 None [true] [pub_reply; login_reply; entry_reply].

Definition world_session_ok : world :=
  world_of env0 (Some server_expired_session) [true]
    [pub_reply; token_login_reply; entry_reply].

Definition tokenless_reply : net_outcome := Reply [("uid", JInt 1000)].

Definition world_tokenless : world :=
  world_of env0 (Some server_expired_session) [true] [pub_reply; tokenless_reply].

(** A machine on which nothing has been saved yet; its random source yields
    the bytes 0, 1, 2, ... *)
Definition store0 : Credentials.store :=
  {| Credentials.key_file := None; Credentials.credentials_file := None;
     Credentials.random_byte := ascii_of_nat; Credentials.random_pos := 0 |}.

(** A connected client whose next request is answered with an error. *)
Definition world_error_reply : world :=
  (WsClient.connect (JStr "nas.example")
     (world_of env0 None [true] [Reply [("errno", JInt 1)]])).2.


(** A stored configuration whose entry token expires at the first instant
    of the calendar. *)
Definition server_year_one : dict :=
  [("url", JStr "nas.example"); ("fnos_token", JStr "fnos-0");
   ("entry_token", JStr "entry-0");
   ("entry_token_expires_at", JStr "0001-01-01T00:00:00")].

End Samples.

(** * Properties *)

(** ** Base64 *)
Module Base64Facts.
Import Crypto.

Lemma forallb_below (P : N → bool) (k : nat) :
  forallb P (map N.of_nat (seq 0 k)) = true → ∀ n : N, (N.to_nat n < k)%nat → P n = true.
Proof.
  intros H n Hn. rewrite forallb_forall in H. apply H.
  apply in_map_iff. exists (N.to_nat n). split; [apply N2Nat.id|].
  apply in_seq. lia.
Qed.

Lemma b64_index_char (n : N) : (n < 64)%N → b64_index (b64_char n) = Some n.
Proof.
  intros Hn.
  pose (P := fun n => bool_decide (b64_index (b64_char n) = Some n)).
  assert (HP : P n = true).
  { apply (forallb_below P 64); [by vm_compute | lia]. }
  unfold P in HP. by apply bool_decide_eq_true in HP.
Qed.

Lemma b64_char_not_pad (n : N) : (n < 64)%N → Ascii.eqb (b64_char n) b64_pad = false.
Proof.
  intros Hn. apply Ascii.eqb_neq. intros Heq.
  apply (f_equal b64_index) in Heq. rewrite b64_index_char in Heq by done.
  discriminate Heq.
Qed.

Lemma a2b_data_char (n : N) (rest : bytes) (quad_pos : nat) (leftchar : N) (pads : nat) :
  (n < 64)%N →
  a2b_base64 (b64_char n :: rest) quad_pos leftchar pads =
  match quad_pos with
  | 0 => a2b_base64 rest 1 n 0
  | 1 => cons_ok (ascii_of_N (leftchar * 4 + n / 16)) (a2b_base64 rest 2 (n mod 16)%N 0)
  | 2 => cons_ok (ascii_of_N (leftchar * 16 + n / 4)) (a2b_base64 rest 3 (n mod 4)%N 0)
  | _ => cons_ok (ascii_of_N (leftchar * 64 + n)) (a2b_base64 rest 0 0 0)
  end.
Proof.
  intros Hn. cbn [a2b_base64].
  by rewrite b64_char_not_pad, b64_index_char.
Qed.

Lemma list_ind3 {A} (P : list A → Prop) :
  P [] → (∀ a, P [a]) → (∀ a b, P [a; b]) →
  (∀ a b c rest, P rest → P (a :: b :: c :: rest)) →
  ∀ l, P l.
Proof.
  intros H0 H1 H2 H3.
  fix IH 1. intros [|a [|b [|c rest]]].
  - exact H0.
  - apply H1.
  - apply H2.
  - apply H3, IH.
Qed.

Ltac n_arith := zify; Z.to_euclidean_division_equations; lia.

Lemma ascii_of_N_eq (a : ascii) (n : N) : n = N_of_ascii a → ascii_of_N n = a.
Proof. intros ->. apply ascii_N_embedding. Qed.

(** Decoding undoes encoding, from the start state of the decoder. *)
Lemma a2b_base64_b64encode (bs : bytes) : a2b_base64 (b64encode bs) 0 0 0 = Ok bs.
Proof.
  induction bs as [|a|a b|a b c rest IH] using list_ind3.
  - done.
  - pose proof (N_ascii_bounded a).
    cbn [b64encode]. rewrite !a2b_data_char by n_arith.
    cbn. f_equal. f_equal. apply ascii_of_N_eq. n_arith.
  - pose proof (N_ascii_bounded a). pose proof (N_ascii_bounded b).
    cbn [b64encode]. rewrite !a2b_data_char by n_arith.
    cbn. f_equal. f_equal; [|f_equal]; apply ascii_of_N_eq; n_arith.
  - pose proof (N_ascii_bounded a). pose proof (N_ascii_bounded b).
    pose proof (N_ascii_bounded c).
    cbn [b64encode app]. rewrite !a2b_data_char by n_arith.
    rewrite IH. cbn. f_equal.
    f_equal; [|f_equal; [|f_equal]]; apply ascii_of_N_eq; n_arith.
Qed.

Lemma b64_char_ascii (n : N) : (n < 64)%N → (N_of_ascii (b64_char n) <? 128)%N = true.
Proof.
  intros Hn.
  apply (forallb_below (fun n => (N_of_ascii (b64_char n) <? 128)%N) 64); [by vm_compute | lia].
Qed.

Lemma is_ascii_b64encode (bs : bytes) : is_ascii_text (b64encode bs) = true.
Proof.
  induction bs as [|a|a b|a b c rest IH] using list_ind3.
  - done.
  - pose proof (N_ascii_bounded a). cbn [b64encode is_ascii_text forallb].
    rewrite !b64_char_ascii by n_arith. done.
  - pose proof (N_ascii_bounded a). pose proof (N_ascii_bounded b).
    cbn [b64encode is_ascii_text forallb].
    rewrite !b64_char_ascii by n_arith. done.
  - pose proof (N_ascii_bounded a). pose proof (N_ascii_bounded b).
    pose proof (N_ascii_bounded c).
    cbn [b64encode app is_ascii_text forallb].
    rewrite !b64_char_ascii by n_arith. exact IH.
Qed.

Lemma b64decode_b64encode (bs : bytes) :
  b64decode (decode_utf8 (b64encode bs)) = Ok bs.
Proof.
  unfold b64decode, encode_utf8, decode_utf8.
  rewrite list_ascii_of_string_of_list_ascii, is_ascii_b64encode.
  apply a2b_base64_b64encode.
Qed.

(** The encoded text has four characters for every three bytes, rounded up. *)
Lemma length_b64encode (bs : bytes) : length (b64encode bs) = 4 * ((length bs + 2) / 3).
Proof.
  induction bs as [|a|a b|a b c rest IH] using list_ind3; try done.
  cbn [b64encode app length]. rewrite IH.
  replace (S (S (S (length rest))) + 2) with (1 * 3 + (length rest + 2)) by lia.
  rewrite Nat.div_add_l by lia. lia.
Qed.

Lemma length_decode_utf8 (b : bytes) : String.length (decode_utf8 b) = length b.
Proof. induction b as [|c b IH]; [done|]. cbn. f_equal. exact IH. Qed.

End Base64Facts.

(** ** The cipher suite *)
Module CryptoFacts.
Import Crypto Base64Facts Samples.

Lemma length_pad (d : bytes) : length (pad d block_size) mod block_size = 0 ∧ 0 < length (pad d block_size).
Proof.
  unfold pad, block_size. rewrite length_app, length_replicate. n_arith.
Qed.

Lemma unpad_pad (d : bytes) : unpad (pad d block_size) block_size = Ok d.
Proof.
  pose proof (length_pad d) as [Hmod Hpos].
  unfold unpad. 
  destruct (Nat.eqb_spec (length (pad d block_size)) 0) as [?|_]; [lia|].
  rewrite Hmod. cbn [Nat.eqb negb].
  unfold pad, block_size in *.
  set (p := 16 - length d mod 16) in *.
  assert (Hp : 1 ≤ p ≤ 16) by (subst p; n_arith).
  rewrite length_app, length_replicate in *.
  assert (Hlast : List.last (d ++ replicate p (ascii_of_nat p)) zero = ascii_of_nat p).
  { destruct p as [|p']; [lia|]. rewrite replicate_S_end, app_assoc. apply last_last. }
  rewrite Hlast, nat_ascii_embedding by lia.
  destruct (Nat.ltb_spec p 1) as [?|_]; [lia|].
  destruct (Nat.ltb_spec (Nat.min 16 (length d + p)) p) as [?|_]; [lia|].
  cbn [orb].
  replace (length d + p - p) with (length d) by lia.
  rewrite drop_app_length, take_app_length.
  rewrite bool_decide_eq_true_2 by done. done.
Qed.

Lemma xor_ascii_cancel (a b : ascii) : xor_ascii (xor_ascii a b) b = a.
Proof.
  destruct a, b. cbn. f_equal; rewrite xorb_assoc, xorb_nilpotent, xorb_false_r; done.
Qed.

Lemma xor_bytes_cancel (a b : bytes) : length a = length b → xor_bytes (xor_bytes a b) b = a.
Proof.
  revert b. induction a as [|x a IH]; intros [|y b] Hlen; try done.
  cbn. rewrite xor_ascii_cancel. f_equal. apply IH. by injection Hlen.
Qed.

Lemma length_xor_bytes (a b : bytes) : length (xor_bytes a b) = Nat.min (length a) (length b).
Proof. apply length_zip_with. Qed.

Section CbcFacts.
Context (L : Libs) (HL : block_cipher_ok L).

Lemma cbc_blocks_roundtrip (key : bytes) (n : nat) (prev data : bytes) :
  length key = 32 → length prev = 16 → length data = n * 16 →
  cbc_decrypt_blocks key n prev (cbc_encrypt_blocks key n prev data) = data.
Proof.
  intros Hk. revert prev data. induction n as [|n IH]; intros prev data Hprev Hdata.
  - destruct data; done.
  - cbn [cbc_encrypt_blocks cbc_decrypt_blocks]. unfold block_size.
    set (b := xor_bytes (take 16 data) prev).
    assert (Hb : length b = 16).
    { subst b. rewrite length_xor_bytes, length_take. lia. }
    destruct (HL key b Hk Hb) as [Hlen Hinv].
    rewrite take_app_length' by done. rewrite drop_app_length' by done.
    rewrite Hinv. subst b. rewrite xor_bytes_cancel by (rewrite length_take; lia).
    rewrite IH; [apply take_drop | done | rewrite length_drop; lia].
Qed.

Lemma length_cbc_encrypt_blocks (key : bytes) (n : nat) (prev data : bytes) :
  length key = 32 → length prev = 16 → length data = n * 16 →
  length (cbc_encrypt_blocks key n prev data) = n * 16.
Proof.
  intros Hk. revert prev data. induction n as [|n IH]; intros prev data Hprev Hdata; [done|].
  cbn [cbc_encrypt_blocks]. unfold block_size.
  set (b := xor_bytes (take 16 data) prev).
  assert (Hb : length b = 16).
  { subst b. rewrite length_xor_bytes, length_take. lia. }
  destruct (HL key b Hk Hb) as [Hlen Hinv].
  rewrite length_app, Hlen, IH; [lia | done | rewrite length_drop; lia].
Qed.

End CbcFacts.

Lemma length_encode_utf8 (s : string) : length (encode_utf8 s) = String.length s.
Proof. induction s as [|c s IH]; [done|]. cbn. f_equal. exact IH. Qed.

Lemma AES_new_cbc_ok (key iv : bytes) :
  length key = 32 → length iv = 16 →
  AES_new_cbc key iv = Ok {| cbc_key := key; cbc_iv := iv |}.
Proof. intros Hk Hiv. unfold AES_new_cbc. rewrite Hk, Hiv. done. Qed.

Lemma bind_Ok {A B} (a : A) (f : A → result B) : (Ok a ≫= f) = f a.
Proof. done. Qed.

(** C4 (as the code has it). For every payload, 32-byte key and 16-byte IV,
    [aes_encrypt] succeeds and [aes_decrypt] of its result returns the base64
    text of the payload's bytes, not the payload: one more base64 decoding
    gives the payload back. This holds for every block cipher whose
    decryption inverts its encryption. *)
Theorem aes_roundtrip_base64 (L : Libs) (payload key : string) (iv : bytes) :
  block_cipher_ok L → String.length key = 32 → length iv = 16 →
  ∃ ciphertext,
    aes_encrypt payload key iv = Ok ciphertext ∧
    aes_decrypt ciphertext key iv
      = Ok (decode_utf8 (b64encode (encode_utf8 payload))) ∧
    b64decode (decode_utf8 (b64encode (encode_utf8 payload)))
      = Ok (encode_utf8 payload).
Proof.
  intros HL Hk Hiv.
  pose proof (length_pad (encode_utf8 payload)) as [Hmod Hpos].
  set (padded := pad (encode_utf8 payload) block_size) in *.
  assert (Hn : length padded = length padded / block_size * 16).
  { unfold block_size in *. n_arith. }
  eexists. split; [|split].
  - unfold aes_encrypt. rewrite AES_new_cbc_ok by (by rewrite ?length_encode_utf8).
    rewrite bind_Ok. unfold cbc_encrypt. fold padded. rewrite Hmod.
    cbn [Nat.eqb negb cbc_key cbc_iv]. rewrite bind_Ok. reflexivity.
  - unfold aes_decrypt. rewrite AES_new_cbc_ok by (by rewrite ?length_encode_utf8).
    rewrite bind_Ok, b64decode_b64encode, bind_Ok.
    unfold cbc_decrypt. cbn [cbc_key cbc_iv].
    rewrite (length_cbc_encrypt_blocks L HL) by (by rewrite ?length_encode_utf8).
    replace (length padded / block_size * 16 mod block_size) with 0
      by (unfold block_size; n_arith).
    cbn [Nat.eqb negb]. rewrite bind_Ok.
    replace (length padded / block_size * 16 / block_size)
      with (length padded / block_size) by (unfold block_size; n_arith).
    rewrite (cbc_blocks_roundtrip L HL) by (by rewrite ?length_encode_utf8).
    unfold padded. rewrite unpad_pad, bind_Ok. reflexivity.
  - apply b64decode_b64encode.
Qed.

Lemma b64encode_not_single (bs : bytes) (c : ascii) : b64encode bs ≠ [c].
Proof.
  intros H. apply (f_equal length) in H. rewrite length_b64encode in H.
  cbn in H. lia.
Qed.

(** C4 as stated fails: for no implementation of the primitives does
    decrypting the encryption of the payload [a] return [a]. The result of
    [aes_decrypt] is base64 text, whose length is a multiple of four. *)
Lemma aes_roundtrip_not_identity :
  ¬ ∃ L : Libs,
      (ciphertext ← aes_encrypt (L:=L) "a" key0 iv0;
       aes_decrypt (L:=L) ciphertext key0 iv0) = Ok "a".
Proof.
  intros [L H].
  unfold aes_encrypt in H. rewrite AES_new_cbc_ok in H by done.
  rewrite bind_Ok in H. unfold cbc_encrypt in H.
  change (length (pad (encode_utf8 "a") block_size) mod block_size) with 0 in H.
  cbn [Nat.eqb negb] in H. rewrite !bind_Ok in H.
  unfold aes_decrypt in H. rewrite AES_new_cbc_ok in H by done.
  rewrite bind_Ok, b64decode_b64encode, bind_Ok in H.
  destruct (cbc_decrypt _ _) as [padded|e]; [|discriminate H].
  rewrite bind_Ok in H.
  destruct (unpad padded block_size) as [decrypted|e]; [|discriminate H].
  rewrite bind_Ok in H. injection H as H.
  apply (f_equal encode_utf8) in H. unfold encode_utf8, decode_utf8 in H.
  rewrite list_ascii_of_string_of_list_ascii in H.
  by eapply b64encode_not_single.
Qed.

Lemma substring_all (s : string) : substring 0 (String.length s) s = s.
Proof. induction s as [|c s IH]; [done|]. cbn. f_equal. exact IH. Qed.

Lemma substring_app_l (a b : string) : substring 0 (String.length a) (a +:+ b) = a.
Proof. induction a as [|c a IH]; simpl; [by destruct b | f_equal; exact IH]. Qed.

Lemma substring_app_r (a b : string) :
  substring (String.length a) (String.length b) (a +:+ b) = b.
Proof. induction a as [|c a IH]; simpl; [apply substring_all | exact IH]. Qed.

Lemma length_string_app (a b : string) :
  String.length (a +:+ b) = String.length a + String.length b.
Proof. induction a as [|c a IH]; simpl; [done | f_equal; exact IH]. Qed.

Lemma length_signature (L : Libs) (key msg : bytes) :
  hmac_digest_ok L →
  String.length (decode_utf8 (b64encode (hmac_sha256_digest key msg))) = 44.
Proof. intros HL. rewrite length_decode_utf8, length_b64encode, HL. done. Qed.

(** C5. For a request whose [req] is outside the allow-list and a signing key
    that is a non-empty base64 text, [sign_request] returns the 44-character
    base64 HMAC-SHA256 signature of the compact JSON followed directly by
    that JSON, and the signature verifies against the remaining text under
    the decoded key; when [req] is in the allow-list or the key is [None] or
    empty, it returns the bare compact JSON. *)
Theorem sign_request_wire (L : Libs) (data : dict) (sign_key : json) :
  hmac_digest_ok L →
  let req := dict_get_or data "req" (JStr "") in
  let json_str := json_dumps_compact (JDict data) in
  (∀ key key_bytes,
     in_no_sign req = false → sign_key = JStr key → key ≠ "" →
     b64decode key = Ok key_bytes →
     ∃ signature,
       sign_request data sign_key = Ok (signature +:+ json_str) ∧
       String.length signature = 44 ∧
       get_signature json_str key = Ok signature ∧
       frame_verifies (signature +:+ json_str) key_bytes = true) ∧
  (in_no_sign req = true ∨ truthy sign_key = false →
     sign_request data sign_key = Ok json_str).
Proof.
  intros HL req json_str. split.
  - intros key key_bytes Hreq -> Hkey Hdec.
    set (signature := decode_utf8 (b64encode
           (hmac_sha256_digest key_bytes (encode_utf8 json_str)))).
    assert (Hlen : String.length signature = 44) by by apply length_signature.
    assert (Hsig : get_signature json_str key = Ok signature).
    { unfold get_signature. by rewrite Hdec. }
    exists signature. repeat split; try done.
    + unfold sign_request. fold req. fold json_str. rewrite Hreq.
      cbn [negb andb truthy]. destruct (String.eqb_spec key "") as [?|_]; [done|].
      cbn [negb]. by rewrite Hsig.
    + unfold frame_verifies. apply bool_decide_eq_true_2.
      rewrite length_string_app, Hlen.
      replace (44 + String.length json_str - 44) with (String.length json_str) by lia.
      pose proof (substring_app_l signature json_str) as Hl.
      pose proof (substring_app_r signature json_str) as Hr.
      rewrite Hlen in Hl, Hr. by rewrite Hl, Hr.
  - intros H. unfold sign_request. fold req. fold json_str.
    destruct H as [-> | ->]; [done | by rewrite andb_false_r].
Qed.

Lemma toy_block_cipher_ok : block_cipher_ok Toy.libs.
Proof.
  intros key block Hk Hb. cbn. unfold Toy.block_encrypt.
  assert (Hlen : length block = length (take 16 key)) by (rewrite length_take; lia).
  split.
  - rewrite length_xor_bytes. lia.
  - by apply xor_bytes_cancel.
Qed.

Lemma toy_hmac_digest_ok : hmac_digest_ok Toy.libs.
Proof.
  intros key msg. cbn. unfold Toy.digest.
  rewrite length_take, !length_app, length_replicate. lia.
Qed.

(** The round trip of C4 on the payload [a]: the result is [YQ==]. *)
Lemma aes_roundtrip_base64_witness :
  block_cipher_ok Toy.libs ∧ String.length key0 = 32 ∧ length iv0 = 16 ∧
  ∃ ciphertext,
    aes_encrypt (L:=Toy.libs) "a" key0 iv0 = Ok ciphertext ∧
    aes_decrypt (L:=Toy.libs) ciphertext key0 iv0 = Ok "YQ==" ∧
    b64decode "YQ==" = Ok (encode_utf8 "a").
Proof.
  split; [exact toy_block_cipher_ok|]. split; [reflexivity|]. split; [reflexivity|].
  exact (aes_roundtrip_base64 Toy.libs "a" key0 iv0 toy_block_cipher_ok eq_refl eq_refl).
Defined.

(** The signed branch of C5 on a [user.info] request. *)
Lemma sign_request_wire_witness :
  hmac_digest_ok Toy.libs ∧
  in_no_sign (dict_get_or info_request "req" (JStr "")) = false ∧
  b64decode test_key = Ok (encode_utf8 "test") ∧
  ∃ signature,
    sign_request (L:=Toy.libs) info_request (JStr test_key)
      = Ok (signature +:+ Toy.dumps (JDict info_request)) ∧
    String.length signature = 44 ∧
    get_signature (L:=Toy.libs) (Toy.dumps (JDict info_request)) test_key = Ok signature ∧
    frame_verifies (L:=Toy.libs) (signature +:+ Toy.dumps (JDict info_request))
      (encode_utf8 "test") = true.
Proof.
  split; [exact toy_hmac_digest_ok|]. split; [reflexivity|]. split; [reflexivity|].
  refine (proj1 (sign_request_wire Toy.libs info_request (JStr test_key)
                   toy_hmac_digest_ok) test_key (encode_utf8 "test") eq_refl eq_refl _ eq_refl).
  discriminate.
Defined.

End CryptoFacts.

(** ** Expiry bookkeeping *)
Module ConfigFacts.
Import Config Samples.

Section ConfigFacts.
Context (L : Libs).

Lemma check_expires_at_reading (now : Z) (v : json) :
  _check_expires_at now v = Ok (expired now (read_expiry v)).
Proof.
  unfold _check_expires_at, read_expiry.
  destruct (truthy v); cbn [negb]; [|done].
  destruct v as [|b|n|s|l|d]; try done.
  cbn [fromisoformat_value].
  destruct (datetime_fromisoformat s) as [[t [off|]]|]; done.
Qed.

Lemma no_config_stored (config : option dict) (field : string) :
  no_config config = true → dict_get (default [] config) field = JNull.
Proof. destruct config as [[|]|]; done. Qed.

Lemma is_entry_token_expired_reading (w : world) :
  is_entry_token_expired w
  = Ok (expired (e_now (w_env w)) (read_expiry (stored_entry_expiry (w_server w)))).
Proof.
  unfold is_entry_token_expired, stored_entry_expiry, get_server_config.
  destruct (no_config (w_server w)) eqn:Hno.
  - by rewrite !no_config_stored.
  - apply check_expires_at_reading.
Qed.

Lemma is_fnos_token_expired_reading (w : world) :
  is_fnos_token_expired w
  = Ok (expired (e_now (w_env w)) (read_expiry (stored_fnos_expiry (w_server w)))).
Proof.
  unfold is_fnos_token_expired, stored_fnos_expiry, get_server_config, py_or.
  destruct (no_config (w_server w)) eqn:Hno.
  - by rewrite !no_config_stored.
  - rewrite check_expires_at_reading.
    by destruct (truthy (dict_get _ "fnos_token_expires_at")).
Qed.

Lemma is_long_token_expired_reading (w : world) :
  is_long_token_expired w
  = Ok (expired (e_now (w_env w)) (read_expiry (stored_long_expiry (w_server w)))).
Proof.
  unfold is_long_token_expired, stored_long_expiry, get_server_config.
  destruct (no_config (w_server w)) eqn:Hno.
  - by rewrite !no_config_stored.
  - apply check_expires_at_reading.
Qed.

Lemma token_needs_refresh_true (w : world) :
  token_needs_refresh w = Ok true ↔
  ∃ t threshold,
    read_expiry (stored_entry_expiry (w_server w)) = Local t ∧
    timedelta_hours (get_preference w "token_refresh_threshold_hours" (JInt 1))
      = Ok threshold ∧
    in_range (t - threshold) = true ∧
    (t - threshold < e_now (w_env w))%Z.
Proof.
  unfold token_needs_refresh, stored_entry_expiry, get_server_config, read_expiry.
  destruct (no_config (w_server w)) eqn:Hno.
  { rewrite !no_config_stored by done. cbn. split; [done|]. by intros (t & thr & ? & _). }
  set (v := py_or _ _).
  destruct (truthy v); cbn [negb].
  2:{ split; [done|]. by intros (t & thr & ? & _). }
  destruct v as [|b|n|s|l|d];
    try (cbn; split; [done|]; by intros (t & thr & ? & _)).
  cbn [fromisoformat_value].
  destruct (datetime_fromisoformat s) as [[t off]|];
    [|cbn; split; [done|]; by intros (t & thr & ? & _)].
  cbn [mbind result_bind].
  set (pref := get_preference _ _ _).
  destruct (timedelta_hours pref) as [thr|e] eqn:Hthr.
  2:{ cbn [mbind result_bind].
      split; [by destruct (is_value_or_type_error e)|]. by intros (t' & thr & _ & ? & _). }
  cbn [mbind result_bind].
  unfold datetime_sub, datetime_add. cbn [micros utcoffset].
  rewrite Z.add_opp_r.
  destruct (in_range (t - thr)) eqn:Hrange.
  2:{ cbn. split; [done|]. intros (t' & thr' & Ht & Hthr' & Hr & _).
      destruct off; [done|]. injection Ht as <-. injection Hthr' as <-. congruence. }
  cbn [mbind result_bind]. unfold datetime_gt. cbn [utcoffset naive micros].
  destruct off as [off|].
  { cbn. split; [done|]. by intros (t' & thr' & ? & _). }
  split.
  - intros H. injection H as H. apply Z.ltb_lt in H. by exists t, thr.
  - intros (t' & thr' & Ht & Hthr' & _ & Hlt).
    injection Ht as <-. injection Hthr' as <-. f_equal. by apply Z.ltb_lt.
Qed.

Lemma token_needs_refresh_absent (w : world) :
  read_expiry (stored_entry_expiry (w_server w)) = Absent ∨
  read_expiry (stored_entry_expiry (w_server w)) = Unparsable →
  token_needs_refresh w = Ok false.
Proof.
  unfold token_needs_refresh, stored_entry_expiry, get_server_config, read_expiry.
  destruct (no_config (w_server w)) eqn:Hno; [done|].
  set (v := py_or _ _).
  destruct (truthy v); cbn [negb]; [|done].
  destruct v as [|b|n|s|l|d]; try done; intros [H|H]; try done.
  - by destruct (datetime_fromisoformat s) as [[t [off|]]|].
  - cbn [fromisoformat_value].
    by destruct (datetime_fromisoformat s) as [[t [off|]]|].
Qed.

End ConfigFacts.


(** C3 (as the code has it). [_check_expires_at] returns true exactly when
    the stored value is absent, unparsable, carries a UTC offset, or is a
    local timestamp strictly before the clock reading; at a timestamp equal
    to the clock reading it returns false. The three predicates apply it to
    the value they consult. [token_needs_refresh] returns true exactly when
    the stored value is a local timestamp [t], the configured threshold
    builds a [timedelta], [t - threshold] is a representable date, and
    [t - threshold < now]. *)
Theorem expiry_predicates (L : Libs) (w : world) (now : Z) (v : json) :
  _check_expires_at now v = Ok (expired now (read_expiry v)) ∧
  is_entry_token_expired w
    = Ok (expired (e_now (w_env w)) (read_expiry (stored_entry_expiry (w_server w)))) ∧
  is_fnos_token_expired w
    = Ok (expired (e_now (w_env w)) (read_expiry (stored_fnos_expiry (w_server w)))) ∧
  is_long_token_expired w
    = Ok (expired (e_now (w_env w)) (read_expiry (stored_long_expiry (w_server w)))) ∧
  (token_needs_refresh w = Ok true ↔
   ∃ t threshold,
     read_expiry (stored_entry_expiry (w_server w)) = Local t ∧
     timedelta_hours (get_preference w "token_refresh_threshold_hours" (JInt 1))
       = Ok threshold ∧
     in_range (t - threshold) = true ∧
     (t - threshold < e_now (w_env w))%Z).
Proof.
  split; [apply check_expires_at_reading|].
  split; [apply is_entry_token_expired_reading|].
  split; [apply is_fnos_token_expired_reading|].
  split; [apply is_long_token_expired_reading|].
  apply token_needs_refresh_true.
Qed.

(** C3 as stated fails at equality: a stored timestamp equal to the clock
    reading is less than or equal to now, and is reported as not expired. *)
Lemma expiry_at_now_not_expired :
  @datetime_fromisoformat Toy.libs "2026-11-04T07:23:00" = Some (naive now0) ∧
  (now0 <= now0)%Z ∧
  _check_expires_at (L:=Toy.libs) now0 (JStr "2026-11-04T07:23:00") = Ok false ∧
  is_entry_token_expired (L:=Toy.libs)
    (world_of env0 (Some server_expiring_now) [] []) = Ok false.
Proof.
  split; [reflexivity|]. split; [lia|]. split; reflexivity.
Qed.

(** C10. When the expiry the entry-token predicates consult is absent or
    unparsable, [token_needs_refresh] returns false although
    [is_entry_token_expired] returns true. *)
Theorem needs_refresh_false_although_expired (L : Libs) (w : world) :
  read_expiry (stored_entry_expiry (w_server w)) = Absent ∨
  read_expiry (stored_entry_expiry (w_server w)) = Unparsable →
  token_needs_refresh w = Ok false ∧ is_entry_token_expired w = Ok true.
Proof.
  intros H. split; [by apply token_needs_refresh_absent|].
  rewrite is_entry_token_expired_reading. by destruct H as [-> | ->].
Qed.

(** C10 on a configuration without expiry fields and on one whose expiry
    is not a timestamp. *)
Lemma needs_refresh_false_although_expired_witness :
  (read_expiry (L:=Toy.libs) (stored_entry_expiry (Some server_without_expiry)) = Absent ∧
   token_needs_refresh (L:=Toy.libs) (world_of env0 (Some server_without_expiry) [] [])
     = Ok false ∧
   is_entry_token_expired (L:=Toy.libs) (world_of env0 (Some server_without_expiry) [] [])
     = Ok true) ∧
  (read_expiry (L:=Toy.libs) (stored_entry_expiry (Some server_garbled_expiry)) = Unparsable ∧
   token_needs_refresh (L:=Toy.libs) (world_of env0 (Some server_garbled_expiry) [] [])
     = Ok false ∧
   is_entry_token_expired (L:=Toy.libs) (world_of env0 (Some server_garbled_expiry) [] [])
     = Ok true).
Proof.
  split.
  - split; [reflexivity|].
    exact (needs_refresh_false_although_expired Toy.libs
             (world_of env0 (Some server_without_expiry) [] []) (or_introl eq_refl)).
  - split; [reflexivity|].
    exact (needs_refresh_false_although_expired Toy.libs
             (world_of env0 (Some server_garbled_expiry) [] []) (or_intror eq_refl)).
Defined.

End ConfigFacts.

(** ** Hexadecimal text *)
Module HexFacts.
Import Base64Facts CryptoFacts.

Lemma hex_digit_value_digit (d : N) : (d < 16)%N → hex_digit_value (hex_digit d) = d.
Proof.
  intros Hd.
  pose (P := fun d => (hex_digit_value (hex_digit d) =? d)%N).
  assert (HP : P d = true) by (apply (forallb_below P 16); [by vm_compute | lia]).
  by apply N.eqb_eq in HP.
Qed.

Lemma hex_digit_unsigned (d : N) (s : string) : (d < 16)%N → unsigned (String (hex_digit d) s) = true.
Proof.
  intros Hd.
  pose (P := fun d => unsigned (String (hex_digit d) "")).
  assert (HP : P d = true) by (apply (forallb_below P 16); [by vm_compute | lia]).
  exact HP.
Qed.

Lemma hex_value_from_shift (acc : N) (s : string) :
  hex_value_from acc s = (acc * 16 ^ N.of_nat (String.length s) + hex_value s)%N.
Proof.
  unfold hex_value. revert acc. induction s as [|c s IH]; intros acc.
  - cbn. lia.
  - cbn [hex_value_from String.length]. rewrite IH, (IH (0 * 16 + _)%N).
    rewrite Nat2N.inj_succ, N.pow_succ_r'. lia.
Qed.

Lemma hex_value_cons (c : ascii) (s : string) :
  hex_value (String c s)
  = (hex_digit_value c * 16 ^ N.of_nat (String.length s) + hex_value s)%N.
Proof.
  unfold hex_value at 1. cbn [hex_value_from]. rewrite hex_value_from_shift. lia.
Qed.

Lemma hex_value_digits (fuel : nat) (n : N) (acc : string) :
  (n < 2 ^ N.of_nat fuel)%N →
  hex_value (hex_digits fuel n acc)
  = (n * 16 ^ N.of_nat (String.length acc) + hex_value acc)%N.
Proof.
  revert n acc. induction fuel as [|fuel IH]; intros n acc Hn.
  - cbn in Hn. assert (n = 0%N) as -> by lia. by rewrite N.mul_0_l.
  - cbn [hex_digits]. destruct (N.eqb_spec n 0) as [->|Hne]; [by rewrite N.mul_0_l|].
    rewrite IH.
    + cbn [String.length].
      rewrite hex_value_cons, hex_digit_value_digit by (apply N.mod_lt; lia).
      rewrite Nat2N.inj_succ, N.pow_succ_r'.
      pose proof (N.div_mod' n 16). nia.
    + rewrite Nat2N.inj_succ, N.pow_succ_r' in Hn.
      apply N.Div0.div_lt_upper_bound. lia.
Qed.

Lemma size_nat_gt (n : N) : (n < 2 ^ N.of_nat (N.size_nat n))%N.
Proof.
  destruct n as [|p]; [done|]. cbn [N.size_nat].
  induction p as [p IH|p IH|]; cbn [Pos.size_nat];
    rewrite ?Nat2N.inj_succ, ?N.pow_succ_r'; lia.
Qed.

Lemma hex_value_format (n : N) : hex_value (format_hex_N n) = n.
Proof.
  unfold format_hex_N. destruct (N.eqb_spec n 0) as [->|Hne]; [done|].
  rewrite hex_value_digits by apply size_nat_gt. cbn. lia.
Qed.

Lemma hex_digits_unsigned (fuel : nat) (n : N) (acc : string) :
  unsigned acc = true → unsigned (hex_digits fuel n acc) = true.
Proof.
  revert n acc. induction fuel as [|fuel IH]; intros n acc Hacc; [done|].
  cbn [hex_digits]. destruct (n =? 0)%N; [done|].
  apply IH, hex_digit_unsigned, N.mod_lt. lia.
Qed.

Lemma format_hex_N_unsigned (n : N) : unsigned (format_hex_N n) = true.
Proof.
  unfold format_hex_N. destruct (N.eqb_spec n 0) as [->|Hne]; [done|].
  destruct (N.size_nat n) as [|fuel] eqn:Hsize.
  { pose proof (size_nat_gt n) as Hgt. rewrite Hsize in Hgt. cbn in Hgt. lia. }
  cbn [hex_digits]. destruct (N.eqb_spec n 0) as [?|_]; [done|].
  apply hex_digits_unsigned, hex_digit_unsigned, N.mod_lt. lia.
Qed.

Lemma zfill_unsigned (width : nat) (s : string) :
  unsigned s = true → zfill width s = zeros (width - String.length s) +:+ s.
Proof.
  destruct s as [|c s]; [done|]. cbn [unsigned zfill].
  intros H. apply negb_true_iff in H. by rewrite H.
Qed.

Lemma hex_value_zeros (k : nat) (s : string) : hex_value (zeros k +:+ s) = hex_value s.
Proof.
  induction k as [|k IH]; [done|].
  simpl. unfold hex_value in *. cbn [hex_value_from].
  exact IH.
Qed.

Lemma hex_value_zfill (width : nat) (n : N) : hex_value (zfill width (format_hex_N n)) = n.
Proof.
  rewrite zfill_unsigned by apply format_hex_N_unsigned.
  by rewrite hex_value_zeros, hex_value_format.
Qed.

Lemma length_zeros (k : nat) : String.length (zeros k) = k.
Proof. induction k as [|k IH]; [done|]. cbn. by rewrite IH. Qed.

Lemma length_hex_digits (fuel : nat) (n : N) (acc : string) (k : nat) :
  (n < 16 ^ N.of_nat k)%N →
  String.length (hex_digits fuel n acc) ≤ k + String.length acc.
Proof.
  revert n acc k. induction fuel as [|fuel IH]; intros n acc k Hn; cbn [hex_digits]; [lia|].
  destruct (N.eqb_spec n 0) as [->|Hne]; [lia|].
  destruct k as [|k]; [cbn in Hn; lia|].
  etrans; [apply (IH _ _ k)|cbn [String.length]; lia].
  rewrite Nat2N.inj_succ, N.pow_succ_r' in Hn.
  apply N.Div0.div_lt_upper_bound. lia.
Qed.

Lemma length_timestamp (ts : Z) :
  (0 ≤ ts < 2 ^ 32)%Z → String.length (zfill 8 (format_hex ts)) = 8.
Proof.
  intros Hts. unfold format_hex.
  destruct (Z.ltb_spec ts 0) as [?|_]; [lia|].
  rewrite zfill_unsigned by apply format_hex_N_unsigned.
  rewrite length_string_app, length_zeros.
  assert (String.length (format_hex_N (Z.to_N ts)) ≤ 8); [|lia].
  unfold format_hex_N. destruct (Z.to_N ts =? 0)%N; [cbn; lia|].
  etrans; [apply (length_hex_digits _ _ _ 8)|cbn; lia].
  change (16 ^ N.of_nat 8)%N with (Z.to_N (2 ^ 32)). lia.
Qed.

Lemma string_app_inj (a b x y : string) :
  String.length a = String.length b → a +:+ x = b +:+ y → a = b ∧ x = y.
Proof.
  revert b. induction a as [|c a IH]; intros [|d b] Hlen Heq; try done.
  simpl in Heq. injection Heq as -> Heq. injection Hlen as Hlen.
  destruct (IH b Hlen Heq) as [-> ->]. done.
Qed.

End HexFacts.

(** ** Reasoning about computations *)
Module MonadFacts.
Import WsClient.

Lemma M_bind_eq {A B} (m : M A) (f : A → M B) (w : world) :
  (m ≫= f) w = match m w with
               | (Ok a, w') => f a w'
               | (Raise e, w') => (Raise e, w')
               end.
Proof. reflexivity. Qed.

Section Keeps.
Context {X : Type} (proj : world → X).

Lemma keeps_ret {A} (a : A) : keeps proj (mret a).
Proof. by intros w. Qed.

Lemma keeps_raise {A} (e : exn) : keeps proj (raise e : M A).
Proof. by intros w. Qed.

Lemma keeps_lift {A} (r : result A) : keeps proj (lift r).
Proof. by intros w. Qed.

Lemma keeps_get_world : keeps proj get_world.
Proof. by intros w. Qed.

Lemma keeps_modify (f : world → world) :
  (∀ w, proj (f w) = proj w) → keeps proj (modify f).
Proof. intros H w. apply H. Qed.

Lemma keeps_bind {A B} (m : M A) (f : A → M B) :
  keeps proj m → (∀ a, keeps proj (f a)) → keeps proj (m ≫= f).
Proof.
  intros Hm Hf w. rewrite M_bind_eq. specialize (Hm w).
  destruct (m w) as [[a|e] w']; cbn in *; [|done].
  by rewrite Hf.
Qed.

Lemma keeps_try_except {A} (body : M A) (handler : exn → M A) :
  keeps proj body → (∀ e, keeps proj (handler e)) → keeps proj (try_except body handler).
Proof.
  intros Hb Hh w. unfold try_except. specialize (Hb w).
  destruct (body w) as [[a|e] w']; cbn in *; [done|].
  by rewrite Hh.
Qed.

Lemma keeps_try_finally {A} (body : M A) (cleanup : M unit) :
  keeps proj body → keeps proj cleanup → keeps proj (try_finally body cleanup).
Proof.
  intros Hb Hc w. unfold try_finally. specialize (Hb w).
  destruct (body w) as [r w']. specialize (Hc w').
  destruct (cleanup w') as [[[]|e] w'']; cbn in *; congruence.
Qed.

Lemma keeps_if {A} (b : bool) (m1 m2 : M A) :
  keeps proj m1 → keeps proj m2 → keeps proj (if b then m1 else m2).
Proof. by destruct b. Qed.

End Keeps.

Create HintDb keeps discriminated.
#[export] Hint Resolve keeps_ret keeps_raise keeps_lift keeps_get_world keeps_bind
  keeps_try_except keeps_try_finally keeps_if : keeps.

Ltac keeps_tac :=
  repeat first
    [ apply keeps_bind; [|intros ?]
    | apply keeps_ret | apply keeps_raise | apply keeps_lift | apply keeps_get_world
    | apply keeps_try_except; [|intros ?]
    | apply keeps_try_finally
    | apply keeps_modify; intros ?; reflexivity
    | match goal with
      | |- keeps _ (if ?b then _ else _) => destruct b
      | |- keeps _ (match ?x with _ => _ end) => destruct x
      | |- keeps _ (let '(_, _) := ?x in _) => destruct x
      end
    | assumption ].


Lemma bind_print {B} (line : out_line) (f : unit → M B) (w : world) :
  (print line ≫= f) w = f tt (add_out line w).
Proof. reflexivity. Qed.

Lemma bind_modify {B} (g : world → world) (f : unit → M B) (w : world) :
  (modify g ≫= f) w = f tt (g w).
Proof. reflexivity. Qed.

Lemma bind_get_world {B} (f : world → M B) (w : world) : (get_world ≫= f) w = f w w.
Proof. reflexivity. Qed.

Lemma bind_get_client {B} (f : client → M B) (w : world) :
  (get_client ≫= f) w = f (w_client w) w.
Proof. reflexivity. Qed.

Lemma bind_ret {A B} (a : A) (f : A → M B) (w : world) : (mret a ≫= f) w = f a w.
Proof. reflexivity. Qed.

Lemma M_ret_eq {A} (a : A) (w : world) : (mret a : M A) w = (Ok a, w).
Proof. reflexivity. Qed.

Lemma print_eq (line : out_line) (w : world) : print line w = (Ok tt, add_out line w).
Proof. reflexivity. Qed.

Lemma bind_lift_ok {A B} (a : A) (f : A → M B) (w : world) : (lift (Ok a) ≫= f) w = f a w.
Proof. reflexivity. Qed.

Lemma bind_run {A B} (m : M A) (f : A → M B) (w w' : world) (a : A) :
  m w = (Ok a, w') → (m ≫= f) w = f a w'.
Proof. intros H. by rewrite M_bind_eq, H. Qed.


End MonadFacts.

(** ** Request ids *)
Module ReqIdFacts.
Import WsClient HexFacts MonadFacts CryptoFacts Samples.

Section Generator.
Context (L : Libs).

Lemma keeps_generator_modify_client (f : client → client) : keeps w_generator (modify_client f).
Proof. by intros w. Qed.

Lemma keeps_generator_connect (server : json) : keeps w_generator (connect server).
Proof.
  unfold connect, modify_connection.
  keeps_tac; apply keeps_generator_modify_client.
Qed.

Lemma keeps_generator_await (reqid : string) (fid : nat) :
  keeps w_generator (await_future reqid fid).
Proof.
  unfold await_future, get_client, modify_connection.
  keeps_tac; apply keeps_generator_modify_client.
Qed.

Lemma keeps_generator_next_outcome : keeps w_generator next_outcome.
Proof. unfold next_outcome. keeps_tac. Qed.

Lemma request_advances_generator (w : world) (req : string) (kwargs : dict) :
  is_connected (w_client w) = true →
  w_generator (request req kwargs w).2 = {| _index := _index (w_generator w) + 1 |}.
Proof.
  intros Hc. unfold request, get_client.
  rewrite !M_bind_eq. cbn [get_world mret M_ret]. rewrite Hc. cbn [negb].
  rewrite !M_bind_eq. cbn [get_world]. unfold generate. rewrite M_bind_eq.
  cbn [modify].
  match goal with
  | |- w_generator (?m ?w').2 = _ =>
      assert (Hk : keeps w_generator m); [|by rewrite Hk]
  end.
  unfold modify_connection.
  keeps_tac;
    first [ apply keeps_generator_modify_client | apply keeps_generator_next_outcome
          | apply keeps_generator_await ].
Qed.

End Generator.

Lemma generate_all_lookup (g : ReqIdGenerator) (calls : list (Z * string))
    (i : nat) (ts : Z) (b : string) :
  calls !! i = Some (ts, b) →
  generate_all g calls !! i
  = Some (zfill 8 (format_hex ts) +:+ b
          +:+ zfill 4 (format_hex_N (_index g + N.of_nat i + 1))).
Proof.
  revert g i. induction calls as [|[ts' b'] calls IH]; intros g i Hi; [done|].
  destruct i as [|i]; cbn [generate_all generate] in *.
  - injection Hi as -> ->. cbn [lookup list_lookup].
    by replace (_index g + N.of_nat 0 + 1)%N with (_index g + 1)%N by lia.
  - cbn in Hi. cbn [lookup list_lookup]. rewrite (IH _ _ Hi). cbn [_index].
    by replace (_index g + 1 + N.of_nat i + 1)%N
      with (_index g + N.of_nat (S i) + 1)%N by lia.
Qed.

Lemma request_id_inj (ts1 ts2 : Z) (b1 b2 : string) (n1 n2 : N) :
  (0 ≤ ts1 < 2 ^ 32)%Z → (0 ≤ ts2 < 2 ^ 32)%Z →
  String.length b1 = String.length b2 →
  zfill 8 (format_hex ts1) +:+ b1 +:+ zfill 4 (format_hex_N n1)
  = zfill 8 (format_hex ts2) +:+ b2 +:+ zfill 4 (format_hex_N n2) →
  n1 = n2.
Proof.
  intros H1 H2 Hb Heq.
  apply string_app_inj in Heq as [_ Heq]; [|by rewrite !length_timestamp].
  apply string_app_inj in Heq as [_ Heq]; [|done].
  apply (f_equal hex_value) in Heq. by rewrite !hex_value_zfill in Heq.
Qed.

(** C6 (as the code has it). Every generated id is the hexadecimal unix time
    padded to width 8, then the back id, then the hexadecimal counter padded
    to width 4. The counter belongs to the one generator of the module: the
    [i]-th call after a generator state carries that state's index plus
    [i + 1] whichever client makes it, creating a client and connecting
    leaves the generator as it is, and every request of a connected client
    advances it by one. Ids made with unix times below [2^32] and back ids of
    one length are pairwise distinct. *)
Theorem request_ids_process_wide (L : Libs) :
  (∀ (g : ReqIdGenerator) (calls : list (Z * string)) (i : nat) (ts : Z) (b : string),
     calls !! i = Some (ts, b) →
     generate_all g calls !! i
     = Some (zfill 8 (format_hex ts) +:+ b
             +:+ zfill 4 (format_hex_N (_index g + N.of_nat i + 1)))) ∧
  (∀ (g : ReqIdGenerator) (calls : list (Z * string)) (i j : nat)
     (ts_i ts_j : Z) (b_i b_j : string),
     i ≠ j → calls !! i = Some (ts_i, b_i) → calls !! j = Some (ts_j, b_j) →
     (0 ≤ ts_i < 2 ^ 32)%Z → (0 ≤ ts_j < 2 ^ 32)%Z →
     String.length b_i = String.length b_j →
     generate_all g calls !! i ≠ generate_all g calls !! j) ∧
  (∀ (w : world) (server : json),
     w_generator (connect server (set_client FnOsClient_init w)).2 = w_generator w) ∧
  (∀ (w : world) (req : string) (kwargs : dict),
     is_connected (w_client w) = true →
     w_generator (request req kwargs w).2 = {| _index := _index (w_generator w) + 1 |}).
Proof.
  split; [|split; [|split]].
  - intros g calls i ts b Hi. by apply generate_all_lookup.
  - intros g calls i j ts_i ts_j b_i b_j Hij Hi Hj Hti Htj Hb Heq.
    rewrite (generate_all_lookup _ _ _ _ _ Hi), (generate_all_lookup _ _ _ _ _ Hj) in Heq.
    injection Heq as Heq. apply request_id_inj in Heq; [lia|done..].
  - intros w server. by rewrite keeps_generator_connect.
  - intros w req kwargs. apply request_advances_generator.
Qed.


(** The ids of two calls at the same second with the same back id differ. *)
Lemma request_ids_process_wide_witness :
  generate_all _reqid_generator two_calls !! 0
  = Some "6aeadd5400000000000000000001" ∧
  generate_all _reqid_generator two_calls !! 0
  ≠ generate_all _reqid_generator two_calls !! 1.
Proof.
  split.
  - exact (proj1 (request_ids_process_wide Toy.libs) _reqid_generator two_calls 0
             1793776980%Z "0000000000000000" eq_refl).
  - refine (proj1 (proj2 (request_ids_process_wide Toy.libs)) _reqid_generator two_calls
              0 1 1793776980%Z 1793776980%Z "0000000000000000" "0000000000000000"
              _ eq_refl eq_refl _ _ eq_refl); [discriminate | lia | lia].
Defined.

(** C6 as stated fails: the counter is not per connection. After one request
    on a first connection, the first request of a second connection of the
    same process carries the counter 2, not 1. *)
Lemma second_connection_continues_count :
  let w0 := world_of env0 None [true; true] [pub_reply; pub_reply] in
  let w1 := (first_connection w0).2 in
  let w2 := (second_connection w1).2 in
  futures (connection (w_client w1))
    = [FResult [("pub", JStr "PEM"); ("si", JStr "si-1");
                ("reqid", JStr "6aeadd5400000000000000000001")]] ∧
  futures (connection (w_client w2))
    = [FResult [("pub", JStr "PEM"); ("si", JStr "si-1");
                ("reqid", JStr "6aeadd5400000000000000000002")]].
Proof. split; reflexivity. Qed.

End ReqIdFacts.

(** ** The pending table *)
Module PendingFacts.
Import WsClient MonadFacts Samples.

Lemma assoc_get_dict_set (k : string) (v : json) (d : dict) :
  assoc_get k (dict_set k v d) = Some v.
Proof.
  induction d as [|[k' v'] d IH]; cbn.
  - by rewrite String.eqb_refl.
  - destruct (String.eqb_spec k k') as [->|Hne]; cbn.
    + by rewrite String.eqb_refl.
    + destruct (String.eqb_spec k k'); [done|]. exact IH.
Qed.

Lemma dict_get_dict_set (k : string) (v : json) (d : dict) :
  dict_get (dict_set k v d) k = v.
Proof. unfold dict_get. by rewrite assoc_get_dict_set. Qed.








Lemma closed_step (c : conn) (ev : event) (fid : nat) :
  listening c = false →
  futures c !! fid = Some FPending ∨ futures c !! fid = Some FCancelled →
  listening (step c ev) = false ∧
  (futures (step c ev) !! fid = Some FPending ∨ futures (step c ev) !! fid = Some FCancelled).
Proof.
  intros Hl Hf. destruct ev as [reqid|message|fid'|reqid| |]; cbn [step]; try done.
  - split; [done|]. cbn.
    rewrite lookup_app_l; [done|]. destruct Hf as [Hf|Hf]; by eapply lookup_lt_Some.
  - unfold listen_message. by rewrite Hl.
  - unfold deadline. destruct (futures c !! fid') as [[| | |]|] eqn:Hp; try done.
    split; [done|]. cbn.
    destruct (decide (fid' = fid)) as [->|Hne].
    + right. apply list_lookup_insert_eq. by eapply lookup_lt_Some.
    + by rewrite list_lookup_insert_ne.
Qed.

Lemma closed_run (events : list event) (c : conn) (fid : nat) :
  listening c = false →
  futures c !! fid = Some FPending ∨ futures c !! fid = Some FCancelled →
  futures (run events c) !! fid = Some FPending ∨
  futures (run events c) !! fid = Some FCancelled.
Proof.
  revert c. induction events as [|ev events IH]; intros c Hl Hf; [done|].
  cbn. destruct (closed_step c ev fid Hl Hf) as [Hl' Hf']. by apply IH.
Qed.

Lemma await_pending_times_out (w : world) (reqid : string) (fid : nat) :
  futures (connection (w_client w)) !! fid = Some FPending →
  (await_future reqid fid w).1 = Raise (Exn TimeoutError "request: timed out").
Proof.
  intros Hf. unfold await_future, get_client.
  rewrite !M_bind_eq. cbn [get_world mret M_ret]. rewrite Hf.
  unfold modify_connection, modify_client, modify.
  by rewrite !M_bind_eq.
Qed.

(** C2 (as the code has it). Closing the connection, by the peer or by
    [close], leaves the pending table and every future as they are and stops
    the receive loop: a request that is pending is not resolved with an
    error. From then on its future stays pending until its own deadline
    cancels it, and its [request] call ends with [TimeoutError]. *)
Theorem close_leaves_requests_unresolved (c : conn) (ev : event) :
  ev = Close ∨ ev = RemoteClosed →
  pending (step c ev) = pending c ∧
  futures (step c ev) = futures c ∧
  listening (step c ev) = false ∧
  (∀ events fid,
     futures c !! fid = Some FPending →
     futures (run events (step c ev)) !! fid = Some FPending ∨
     futures (run events (step c ev)) !! fid = Some FCancelled) ∧
  (∀ w reqid fid,
     connection (w_client w) = step c ev → futures c !! fid = Some FPending →
     (await_future reqid fid w).1 = Raise (Exn TimeoutError "request: timed out")).
Proof.
  intros Hev.
  assert (H : pending (step c ev) = pending c ∧ futures (step c ev) = futures c ∧
              listening (step c ev) = false) by (by destruct Hev as [-> | ->]).
  destruct H as (Hp & Hf & Hl). repeat split; try done.
  - intros events fid Hfid. apply closed_run; [done|]. left. by rewrite Hf.
  - intros w reqid fid Hc Hfid. apply await_pending_times_out. by rewrite Hc, Hf.
Qed.

(** C2 on a connection with two pending requests that [close] is called on. *)
Lemma close_leaves_requests_unresolved_witness :
  pending (step two_pending Close) = pending two_pending ∧
  futures (step two_pending Close) = [FPending; FPending] ∧
  listening (step two_pending Close) = false.
Proof.
  pose proof (close_leaves_requests_unresolved two_pending Close (or_introl eq_refl))
    as (Hp & Hf & Hl & _).
  exact (conj Hp (conj Hf Hl)).
Defined.

(** C2 as stated fails: after the connection closes, by [close] or by the
    peer, a pending request is still pending and still in the table; it has
    not been resolved with any error. *)
Lemma close_does_not_fail_pending_requests :
  futures (run [Enqueue reqid1; Close] open_conn) = [FPending] ∧
  futures (run [Enqueue reqid1; RemoteClosed] open_conn) = [FPending] ∧
  pending (run [Enqueue reqid1; Close] open_conn) !! reqid1 = Some 0.
Proof. repeat split. Qed.

End PendingFacts.

(** ** Login and the refresh cascade *)
Module AuthFacts.
Import Config WsClient Auth MonadFacts PendingFacts Samples.

Lemma dict_get_dict_set_ne (k k' : string) (v : json) (d : dict) :
  k ≠ k' → dict_get (dict_set k v d) k' = dict_get d k'.
Proof.
  intros Hne. unfold dict_get. f_equal.
  induction d as [|[k0 v0] d IH]; cbn.
  - by destruct (String.eqb_spec k' k).
  - destruct (String.eqb_spec k k0) as [->|Hk]; cbn.
    + destruct (String.eqb_spec k' k0); [done|]. done.
    + destruct (String.eqb_spec k' k0); [done|]. exact IH.
Qed.

Lemma last_app_r {A} (l l' : list A) (d : A) :
  l' ≠ [] → List.last (l ++ l') d = List.last l' d.
Proof.
  intros Hne. induction l as [|x l IH]; [done|].
  cbn [app]. destruct (l ++ l') eqn:Happ.
  - by destruct l, l'.
  - cbn [List.last]. by rewrite <- IH.
Qed.

Lemma close_eq (w : world) :
  close w = (Ok tt, set_client (set_connection (close_connection (connection (w_client w)))
                                  (w_client w)) w).
Proof. reflexivity. Qed.


Section AuthFacts.
Context (L : Libs).

Lemma attempt_raise (strategy : M unit) (report : exn → out_line) (w w1 : world) (e : exn) :
  strategy w = (Raise e, w1) →
  attempt strategy report w = (Ok false, add_out (report e) w1).
Proof.
  intros H. unfold attempt, try_except. rewrite M_bind_eq, H. reflexivity.
Qed.

Lemma attempt_ok (strategy : M unit) (report : exn → out_line) (w w1 : world) :
  strategy w = (Ok tt, w1) →
  attempt strategy report w = (Ok true, w1).
Proof.
  intros H. unfold attempt, try_except. rewrite M_bind_eq, H. reflexivity.
Qed.

(** C7 (as the code has it). The cascade recovers from every exception of
    its first and second strategy, whatever its class, a failure of the
    cryptography included: when the first strategy raises, [do_refresh]
    prints the exception and goes on with the second; when the second
    raises, it prints the exception and goes on with the third. An exception
    of the third strategy, the full login, is surfaced to the caller
    whatever its class, and without saved credentials [do_refresh] raises
    [RuntimeError]. *)
Theorem refresh_cascade_recovers_from_any_error :
  (∀ (w w1 : world) (config : dict) (e : exn),
     get_server_config w = Some config →
     truthy (dict_get config "url") = true →
     truthy (dict_get config "fnos_token") = true →
     truthy (dict_get config "sign_key") = true →
     is_fnos_token_expired w = Ok false →
     _refresh_with_fnos_token (dict_get config "url") (dict_get config "fnos_token")
       (dict_get config "sign_key") w = (Raise e, w1) →
     do_refresh w
     = refresh_from_long_token (dict_get config "url") (dict_get config "long_token")
         (expired (e_now (w_env w)) (read_expiry (stored_long_expiry (w_server w))))
         (add_out (OutFnosTokenFailed e) w1)) ∧
  (∀ (w w1 : world) (server long_token : json) (e : exn),
     truthy long_token = true →
     _refresh_with_long_token server long_token w = (Raise e, w1) →
     refresh_from_long_token server long_token false w
     = login_with_saved_credentials server (add_out (OutLongTokenFailed e) w1)) ∧
  (∀ (w w1 : world) (server : json) (creds : dict) (e : exn),
     e_credentials (w_env w) = Some creds →
     truthy (dict_get creds "username") = true →
     truthy (dict_get creds "password") = true →
     do_login server (dict_get creds "username") (dict_get creds "password")
       (add_out OutReLogin w) = (Raise e, w1) →
     login_with_saved_credentials server w = (Raise e, w1)) ∧
  (∀ (w : world) (server : json),
     e_credentials (w_env w) = None →
     login_with_saved_credentials server w
     = (Raise (Exn RuntimeError
                 "do_refresh: the tokens are no longer valid and no credentials are saved"),
        w)).
Proof.
  split; [|split; [|split]].
  - intros w w1 config e Hc Hurl Hfnos Hkey Hfe Hs.
    pose proof (ConfigFacts.is_long_token_expired_reading L w) as Hle.
    unfold do_refresh. rewrite M_bind_eq. cbn [get_world]. rewrite Hc.
    assert (Hno : no_config (Some config) = false).
    { destruct config; [done|done]. }
    rewrite Hno. change (default [] (Some config)) with config.
    rewrite Hurl, Hfnos. cbn [negb andb orb].
    rewrite M_bind_eq. unfold lift at 1. rewrite Hfe.
    rewrite M_bind_eq. unfold lift at 1. rewrite Hle.
    rewrite Hkey. cbn [negb andb].
    rewrite M_bind_eq, (attempt_raise _ _ _ _ _ Hs). reflexivity.
  - intros w w1 server long_token e Hlong Hs.
    unfold refresh_from_long_token. rewrite Hlong. cbn [negb andb].
    rewrite M_bind_eq, (attempt_raise _ _ _ _ _ Hs). reflexivity.
  - intros w w1 server creds e Hcreds Hu Hp Hs.
    unfold login_with_saved_credentials, get_credentials.
    rewrite !M_bind_eq. cbn [get_world mret M_ret]. rewrite Hcreds.
    change (default [] (Some creds)) with creds. rewrite Hu, Hp. cbn [andb].
    rewrite M_bind_eq. unfold print, modify at 1. by rewrite Hs.
  - intros w server Hcreds.
    unfold login_with_saved_credentials, get_credentials.
    rewrite !M_bind_eq. cbn [get_world mret M_ret]. by rewrite Hcreds.
Qed.
(** C8 (as the code has it). [exchange_entry_token] returns the response of
    the server as it is, with or without a token, unless the response carries
    [errno], and passes on what [request] raises. It is [_get_entry_token],
    used by the two refresh strategies, that returns the token [data.token]
    of the response and raises [RuntimeError] when the response has none. *)
Theorem entry_token_exchange (w : world) :
  (∀ response w',
     request "appcgi.sac.entry.v1.exchangeEntryToken" [] w = (Ok response, w') →
     exchange_entry_token w
     = if dict_has response "errno"
       then (Raise (Exn RuntimeError "exchange_entry_token: the server reported an error"), w')
       else (Ok response, w')) ∧
  (∀ e w',
     request "appcgi.sac.entry.v1.exchangeEntryToken" [] w = (Raise e, w') →
     exchange_entry_token w = (Raise e, w')) ∧
  (∀ response w',
     exchange_entry_token (add_out OutGettingEntryToken w) = (Ok response, w') →
     _get_entry_token w
     = if truthy (entry_token_of response)
       then (Ok (entry_token_of response), add_out OutGotEntryToken w')
       else (Raise (Exn RuntimeError "_get_entry_token: no entry-token"), w')) ∧
  (∀ e w',
     exchange_entry_token (add_out OutGettingEntryToken w) = (Raise e, w') →
     _get_entry_token w = (Raise e, w')).
Proof.
  split; [|split; [|split]].
  - intros response w' H. unfold exchange_entry_token. rewrite M_bind_eq, H.
    by destruct (dict_has response "errno").
  - intros e w' H. unfold exchange_entry_token. by rewrite M_bind_eq, H.
  - intros response w' H. unfold _get_entry_token, entry_token_of.
    rewrite M_bind_eq. unfold print at 1, modify at 1. rewrite M_bind_eq, H.
    destruct (dict_get_or response "data" (JDict [])) as [| | | | |d]; try done.
    destruct (truthy (dict_get d "token")); [|done].
    by rewrite M_bind_eq.
  - intros e w' H. unfold _get_entry_token.
    rewrite M_bind_eq. unfold print at 1, modify at 1. by rewrite M_bind_eq, H.
Qed.

Lemma expires_after_env (w w' : world) (delta : result Z) :
  w_env w' = w_env w → expires_after w' delta = expires_after w delta.
Proof. unfold expires_after. by intros ->. Qed.

Lemma get_preference_env (w w' : world) (key : string) (d : json) :
  w_env w' = w_env w → get_preference w' key d = get_preference w key d.
Proof. unfold get_preference, get_preferences. by intros ->. Qed.

(** The inner [try] of [do_login] when the exchange fails. *)
Lemma login_entry_token_fails (w w4 : world) (exchanged : result dict) :
  exchange_entry_token (add_out OutGettingEntryToken w) = (exchanged, w4) →
  match exchanged with
  | Ok r => truthy (entry_token_of r) = false
  | Raise _ => True
  end →
  ∃ v w5,
    login_entry_token w = (Ok v, w5) ∧ truthy v = false ∧
    w_env w5 = w_env w4 ∧ w_server w5 = w_server w4 ∧
    (∃ lines, w_out w5 = w_out w4 ++ lines).
Proof.
  intros Hx Hfail. unfold login_entry_token, try_except.
  rewrite bind_print, M_bind_eq, Hx.
  destruct exchanged as [r|e].
  - fold (entry_token_of r). rewrite Hfail, bind_ret.
    exists (entry_token_of r), w4. repeat split; try done. exists []. by rewrite app_nil_r.
  - rewrite bind_print. exists JNull, (add_out (OutEntryTokenFailed e) w4).
    repeat split; try done. by eexists.
Qed.

Lemma keeps_env_modify_client (f : client → client) : keeps w_env (modify_client f).
Proof. by intros w. Qed.

Lemma keeps_env_print (line : out_line) : keeps w_env (print line).
Proof. by intros w. Qed.

Ltac keeps_env :=
  keeps_tac;
  first [ apply keeps_env_modify_client | apply keeps_env_print | idtac ].

Lemma keeps_env_connect (server : json) : keeps w_env (connect server).
Proof. unfold connect, modify_connection. keeps_env. Qed.

Lemma keeps_env_request (req : string) (kwargs : dict) : keeps w_env (request req kwargs).
Proof.
  unfold request, get_client, next_outcome, await_future, get_client, modify_connection.
  keeps_env.
Qed.

Lemma keeps_env_get_rsa_pub : keeps w_env get_rsa_pub.
Proof. unfold get_rsa_pub. keeps_env. Qed.

Lemma keeps_env_login (username password : json) (stay : bool) :
  keeps w_env (login username password stay).
Proof. unfold login, get_client. keeps_env. Qed.

Lemma keeps_env_exchange : keeps w_env exchange_entry_token.
Proof. unfold exchange_entry_token. keeps_env. Qed.

Lemma env_of_run {A} (m : M A) (w w' : world) (r : result A) :
  keeps w_env m → m w = (r, w') → w_env w' = w_env w.
Proof. intros Hk Hm. specialize (Hk w). by rewrite Hm in Hk. Qed.

(** C9. When [do_login] has connected, fetched the public key and logged in
    with a session token, and the exchange of the entry token then raises or
    yields no token, [do_login] returns, the persisted [entry_token] is the
    session token (as is the persisted [fnos_token]), the fallback warning is
    printed and the run ends with the hint that the warning flag guards. The
    expiry times are taken to be computable from the preferences. *)
Theorem login_falls_back_to_session_token
    (server username password : json) (w0 w1 w2 w3 w4 : world)
    (pub_response response : dict) (exchanged : result dict)
    (t_entry t_fnos t_long : json) :
  connect server (add_out OutConnecting (set_client FnOsClient_init w0)) = (Ok tt, w1) →
  get_rsa_pub (add_out OutGettingPublicKey w1) = (Ok pub_response, w2) →
  login username password true (add_out OutVerifyingCredentials w2) = (Ok response, w3) →
  truthy (token (w_client w3)) = true →
  exchange_entry_token (add_out OutGettingEntryToken w3) = (exchanged, w4) →
  match exchanged with
  | Ok r => truthy (entry_token_of r) = false
  | Raise _ => True
  end →
  expires_after w0 (timedelta_hours (get_preference w0 "entry_token_expire_hours" (JInt 8)))
    = Ok t_entry →
  expires_after w0 (timedelta_hours (get_preference w0 "fnos_token_expire_hours" (JInt 8)))
    = Ok t_fnos →
  (truthy (dict_get response "longToken") = true →
   expires_after w0 (timedelta_days (get_preference w0 "long_token_expire_days" (JInt 25)))
     = Ok t_long) →
  ∃ w',
    do_login server username password w0 = (Ok tt, w') ∧
    dict_get (default [] (w_server w')) "entry_token" = token (w_client w3) ∧
    dict_get (default [] (w_server w')) "fnos_token" = token (w_client w3) ∧
    OutFallbackWarning ∈ w_out w' ∧
    List.last (w_out w') OutLoginSucceeded = OutEntryTokenHint.
Proof.
  intros Hconnect Hpub Hlogin Htoken Hx Hfail Hte Htf Htl.
  destruct (login_entry_token_fails w3 w4 exchanged Hx Hfail)
    as (v & w5 & Hentry & Hv & Henv5 & Hserver5 & lines & Hout5).
  assert (Henv : w_env w5 = w_env w0).
  { rewrite Henv5.
    rewrite (env_of_run _ _ _ _ keeps_env_exchange Hx). cbn [w_env add_out].
    rewrite (env_of_run _ _ _ _ (keeps_env_login _ _ _) Hlogin). cbn [w_env add_out].
    rewrite (env_of_run _ _ _ _ keeps_env_get_rsa_pub Hpub). cbn [w_env add_out].
    by rewrite (env_of_run _ _ _ _ (keeps_env_connect _) Hconnect). }
  unfold do_login, try_finally.
  rewrite bind_modify, bind_print, (bind_run _ _ _ _ _ Hconnect).
  rewrite bind_print, (bind_run _ _ _ _ _ Hpub).
  rewrite bind_print, (bind_run _ _ _ _ _ Hlogin).
  rewrite bind_get_client, (bind_run _ _ _ _ _ Hentry).
  rewrite Hv. cbn [negb]. rewrite bind_print. rewrite Htoken. cbn [negb].
  rewrite bind_get_world.
  set (w6 := add_out OutFallbackWarning w5).
  assert (Henv6 : w_env w6 = w_env w0) by exact Henv.
  rewrite !(get_preference_env w0 w6) by done.
  rewrite !(expires_after_env w0 w6) by done.
  rewrite Hte, bind_lift_ok, Htf, bind_lift_ok.
  assert (Hlong : ∃ t, (if truthy (dict_get response "longToken")
                        then lift (expires_after w0
                               (timedelta_days
                                  (get_preference w0 "long_token_expire_days" (JInt 25))))
                        else mret JNull) w6 = (Ok t, w6)).
  { destruct (truthy (dict_get response "longToken")).
    - exists t_long. by rewrite Htl.
    - by exists JNull. }
  destruct Hlong as [t Hlong].
  rewrite (bind_run _ _ _ _ _ Hlong), bind_get_client, bind_modify, bind_print.
  unfold set_git_extra_header, setup_global_hooks.
  rewrite M_bind_eq, bind_get_world.
  set (w7 := add_out OutConfiguringGit _).
  assert (Hserver7 : dict_get (default [] (w_server w7)) "entry_token" = token (w_client w3)
                     ∧ dict_get (default [] (w_server w7)) "fnos_token" = token (w_client w3)).
  { subst w7. cbn [w_server add_out save_server_config set_server default].
    unfold dict_update. cbn [fold_left fst snd].
    change (default [] (Some ?d)) with d.
    unfold id. split.
    - rewrite !dict_get_dict_set_ne by done. apply dict_get_dict_set.
    - rewrite !dict_get_dict_set_ne by done. apply dict_get_dict_set. }
  assert (Hout7 : ∃ before, w_out w7 = before ++ [OutFallbackWarning; OutConfiguringGit]).
  { subst w7 w6. cbn [w_out add_out save_server_config set_server].
    exists (w_out w5). by rewrite <- app_assoc. }
  destruct Hout7 as [before Hout7]. destruct Hserver7 as [Hs7e Hs7f].
  clearbody w7.
  assert (Hgit : w_env (set_git_header (Some (server, token (w_client w3))) w7) = w_env w7)
    by done.
  destruct (e_git_ok (w_env w7)) eqn:Hg, (e_hooks_ok (w_env w7)) eqn:Hh;
    repeat first
      [ rewrite bind_modify | rewrite bind_print | rewrite bind_ret
      | rewrite bind_get_world | rewrite M_ret_eq | rewrite M_bind_eq
      | rewrite print_eq | rewrite close_eq
      | progress cbn [negb w_env add_out set_git_header]
      | rewrite Hh ];
    (eexists; split; [reflexivity|]);
    cbn [w_server w_out set_client add_out set_git_header];
    rewrite Hout7, <- ?app_assoc; cbn [app];
    (split; [done|]); (split; [done|]); (split; [set_solver|]);
    by rewrite last_app_r.
Qed.


End AuthFacts.

(** C7 on a refresh whose second strategy fails to decrypt the secret of the
    [user.tokenLogin] response: the cascade goes on with the saved
    credentials. *)
Lemma refresh_cascade_recovers_from_any_error_witness :
  truthy (JStr "long-1") = true ∧
  _refresh_with_long_token (L:=Toy.libs) (JStr "nas.example") (JStr "long-1")
    world_bad_secret
  = (Raise (Exn ValueError "unpad: padding is incorrect"),
     (_refresh_with_long_token (L:=Toy.libs) (JStr "nas.example") (JStr "long-1")
        world_bad_secret).2) ∧
  refresh_from_long_token (L:=Toy.libs) (JStr "nas.example") (JStr "long-1") false
    world_bad_secret
  = login_with_saved_credentials (L:=Toy.libs) (JStr "nas.example")
      (add_out (OutLongTokenFailed (Exn ValueError "unpad: padding is incorrect"))
         (_refresh_with_long_token (L:=Toy.libs) (JStr "nas.example") (JStr "long-1")
            world_bad_secret).2).
Proof.
  split; [reflexivity|]. split; [vm_compute; reflexivity|].
  refine (proj1 (proj2 (refresh_cascade_recovers_from_any_error Toy.libs))
            world_bad_secret
            (_refresh_with_long_token (L:=Toy.libs) (JStr "nas.example") (JStr "long-1")
               world_bad_secret).2
            (JStr "nas.example") (JStr "long-1")
            (Exn ValueError "unpad: padding is incorrect") _ _).
  - reflexivity.
  - vm_compute; reflexivity.
Defined.

(** C7 as stated fails: a failure of the cryptography is not surfaced. With
    a [user.tokenLogin] response whose secret does not decrypt to padded
    data, the second strategy raises the padding error and [do_refresh]
    nevertheless returns, through the login with the saved credentials; with
    a persisted signing key that is not base64 text, the first strategy
    raises the decoding error and [do_refresh] returns through the second. *)
Lemma crypto_errors_fall_through :
  (_refresh_with_long_token (L:=Toy.libs) (JStr "nas.example") (JStr "long-1")
     world_bad_secret).1
  = Raise (Exn ValueError "unpad: padding is incorrect") ∧
  (do_refresh (L:=Toy.libs) world_bad_secret).1 = Ok tt ∧
  dict_get (default [] (w_server (do_refresh (L:=Toy.libs) world_bad_secret).2))
    "entry_token" = JStr "entry-1" ∧
  (_refresh_with_fnos_token (L:=Toy.libs) (JStr "nas.example") (JStr "fnos-0") (JStr "a")
     world_corrupt_key).1
  = Raise (Exn BinasciiError "a2b_base64: one data character too many") ∧
  (do_refresh (L:=Toy.libs) world_corrupt_key).1 = Ok tt.
Proof. repeat split; vm_compute; reflexivity. Qed.

(** C8 on a response without a token: [_get_entry_token] raises. *)
Lemma entry_token_exchange_witness :
  exchange_entry_token (L:=Toy.libs) (add_out OutGettingEntryToken world_connected_no_token)
  = (Ok [("data", JDict []); ("reqid", JStr "6aeadd5400000000000000000001")],
     (exchange_entry_token (L:=Toy.libs)
        (add_out OutGettingEntryToken world_connected_no_token)).2) ∧
  _get_entry_token (L:=Toy.libs) world_connected_no_token
  = (Raise (Exn RuntimeError "_get_entry_token: no entry-token"),
     (exchange_entry_token (L:=Toy.libs)
        (add_out OutGettingEntryToken world_connected_no_token)).2).
Proof.
  split; [vm_compute; reflexivity|].
  refine (proj1 (proj2 (proj2 (entry_token_exchange Toy.libs world_connected_no_token)))
            [("data", JDict []); ("reqid", JStr "6aeadd5400000000000000000001")]
            (exchange_entry_token (L:=Toy.libs)
               (add_out OutGettingEntryToken world_connected_no_token)).2 _).
  vm_compute; reflexivity.
Defined.

(** C8 as stated fails: on a response that contains no token field the
    exchange operation of the client does not fail, it returns the
    response. *)
Lemma exchange_without_token_returns :
  (exchange_entry_token (L:=Toy.libs) world_connected_no_token).1
  = Ok [("data", JDict []); ("reqid", JStr "6aeadd5400000000000000000001")] ∧
  entry_token_of [("data", JDict []); ("reqid", JStr "6aeadd5400000000000000000001")]
  = JNull.
Proof. split; vm_compute; reflexivity. Qed.

(** C9 on a login whose exchange is answered without a token. *)
Lemma login_falls_back_to_session_token_witness :
  token (w_client login_world3) = JStr "fnos-1" ∧
  exchange_entry_token (L:=Toy.libs) (add_out OutGettingEntryToken login_world3)
  = (Ok [("data", JDict []); ("reqid", JStr "6aeadd5400000000000003e80003")],
     login_world4) ∧
  ∃ w',
    do_login (L:=Toy.libs) (JStr "nas.example") (JStr "alice") (JStr "pw") login_world
    = (Ok tt, w') ∧
    dict_get (default [] (w_server w')) "entry_token" = token (w_client login_world3) ∧
    dict_get (default [] (w_server w')) "fnos_token" = token (w_client login_world3) ∧
    OutFallbackWarning ∈ w_out w' ∧
    List.last (w_out w') OutLoginSucceeded = OutEntryTokenHint.
Proof.
  split; [vm_compute; reflexivity|]. split; [vm_compute; reflexivity|].
  refine (login_falls_back_to_session_token Toy.libs
            (JStr "nas.example") (JStr "alice") (JStr "pw")
            login_world login_world1 login_world2 login_world3 login_world4
            [("pub", JStr "PEM"); ("si", JStr "si-1");
             ("reqid", JStr "6aeadd5400000000000000000001")]
            [("token", JStr "fnos-1"); ("uid", JInt 1000); ("admin", JBool true);
             ("backId", JStr "00000000000003e8"); ("longToken", JStr "long-1");
             ("reqid", JStr "6aeadd5400000000000000000002")]
            (Ok [("data", JDict []); ("reqid", JStr "6aeadd5400000000000003e80003")])
            (JStr "2026-11-04T15:23:00") (JStr "2026-11-04T15:23:00")
            (JStr "2026-11-29T07:23:00")
            _ _ _ _ _ _ _ _ (fun _ => _)); vm_compute; reflexivity.
Defined.

End AuthFacts.

(** ** The cipher suite: failures and shapes *)
Module CipherFacts.
Import Crypto Base64Facts CryptoFacts Samples.

Lemma blocks_of_pad (d : bytes) :
  length (pad d block_size) / block_size = length d / 16 + 1 ∧
  length (pad d block_size) = (length d / 16 + 1) * 16.
Proof.
  unfold pad, block_size. rewrite length_app, length_replicate. n_arith.
Qed.

Lemma aes_encrypt_eq (L : Libs) (data key : string) (iv : bytes) :
  aes_encrypt data key iv
  = if negb ((String.length key =? 16) || (String.length key =? 24)
             || (String.length key =? 32))
    then Raise (Exn ValueError "AES.new: incorrect AES key length")
    else if negb (length iv =? 16)
    then Raise (Exn ValueError "AES.new: incorrect IV length")
    else Ok (decode_utf8 (b64encode
               (cbc_encrypt_blocks (encode_utf8 key) (String.length data / 16 + 1) iv
                  (pad (encode_utf8 data) block_size)))).
Proof.
  unfold aes_encrypt, AES_new_cbc. rewrite length_encode_utf8.
  destruct (negb _); [done|]. destruct (negb _); [done|].
  rewrite bind_Ok. unfold cbc_encrypt.
  pose proof (length_pad (encode_utf8 data)) as [Hmod _]. rewrite Hmod.
  cbn [Nat.eqb negb cbc_key cbc_iv]. rewrite bind_Ok.
  destruct (blocks_of_pad (encode_utf8 data)) as [-> _].
  by rewrite length_encode_utf8.
Qed.

(** X1. For a key and data that are text without lone surrogates (so that
    [encode("utf-8")] succeeds), [aes_encrypt] fails only on a key that has
    not 16, 24 or 32 bytes or an IV that has not 16 bytes, in that order and
    with [ValueError]; for every other input it returns the base64 text of
    [len(data.encode("utf-8")) // 16 + 1] cipher blocks: the padding always
    adds between 1 and 16 bytes, so the cipher never sees data that is not
    block aligned. *)
Theorem aes_encrypt_fails_only_on_key_or_iv (L : Libs) (data key : string) (iv : bytes) :
  Credentials.valid_utf8 (encode_utf8 data) = true →
  Credentials.valid_utf8 (encode_utf8 key) = true →
  aes_encrypt data key iv
  = if negb ((length (encode_utf8 key) =? 16) || (length (encode_utf8 key) =? 24)
             || (length (encode_utf8 key) =? 32))
    then Raise (Exn ValueError "AES.new: incorrect AES key length")
    else if negb (length iv =? 16)
    then Raise (Exn ValueError "AES.new: incorrect IV length")
    else Ok (decode_utf8 (b64encode
               (cbc_encrypt_blocks (encode_utf8 key) (length (encode_utf8 data) / 16 + 1) iv
                  (pad (encode_utf8 data) block_size)))).
Proof.
  intros _ _. unfold aes_encrypt, AES_new_cbc.
  destruct (negb _); [done|]. destruct (negb _); [done|].
  rewrite bind_Ok. unfold cbc_encrypt.
  pose proof (length_pad (encode_utf8 data)) as [Hmod _]. rewrite Hmod.
  cbn [Nat.eqb negb cbc_key cbc_iv]. rewrite bind_Ok.
  by destruct (blocks_of_pad (encode_utf8 data)) as [-> _].
Qed.

(** X2. For a key and data that are text without lone surrogates, under a
    key of 32 bytes and an IV of 16, the ciphertext text of [aes_encrypt]
    decodes to
    [16 * (len(data.encode("utf-8")) // 16 + 1)] bytes: always longer than
    the encoded data and a whole number of blocks, a full block of padding
    being added to data that is already block aligned. *)
Theorem aes_encrypt_ciphertext_length (L : Libs) (data key : string) (iv : bytes) :
  block_cipher_ok L →
  Credentials.valid_utf8 (encode_utf8 data) = true →
  Credentials.valid_utf8 (encode_utf8 key) = true →
  length (encode_utf8 key) = 32 → length iv = 16 →
  ∃ (ciphertext : string) (raw : bytes),
    aes_encrypt data key iv = Ok ciphertext ∧
    b64decode ciphertext = Ok raw ∧
    length raw = 16 * (length (encode_utf8 data) / 16 + 1) ∧
    length (encode_utf8 data) < length raw ∧
    String.length ciphertext = 4 * ((length raw + 2) / 3).
Proof.
  intros HL _ _ Hk Hiv.
  destruct (blocks_of_pad (encode_utf8 data)) as [Hn Hlen].
  set (raw := cbc_encrypt_blocks (encode_utf8 key) (length (encode_utf8 data) / 16 + 1) iv
                (pad (encode_utf8 data) block_size)).
  assert (Hraw : length raw = (length (encode_utf8 data) / 16 + 1) * 16).
  { by apply (length_cbc_encrypt_blocks L HL). }
  exists (decode_utf8 (b64encode raw)), raw. repeat split.
  - unfold aes_encrypt. rewrite AES_new_cbc_ok by done.
    rewrite bind_Ok. unfold cbc_encrypt.
    pose proof (length_pad (encode_utf8 data)) as [Hmod _]. rewrite Hmod.
    cbn [Nat.eqb negb cbc_key cbc_iv]. by rewrite bind_Ok, Hn.
  - apply b64decode_b64encode.
  - lia.
  - rewrite Hraw. n_arith.
  - by rewrite length_decode_utf8, length_b64encode.
Qed.

(** X1 on six Chinese characters, 18 bytes of UTF-8: two cipher blocks. *)
Lemma aes_encrypt_fails_only_on_key_or_iv_witness :
  Credentials.valid_utf8 (encode_utf8 "测试数据测试") = true ∧
  Credentials.valid_utf8 (encode_utf8 key0) = true ∧
  length (encode_utf8 "测试数据测试") = 18 ∧
  aes_encrypt (L:=Toy.libs) "测试数据测试" key0 iv0
  = Ok (decode_utf8 (b64encode
          (cbc_encrypt_blocks (L:=Toy.libs) (encode_utf8 key0) 2 iv0
             (pad (encode_utf8 "测试数据测试") block_size)))).
Proof.
  split; [reflexivity|]. split; [reflexivity|]. split; [reflexivity|].
  exact (aes_encrypt_fails_only_on_key_or_iv Toy.libs "测试数据测试" key0 iv0
           eq_refl eq_refl).
Defined.

(** X2 on eight two-byte characters, exactly one block of UTF-8: two blocks
    of ciphertext. *)
Lemma aes_encrypt_ciphertext_length_witness :
  block_cipher_ok Toy.libs ∧
  Credentials.valid_utf8 (encode_utf8 "éééééééé") = true ∧
  Credentials.valid_utf8 (encode_utf8 key0) = true ∧
  length (encode_utf8 key0) = 32 ∧ length iv0 = 16 ∧
  ∃ (ciphertext : string) (raw : bytes),
    aes_encrypt (L:=Toy.libs) "éééééééé" key0 iv0 = Ok ciphertext ∧
    b64decode ciphertext = Ok raw ∧
    length raw = 16 * (length (encode_utf8 "éééééééé") / 16 + 1) ∧
    length (encode_utf8 "éééééééé") < length raw ∧
    String.length ciphertext = 4 * ((length raw + 2) / 3).
Proof.
  split; [exact toy_block_cipher_ok|]. split; [reflexivity|].
  split; [reflexivity|]. split; [reflexivity|]. split; [reflexivity|].
  exact (aes_encrypt_ciphertext_length Toy.libs "éééééééé" key0 iv0
           toy_block_cipher_ok eq_refl eq_refl eq_refl eq_refl).
Defined.

Lemma a2b_base64_raises (s : bytes) (quad_pos : nat) (leftchar : N) (pads : nat) (e : exn) :
  a2b_base64 s quad_pos leftchar pads = Raise e → exn_class_of e = BinasciiError.
Proof.
  revert quad_pos leftchar pads.
  induction s as [|c s IH]; intros quad_pos leftchar pads; cbn [a2b_base64].
  - destruct quad_pos as [|[|?]]; intros [= <-]; done.
  - destruct (Ascii.eqb c b64_pad).
    + destruct (_ && _); [done | apply IH].
    + destruct (b64_index c) as [v|]; [|apply IH].
      destruct quad_pos as [|[|[|?]]]; [apply IH|..]; unfold cons_ok;
        (destruct (a2b_base64 s _ _ _) as [?|e'] eqn:H; [done|]);
        cbn; intros [= <-]; eapply IH, H.
Qed.

(** X3. Whatever [aes_decrypt] raises is a [ValueError] ([binascii.Error],
    which base64 decoding raises, is a subclass of it): a bad key or IV
    length, text that is not base64, a length that is not a multiple of the
    block size, or wrong padding. *)
Theorem aes_decrypt_raises_value_error (L : Libs) (ciphertext key : string) (iv : bytes)
    (e : exn) :
  aes_decrypt ciphertext key iv = Raise e → is_instance e ValueError = true.
Proof.
  unfold aes_decrypt, AES_new_cbc.
  destruct (negb _); [by intros [= <-]|]. destruct (negb _); [by intros [= <-]|].
  rewrite bind_Ok. unfold b64decode.
  destruct (is_ascii_text _); [|by intros [= <-]].
  destruct (a2b_base64 _ _ _ _) as [raw|e'] eqn:Hraw.
  2:{ cbn. intros [= <-]. apply a2b_base64_raises in Hraw.
      unfold is_instance. by rewrite Hraw. }
  rewrite bind_Ok. unfold cbc_decrypt.
  destruct (negb _); [by intros [= <-]|]. rewrite bind_Ok.
  unfold unpad.
  repeat (match goal with |- context [if ?b then _ else _] => destruct b end;
          [by intros [= <-]|]).
  done.
Qed.

(** X3 on the empty ciphertext. *)
Lemma aes_decrypt_raises_value_error_witness :
  aes_decrypt (L:=Toy.libs) "" key0 iv0
  = Raise (Exn ValueError "unpad: zero-length input cannot be unpadded") ∧
  is_instance (Exn ValueError "unpad: zero-length input cannot be unpadded") ValueError
  = true.
Proof.
  split; [reflexivity|].
  exact (aes_decrypt_raises_value_error Toy.libs "" key0 iv0 _ eq_refl).
Defined.

(** X4. A signing key that [aes_decrypt] returned is base64 text, so
    signing with it cannot fail: [get_signature] returns a 44-character
    signature for every message, and [sign_request] returns for every
    request. *)
Theorem decrypted_secret_is_signing_key (L : Libs) (secret key : string) (iv : bytes)
    (sign_key : string) :
  hmac_digest_ok L →
  aes_decrypt secret key iv = Ok sign_key →
  (∃ key_bytes, b64decode sign_key = Ok key_bytes) ∧
  (∀ message, ∃ signature,
     get_signature message sign_key = Ok signature ∧ String.length signature = 44) ∧
  (∀ data, is_ok (sign_request data (JStr sign_key)) = true).
Proof.
  intros HL H. unfold aes_decrypt in H.
  destruct (AES_new_cbc _ _) as [cipher|?]; [|done]. rewrite bind_Ok in H.
  destruct (b64decode secret) as [raw|?]; [|done]. rewrite bind_Ok in H.
  destruct (cbc_decrypt cipher raw) as [padded|?]; [|done]. rewrite bind_Ok in H.
  destruct (unpad padded block_size) as [decrypted|?]; [|done]. rewrite bind_Ok in H.
  injection H as <-.
  assert (Hsig : ∀ message, ∃ signature,
             get_signature message (decode_utf8 (b64encode decrypted)) = Ok signature ∧
             String.length signature = 44).
  { intros message. unfold get_signature. rewrite b64decode_b64encode, bind_Ok.
    eexists. split; [done|]. by apply length_signature. }
  split; [|split].
  - eexists. apply b64decode_b64encode.
  - exact Hsig.
  - intros data. unfold sign_request.
    destruct (_ && _); [|done].
    by destruct (Hsig (json_dumps_compact (JDict data))) as (signature & -> & _).
Qed.

(** X4 on the secret that encrypts the three bytes of [sig]. *)
Lemma decrypted_secret_is_signing_key_witness :
  hmac_digest_ok Toy.libs ∧
  aes_decrypt (L:=Toy.libs) "Q1lXPT09PT09PT09PT09PQ==" key0 iv0 = Ok "c2ln" ∧
  (∃ key_bytes, b64decode "c2ln" = Ok key_bytes) ∧
  (∀ message, ∃ signature,
     get_signature (L:=Toy.libs) message "c2ln" = Ok signature ∧
     String.length signature = 44) ∧
  (∀ data, is_ok (sign_request (L:=Toy.libs) data (JStr "c2ln")) = true).
Proof.
  split; [exact toy_hmac_digest_ok|]. split; [vm_compute; reflexivity|].
  refine (decrypted_secret_is_signing_key Toy.libs "Q1lXPT09PT09PT09PT09PQ==" key0 iv0
            "c2ln" toy_hmac_digest_ok _).
  vm_compute; reflexivity.
Defined.

Lemma aes_decrypt_of_encrypt (L : Libs) (data key ciphertext : string) (iv : bytes) :
  block_cipher_ok L → String.length key = 32 → length iv = 16 →
  aes_encrypt data key iv = Ok ciphertext →
  aes_decrypt ciphertext key iv = Ok (decode_utf8 (b64encode (encode_utf8 data))).
Proof.
  intros HL Hk Hiv Henc. rewrite aes_encrypt_eq, Hk, Hiv in Henc.
  destruct (blocks_of_pad (encode_utf8 data)) as [_ Hlen].
  rewrite length_encode_utf8 in Hlen.
  remember (String.length data / 16 + 1) as n eqn:Hn.
  cbn [Nat.eqb negb orb] in Henc. injection Henc as <-.
  unfold aes_decrypt. rewrite AES_new_cbc_ok by (by rewrite ?length_encode_utf8).
  rewrite bind_Ok, b64decode_b64encode, bind_Ok.
  unfold cbc_decrypt. cbn [cbc_key cbc_iv].
  rewrite (length_cbc_encrypt_blocks L HL) by (by rewrite ?length_encode_utf8).
  replace (n * 16 mod block_size) with 0 by (unfold block_size; n_arith).
  cbn [Nat.eqb negb]. rewrite bind_Ok.
  replace (n * 16 / block_size) with n by (unfold block_size; n_arith).
  rewrite (cbc_blocks_roundtrip L HL) by (by rewrite ?length_encode_utf8).
  by rewrite unpad_pad.
Qed.

(** X5. The envelope [encrypt_login_request] builds has the four fields
    [req], [iv], [rsa] and [aes] in this order, with [req] equal to
    [encrypted]; [sign_request] never signs it, whatever the signing key,
    since [encrypted] is on the no-sign list; its [iv] field decodes to the
    IV, and under a 32-byte session key its [aes] field decrypts to the
    base64 text of the login data. *)
Theorem login_envelope (L : Libs) (data public_key aes_key : string) (iv : bytes)
    (envelope : dict) :
  encrypt_login_request data public_key aes_key iv = Ok envelope →
  envelope.*1 = ["req"; "iv"; "rsa"; "aes"] ∧
  dict_get envelope "req" = JStr "encrypted" ∧
  (∀ sign_key, sign_request envelope sign_key = Ok (json_dumps_compact (JDict envelope))) ∧
  (∃ text, dict_get envelope "iv" = JStr text ∧ b64decode text = Ok iv) ∧
  (∃ ciphertext,
     dict_get envelope "aes" = JStr ciphertext ∧
     aes_encrypt data aes_key iv = Ok ciphertext ∧
     (block_cipher_ok L → String.length aes_key = 32 → length iv = 16 →
      aes_decrypt ciphertext aes_key iv
      = Ok (decode_utf8 (b64encode (encode_utf8 data))))).
Proof.
  unfold encrypt_login_request.
  destruct (rsa_encrypt public_key aes_key) as [rsa|?]; [|done]. rewrite bind_Ok.
  destruct (aes_encrypt data aes_key iv) as [aes|?] eqn:Haes; [|done]. rewrite bind_Ok.
  intros [= <-]. split; [done|]. split; [done|]. split; [done|]. split.
  - eexists. split; [reflexivity|]. apply b64decode_b64encode.
  - exists aes. split; [reflexivity|]. split; [done|].
    intros HL Hk Hiv. by apply aes_decrypt_of_encrypt.
Qed.

(** X5 on a small login payload. *)
Lemma login_envelope_witness :
  encrypt_login_request (L:=Toy.libs) "{}" "PEM" key0 iv0
  = Ok [("req", JStr "encrypted"); ("iv", JStr "AAAAAAAAAAAAAAAAAAAAAA==");
        ("rsa", JStr "MDAwMDAwMDAwMDAwMDAwMDAwMDAwMDAwMDAwMDAwMDA=");
        ("aes", JStr "S00+Pj4+Pj4+Pj4+Pj4+Pg==")] ∧
  dict_get [("req", JStr "encrypted"); ("iv", JStr "AAAAAAAAAAAAAAAAAAAAAA==");
            ("rsa", JStr "MDAwMDAwMDAwMDAwMDAwMDAwMDAwMDAwMDAwMDAwMDA=");
            ("aes", JStr "S00+Pj4+Pj4+Pj4+Pj4+Pg==")] "req" = JStr "encrypted".
Proof.
  split; [vm_compute; reflexivity|].
  refine (proj1 (proj2 (login_envelope Toy.libs "{}" "PEM" key0 iv0 _ _))).
  vm_compute; reflexivity.
Defined.

End CipherFacts.

(** ** Requests on the wire *)
Module RequestFacts.
Import Crypto WsClient MonadFacts PendingFacts HexFacts CryptoFacts Samples.

Ltac step_M :=
  repeat first
    [ rewrite bind_modify | rewrite bind_print | rewrite bind_ret
    | rewrite bind_get_world | rewrite bind_get_client | rewrite bind_lift_ok
    | rewrite M_ret_eq | rewrite print_eq ].

Lemma bind_lift_raise {A B} (e : exn) (f : A → M B) (w : world) :
  (lift (Raise e) ≫= f) w = (Raise e, w).
Proof. reflexivity. Qed.

Lemma bind_raise {A B} (e : exn) (f : A → M B) (w : world) :
  (raise e ≫= f) w = (Raise e, w).
Proof. reflexivity. Qed.

Lemma bind_modify_connection {B} (g : conn → conn) (f : unit → M B) (w : world) :
  (modify_connection g ≫= f) w
  = f tt (set_client (set_connection (g (connection (w_client w))) (w_client w)) w).
Proof. reflexivity. Qed.

Lemma response_reqid (reqid : string) (body : dict) :
  dict_get (dict_set "reqid" (JStr reqid) body) "reqid" = JStr reqid.
Proof. apply dict_get_dict_set. Qed.

(** The connection after [request] has sent its message: the new future
    holds the response or is cancelled, and the entry of the request is gone
    from the pending table. *)
Lemma request_wait (w : world) (reqid : string) (outcome : net_outcome) :
  let c := connection (w_client w) in
  let m := modify_connection (enqueue reqid);;
           match outcome with
           | Reply body => modify_connection (listen_message (response reqid body))
           | _ => mret tt
           end;;
           await_future reqid (length (futures c)) in
  ∃ x : future,
    (m w).2 = set_client
                (set_connection
                   {| ws := ws c; listening := listening c;
                      pending := delete reqid (pending c);
                      futures := futures c ++ [x] |} (w_client w)) w ∧
    (m w).1 = match x with
              | FResult data => Ok data
              | _ => Raise (Exn TimeoutError "request: timed out")
              end ∧
    match outcome with
    | Reply body =>
        if listening c && negb (String.eqb reqid "")
        then x = FResult (dict_set "reqid" (JStr reqid) body)
        else x = FCancelled
    | _ => x = FCancelled
    end.
Proof.
  intros c m. subst m. rewrite bind_modify_connection. fold c.
  assert (Htimeout :
    ∀ w1, connection (w_client w1) = enqueue reqid c →
      w1 = set_client (set_connection (enqueue reqid c) (w_client w)) w →
      await_future reqid (length (futures c)) w1
      = (Raise (Exn TimeoutError "request: timed out"),
         set_client
           (set_connection
              {| ws := ws c; listening := listening c;
                 pending := delete reqid (pending c);
                 futures := futures c ++ [FCancelled] |} (w_client w)) w)).
  { intros w1 Hconn ->. unfold await_future. rewrite bind_get_client, Hconn.
    cbn [futures enqueue]. rewrite lookup_app_r, Nat.sub_diag by done. cbn [lookup list_lookup].
    rewrite !bind_modify_connection. cbn [w_client set_client connection set_connection].
    unfold deadline, forget. cbn [futures enqueue].
    rewrite lookup_app_r, Nat.sub_diag by done. cbn [lookup list_lookup].
    unfold set_future, set_pending. cbn [futures pending ws listening enqueue].
    rewrite delete_insert_eq.
    rewrite insert_app_r_alt, Nat.sub_diag by done. cbn [insert list_insert].
    reflexivity. }
  destruct outcome as [body| |].
  2,3: exists FCancelled; rewrite bind_ret, Htimeout by done; done.
  rewrite bind_modify_connection. cbn [w_client set_client connection set_connection].
  unfold response, listen_message. cbn [listening enqueue].
  destruct (listening c) eqn:Hl; cbn [negb andb].
  2:{ exists FCancelled. rewrite Htimeout; [done|done|]. by destruct w, w_client. }
  rewrite response_reqid. cbn [truthy].
  destruct (String.eqb reqid "") eqn:Hr; cbn [negb].
  { exists FCancelled. rewrite Htimeout; [done|done|]. by destruct w, w_client. }
  cbn [pending enqueue futures]. rewrite lookup_insert_eq.
  rewrite lookup_app_r, Nat.sub_diag by done. cbn [lookup list_lookup].
  exists (FResult (dict_set "reqid" (JStr reqid) body)).
  unfold await_future, set_future, set_pending. rewrite bind_get_client.
  cbn [w_client set_client connection set_connection futures pending ws listening enqueue].
  rewrite insert_app_r_alt, Nat.sub_diag by done. cbn [insert list_insert].
  rewrite lookup_app_r, Nat.sub_diag by done. cbn [lookup list_lookup].
  rewrite M_ret_eq. cbn [fst snd].
  rewrite delete_insert_eq, Hl. done.
Qed.


Section RequestFacts.
Context (L : Libs).

Lemma request_not_connected (w : world) (req : string) (kwargs : dict) :
  is_connected (w_client w) = false →
  request req kwargs w = (Raise (Exn RuntimeError "request: not connected to the server"), w).
Proof. intros Hc. unfold request. rewrite bind_get_client, Hc. reflexivity. Qed.

(** [request] on a connected client, up to the wait for the response. *)
Lemma request_connected (w : world) (req : string) (kwargs : dict) :
  is_connected (w_client w) = true →
  let c := w_client w in
  let reqid := (generate (w_generator w) (e_unix_time (w_env w)) (back_id c)).1 in
  let w1 := set_generator {| _index := _index (w_generator w) + 1 |} w in
  let data := dict_update [("req", JStr req); ("reqid", JStr reqid)] kwargs in
  let prepared :=
    if bool_decide (req ∈ ["user.login"; "user.add"])
    then public_key ← as_str "RSA.import_key" (pub c);
         encrypt_login_request (json_dumps_compact (JDict data)) public_key
           (_aes_key c) (_iv c)
    else Ok data in
  request req kwargs w
  = match prepared ≫= (λ data', sign_request data' (sign_key c)) with
    | Raise e => (Raise e, w1)
    | Ok message =>
        match w_replies w with
        | SendFails :: rest =>
            (Raise (Exn ConnectionClosed "send: connection closed"), set_replies rest w1)
        | replies =>
            (modify_connection (enqueue reqid);;
             match hd NoReply replies with
             | Reply body => modify_connection (listen_message (response reqid body))
             | _ => mret tt
             end;;
             await_future reqid (length (futures (connection c))))
              (add_sent message
                 match replies with [] => w1 | _ :: rest => set_replies rest w1 end)
        end
    end.
Proof.
  intros Hc. cbn zeta. unfold request. rewrite bind_get_client, Hc. cbn [negb].
  rewrite bind_get_world. unfold generate. cbn [fst]. rewrite bind_modify.
  destruct (bool_decide _).
  - destruct (as_str _ _ ≫= _) as [data'|e]; [|done]. rewrite bind_lift_ok. cbn [mbind result_bind].
    destruct (sign_request _ _) as [message|e]; [|done]. rewrite bind_lift_ok.
    unfold next_outcome. rewrite M_bind_eq, bind_get_world. cbn [w_replies set_generator].
    destruct (w_replies w) as [|[body| |] rest]; step_M; reflexivity.
  - rewrite bind_ret. cbn [mbind result_bind].
    destruct (sign_request _ _) as [message|e]; [|done]. rewrite bind_lift_ok.
    unfold next_outcome. rewrite M_bind_eq, bind_get_world. cbn [w_replies set_generator].
    destruct (w_replies w) as [|[body| |] rest]; step_M; reflexivity.
Qed.

(** X6. Every [request] made after [close()] (or on a client that never
    connected) raises [RuntimeError] and does nothing else: no request id is
    consumed, nothing is sent and no future is created. *)
Theorem request_after_close_fails (w : world) (req : string) (kwargs : dict) :
  request req kwargs (close w).2
  = (Raise (Exn RuntimeError "request: not connected to the server"), (close w).2) ∧
  request req kwargs (set_client FnOsClient_init w)
  = (Raise (Exn RuntimeError "request: not connected to the server"),
     set_client FnOsClient_init w).
Proof. split; by apply request_not_connected. Qed.

(** X7. Whatever the outcome of a [request] (response, timeout, failure to
    encrypt, sign or send), the pending table has no entry afterwards that it
    had not before, and the futures created before are untouched: the request
    removes its own entry on every path. *)
Theorem request_leaves_no_pending_entry (w : world) (req : string) (kwargs : dict) :
  let c := connection (w_client w) in
  let c' := connection (w_client (request req kwargs w).2) in
  pending c' ⊆ pending c ∧ futures c `prefix_of` futures c'.
Proof.
  cbn zeta.
  destruct (is_connected (w_client w)) eqn:Hc.
  2:{ by rewrite request_not_connected. }
  rewrite request_connected by done. cbn zeta.
  destruct (_ ≫= _) as [message|e]; [|done].
  set (reqid := (generate _ _ _).1).
  assert (Hwait : ∀ (outcome : net_outcome) (w2 : world),
            w_client w2 = w_client w →
            let m := modify_connection (enqueue reqid);;
                     match outcome with
                     | Reply body => modify_connection (listen_message (response reqid body))
                     | _ => mret tt
                     end;;
                     await_future reqid (length (futures (connection (w_client w)))) in
            pending (connection (w_client (m w2).2)) ⊆ pending (connection (w_client w)) ∧
            futures (connection (w_client w))
              `prefix_of` futures (connection (w_client (m w2).2))).
  { intros outcome w2 Hw2. cbn zeta. rewrite <- Hw2.
    destruct (request_wait w2 reqid outcome) as (x & -> & _).
    cbn [w_client set_client connection set_connection pending futures].
    split; [apply delete_subseteq | by eexists]. }
  destruct (w_replies w) as [|[body| |] rest]; [apply Hwait; done..|done].
Qed.


Lemma envelope_unsigned (data public_key aes_key : string) (iv : bytes) (envelope : dict)
    (sign_key : json) :
  encrypt_login_request data public_key aes_key iv = Ok envelope →
  sign_request envelope sign_key = Ok (json_dumps_compact (JDict envelope)).
Proof.
  unfold encrypt_login_request.
  destruct (rsa_encrypt _ _) as [rsa|?]; [|done]. rewrite bind_Ok.
  destruct (aes_encrypt _ _ _) as [aes|?]; [|done]. rewrite bind_Ok.
  by intros [= <-].
Qed.

(** X8. A [user.login] request goes out as the compact JSON of the
    encrypted envelope and carries no signature, whatever signing key the
    client holds: the envelope's [req] is [encrypted], which is on the
    no-sign list. Exactly one message is sent. *)
Theorem login_request_is_sent_unsigned (w : world) (kwargs : dict) (public_key : string)
    (envelope : dict) :
  let c := w_client w in
  let reqid := (generate (w_generator w) (e_unix_time (w_env w)) (back_id c)).1 in
  let data := dict_update [("req", JStr "user.login"); ("reqid", JStr reqid)] kwargs in
  is_connected c = true →
  pub c = JStr public_key →
  encrypt_login_request (json_dumps_compact (JDict data)) public_key (_aes_key c) (_iv c)
    = Ok envelope →
  (∀ rest, w_replies w ≠ SendFails :: rest) →
  w_sent (request "user.login" kwargs w).2
  = w_sent w ++ [json_dumps_compact (JDict envelope)].
Proof.
  intros c reqid data Hc Hpub Henv Hsend.
  rewrite request_connected by done. cbn zeta. fold c. fold reqid. fold data.
  rewrite bool_decide_eq_true_2 by set_solver.
  rewrite Hpub. cbn [as_str]. rewrite bind_Ok, Henv, bind_Ok.
  rewrite (envelope_unsigned _ _ _ _ _ _ Henv).
  assert (Hwait : ∀ (outcome : net_outcome) (w2 : world),
            w_client w2 = w_client w →
            let m := modify_connection (enqueue reqid);;
                     match outcome with
                     | Reply body => modify_connection (listen_message (response reqid body))
                     | _ => mret tt
                     end;;
                     await_future reqid (length (futures (connection c))) in
            w_sent (m w2).2 = w_sent w2).
  { intros outcome w2 Hw2. cbn zeta. subst c. rewrite <- Hw2.
    by destruct (request_wait w2 reqid outcome) as (x & -> & _). }
  destruct (w_replies w) as [|[body| |] rest]; [by rewrite Hwait..|].
  by destruct (Hsend rest).
Qed.


(** X9. A request that cannot be encrypted (a login on a client without a
    public key) or signed (a signing key that is not base64 text) raises
    the exception of the encryption or of the signature before anything is
    sent: no message goes out, no future is created, and the only trace is
    the request id that has been used up. *)
Theorem request_that_cannot_be_framed (w : world) (req : string) (kwargs : dict)
    (e : exn) :
  let c := w_client w in
  let reqid := (generate (w_generator w) (e_unix_time (w_env w)) (back_id c)).1 in
  let data := dict_update [("req", JStr req); ("reqid", JStr reqid)] kwargs in
  let prepared :=
    if bool_decide (req ∈ ["user.login"; "user.add"])
    then public_key ← as_str "RSA.import_key" (pub c);
         encrypt_login_request (json_dumps_compact (JDict data)) public_key
           (_aes_key c) (_iv c)
    else Ok data in
  is_connected c = true →
  prepared ≫= (λ data', sign_request data' (sign_key c)) = Raise e →
  request req kwargs w
  = (Raise e, set_generator {| _index := _index (w_generator w) + 1 |} w).
Proof.
  intros c reqid data prepared Hc Hraise.
  rewrite request_connected by done. cbn zeta.
  fold c. fold reqid. fold data. fold prepared. by rewrite Hraise.
Qed.

End RequestFacts.

(** X8 on the login request of the sample login. *)
Lemma login_request_is_sent_unsigned_witness :
  is_connected (w_client login_world2) = true ∧
  pub (w_client login_world2) = JStr "PEM" ∧
  dict_get login_envelope0 "req" = JStr "encrypted" ∧
  w_sent (request (L:=Toy.libs) "user.login" login_kwargs login_world2).2
  = w_sent login_world2 ++ [json_dumps_compact (Libs:=Toy.libs) (JDict login_envelope0)].
Proof.
  split; [vm_compute; reflexivity|]. split; [vm_compute; reflexivity|].
  split; [vm_compute; reflexivity|].
  refine (login_request_is_sent_unsigned Toy.libs login_world2 login_kwargs "PEM"
            login_envelope0 _ _ _ _).
  - vm_compute; reflexivity.
  - vm_compute; reflexivity.
  - vm_compute; reflexivity.
  - intros rest. vm_compute. discriminate.
Defined.

(** X9 on a client whose signing key is the single character [a]. *)
Lemma request_that_cannot_be_framed_witness :
  is_connected (w_client world_bad_sign_key) = true ∧
  request (L:=Toy.libs) "appcgi.sac.entry.v1.exchangeEntryToken" [] world_bad_sign_key
  = (Raise (Exn BinasciiError "a2b_base64: one data character too many"),
     set_generator {| _index := _index (w_generator world_bad_sign_key) + 1 |}
       world_bad_sign_key).
Proof.
  split; [vm_compute; reflexivity|].
  refine (request_that_cannot_be_framed Toy.libs world_bad_sign_key
            "appcgi.sac.entry.v1.exchangeEntryToken" [] _ _ _);
    vm_compute; reflexivity.
Defined.

Lemma hex_digits_grows (fuel : nat) (n : N) (acc : string) :
  String.length acc ≤ String.length (hex_digits fuel n acc).
Proof.
  revert n acc. induction fuel as [|fuel IH]; intros n acc; cbn [hex_digits]; [done|].
  destruct (n =? 0)%N; [done|].
  etrans; [|apply IH]. cbn [String.length]. lia.
Qed.

Lemma hex_digits_long (fuel : nat) (n : N) (acc : string) (k : nat) :
  (n < 2 ^ N.of_nat fuel)%N → (16 ^ N.of_nat k ≤ n)%N →
  k + 1 + String.length acc ≤ String.length (hex_digits fuel n acc).
Proof.
  revert n acc k. induction fuel as [|fuel IH]; intros n acc k Hfuel Hk.
  - cbn in Hfuel. pose proof (N.pow_nonzero 16 (N.of_nat k)). lia.
  - cbn [hex_digits].
    assert (Hpos : (0 < 16 ^ N.of_nat k)%N) by (apply N.neq_0_lt_0, N.pow_nonzero; lia).
    destruct (N.eqb_spec n 0) as [->|Hne]; [lia|].
    destruct k as [|k].
    + etrans; [|apply hex_digits_grows]. cbn [String.length]. lia.
    + etrans; [|apply (IH _ _ k)].
      * cbn [String.length]. lia.
      * rewrite Nat2N.inj_succ, N.pow_succ_r' in Hfuel.
        apply N.Div0.div_lt_upper_bound. lia.
      * rewrite Nat2N.inj_succ, N.pow_succ_r' in Hk.
        apply N.div_le_lower_bound; lia.
Qed.

Lemma length_index_field (n : N) :
  ((n < 65536)%N → String.length (zfill 4 (format_hex_N n)) = 4) ∧
  ((65536 ≤ n)%N → 4 < String.length (zfill 4 (format_hex_N n))).
Proof.
  rewrite zfill_unsigned by apply format_hex_N_unsigned.
  rewrite length_string_app, length_zeros.
  unfold format_hex_N. split; intros Hn.
  - assert (String.length (if (n =? 0)%N then "0" else hex_digits (N.size_nat n) n "") ≤ 4);
      [|lia].
    destruct (n =? 0)%N; [cbn; lia|].
    etrans; [apply (length_hex_digits _ _ _ 4)|cbn; lia].
    change (16 ^ N.of_nat 4)%N with 65536%N. lia.
  - destruct (N.eqb_spec n 0) as [->|_]; [lia|].
    pose proof (hex_digits_long (N.size_nat n) n "" 4 (size_nat_gt n)) as H.
    change (16 ^ N.of_nat 4)%N with 65536%N in H. specialize (H Hn).
    cbn [String.length] in H. lia.
Qed.

(** X10. A request id has the fixed width of 12 characters around the back id
    (28 with a 16-character back id) only for the first 65535 requests of
    the process: [zfill(4)] pads the counter and never truncates it, so from
    the 65536th request on the id is longer. The clock reading is taken to
    fit 8 hexadecimal digits. *)
Theorem request_id_width (g : ReqIdGenerator) (unix_time : Z) (back_id : string) :
  (0 ≤ unix_time < 2 ^ 32)%Z →
  let reqid := (generate g unix_time back_id).1 in
  ((_index g + 1 < 65536)%N → String.length reqid = 12 + String.length back_id) ∧
  ((65536 ≤ _index g + 1)%N → 12 + String.length back_id < String.length reqid).
Proof.
  intros Hts reqid. subst reqid. unfold generate. cbn [fst].
  rewrite !length_string_app, length_timestamp by done.
  destruct (length_index_field (_index g + 1)) as [Hshort Hlong].
  split; intros H; [rewrite Hshort by done | specialize (Hlong H)]; lia.
Qed.

(** X10 on the 65535th and the 65536th request of a process. *)
Lemma request_id_width_witness :
  (0 ≤ 1793776980 < 2 ^ 32)%Z ∧
  String.length (generate {| _index := 65534 |} 1793776980 "0000000000000000").1 = 28 ∧
  28 < String.length (generate {| _index := 65535 |} 1793776980 "0000000000000000").1.
Proof.
  split; [lia|]. split.
  - refine (proj1 (request_id_width {| _index := 65534 |} 1793776980 "0000000000000000" _) _);
      [lia | reflexivity].
  - refine (proj2 (request_id_width {| _index := 65535 |} 1793776980 "0000000000000000" _) _);
      [lia | reflexivity].
Defined.


End RequestFacts.

(** ** The stored configuration *)
Module StoreFacts.
Import Config WsClient Auth MonadFacts PendingFacts AuthFacts ConfigFacts Samples.

Lemma assoc_get_dict_set_ne (k k' : string) (v : json) (d : dict) :
  k ≠ k' → assoc_get k' (dict_set k v d) = assoc_get k' d.
Proof.
  intros Hne. induction d as [|[k0 v0] d IH]; cbn.
  - by destruct (String.eqb_spec k' k).
  - destruct (String.eqb_spec k k0) as [->|Hk]; cbn.
    + by destruct (String.eqb_spec k' k0).
    + destruct (String.eqb_spec k' k0); [done | exact IH].
Qed.

Lemma assoc_get_dict_update (k : string) (d kwargs : dict) :
  NoDup kwargs.*1 →
  assoc_get k (dict_update d kwargs)
  = match assoc_get k kwargs with Some v => Some v | None => assoc_get k d end.
Proof.
  unfold dict_update. revert d.
  induction kwargs as [|[k0 v0] kwargs IH]; intros d Hnd; [done|].
  apply NoDup_cons in Hnd as [Hk0 Hnd]. cbn [fold_left fst snd assoc_get].
  rewrite IH by done.
  destruct (String.eqb_spec k k0) as [->|Hne].
  - assert (assoc_get k0 kwargs = None) as ->.
    { clear -Hk0. induction kwargs as [|[k1 v1] kwargs IH]; [done|].
      cbn in *. apply not_elem_of_cons in Hk0 as [Hne Hk0].
      destruct (String.eqb_spec k0 k1); [done | by apply IH]. }
    apply assoc_get_dict_set.
  - by rewrite assoc_get_dict_set_ne.
Qed.

Section StoreFacts.
Context (L : Libs).

(** X11. [get_preference(key, default)] looks in the preferences of the
    configuration file first, then in [DEFAULT_PREFERENCES], and only then
    takes the default of the call: for a key of [DEFAULT_PREFERENCES] the
    default argument is never used, and a preference stored as [null] is
    returned as [None]. *)
Theorem get_preference_precedence (w : world) (key : string) (default : json) :
  NoDup (e_prefs (w_env w)).*1 →
  get_preference w key default
  = match assoc_get key (e_prefs (w_env w)) with
    | Some v => v
    | None =>
        match assoc_get key DEFAULT_PREFERENCES with
        | Some v => v
        | None => default
        end
    end.
Proof.
  intros Hnd. unfold get_preference, get_preferences, dict_get_or.
  rewrite assoc_get_dict_update by done.
  destruct (assoc_get key (e_prefs (w_env w))); [done|].
  by destruct (assoc_get key DEFAULT_PREFERENCES).
Qed.

(** X12. Reading back after [save_server_config(url, update_last_login,
    **kwargs)]: a field passed as keyword has the value passed, [url] has
    the address, [last_login] the current time when it is updated, and
    every other field keeps the value it had; the stored entry exists
    afterwards. *)
Theorem save_server_config_read_back (url : json) (update_last_login : bool)
    (kwargs : dict) (w : world) (field : string) :
  NoDup kwargs.*1 → "url" ∉ kwargs.*1 → "update_last_login" ∉ kwargs.*1 →
  ∃ server,
    get_server_config (save_server_config url update_last_login kwargs w) = Some server ∧
    assoc_get field server
    = match assoc_get field kwargs with
      | Some v => Some v
      | None =>
          if String.eqb field "last_login" && update_last_login
          then Some (JStr (datetime_isoformat (naive (e_now (w_env w)))))
          else if String.eqb field "url" then Some url
          else assoc_get field (default [] (get_server_config w))
      end.
Proof.
  intros Hnd _ _. eexists. split; [reflexivity|].
  rewrite assoc_get_dict_update by done.
  destruct (assoc_get field kwargs); [done|].
  destruct update_last_login; rewrite ?andb_true_r, ?andb_false_r.
  - destruct (String.eqb_spec field "last_login") as [->|Hne].
    + apply assoc_get_dict_set.
    + rewrite assoc_get_dict_set_ne by done.
      destruct (String.eqb_spec field "url") as [->|Hne'].
      * apply assoc_get_dict_set.
      * by rewrite assoc_get_dict_set_ne.
  - destruct (String.eqb_spec field "url") as [->|Hne'].
    + apply assoc_get_dict_set.
    + by rewrite assoc_get_dict_set_ne.
Qed.



(** X14. After [delete_server_config()] at most the address is left of the
    server entry: the three expiry predicates report expired, no refresh is
    advised, the status reports not logged in, and [do_refresh] raises
    [RuntimeError] without touching the network or the configuration. *)
Theorem deleted_config_is_logged_out (w : world) :
  let w' := delete_server_config w in
  (∀ field, field ≠ "url" → dict_get (default [] (get_server_config w')) field = JNull) ∧
  dict_get (default [] (get_server_config w')) "url"
  = (if truthy (dict_get (default [] (get_server_config w)) "url")
     then dict_get (default [] (get_server_config w)) "url" else JNull) ∧
  is_entry_token_expired w' = Ok true ∧
  is_fnos_token_expired w' = Ok true ∧
  is_long_token_expired w' = Ok true ∧
  token_needs_refresh w' = Ok false ∧
  (∃ status, get_token_status w' = Ok status ∧
             dict_get status "logged_in" = JBool false) ∧
  do_refresh w' = (Raise (Exn RuntimeError "do_refresh: not logged in"), w').
Proof.
  cbn zeta. unfold delete_server_config, get_server_config.
  destruct (truthy (dict_get (default [] (w_server w)) "url")) eqn:Hurl;
    cbn [w_server set_server default].
  - set (url := dict_get (default [] (w_server w)) "url") in *.
    split; [|split; [done|]]; [|do 4 (split; [reflexivity|]); split].
    + intros field Hne. unfold dict_get. cbn.
      by destruct (String.eqb_spec field "url").
    + eexists. split; reflexivity.
    + unfold do_refresh. rewrite bind_get_world.
      cbn [get_server_config w_server set_server no_config default orb].
      unfold id. change (dict_get [("url", url)] "url") with url. by rewrite Hurl.
  - split; [done|]. do 5 (split; [reflexivity|]). split.
    + eexists. split; reflexivity.
    + reflexivity.
Qed.


(** X15. When the stored expiry is a local timestamp and the refresh
    threshold of the preferences is a duration that is not negative: if the
    threshold subtracted from the expiry is a date, a token that
    [is_entry_token_expired] reports expired is also reported by
    [token_needs_refresh], and a token for which no refresh is advised is
    not expired; if it is not (the expiry lies within the threshold of
    0001-01-01), [token_needs_refresh] raises [OverflowError], which its
    [except] clause does not catch, while [is_entry_token_expired] still
    returns. *)
Theorem expired_implies_needs_refresh (w : world) (t threshold : Z) :
  read_expiry (stored_entry_expiry (w_server w)) = Local t →
  timedelta_hours (get_preference w "token_refresh_threshold_hours" (JInt 1))
    = Ok threshold →
  (0 ≤ threshold)%Z →
  if in_range (t - threshold)
  then (is_entry_token_expired w = Ok true → token_needs_refresh w = Ok true) ∧
       (token_needs_refresh w = Ok false → is_entry_token_expired w = Ok false)
  else token_needs_refresh w = Raise (Exn OverflowError "date value out of range") ∧
       is_entry_token_expired w = Ok (t <? e_now (w_env w))%Z.
Proof.
  intros Hread Hthreshold Hpos.
  rewrite is_entry_token_expired_reading, Hread. cbn [expired].
  destruct (in_range (t - threshold)) eqn:Hrange.
  - pose proof (token_needs_refresh_true L w) as Hiff.
    split.
    + intros [= Hlt%Z.ltb_lt]. apply Hiff. exists t, threshold. repeat split; try done. lia.
    + intros Hfalse. destruct (Z.ltb_spec t (e_now (w_env w))) as [Hlt|_]; [|done].
      assert (Htrue : token_needs_refresh w = Ok true).
      { apply Hiff. exists t, threshold. repeat split; try done. lia. }
      congruence.
  - split; [|done].
    revert Hread Hthreshold.
    unfold token_needs_refresh, stored_entry_expiry, get_server_config, read_expiry.
    destruct (no_config (w_server w)) eqn:Hno.
    { by rewrite !no_config_stored. }
    set (v := py_or _ _).
    destruct (truthy v); cbn [negb]; [|done].
    destruct v as [|b|n|s|l|d]; try done.
    cbn [fromisoformat_value].
    destruct (datetime_fromisoformat s) as [[t' [off|]]|]; try done.
    cbn [micros]. intros [= ->] ->. cbn [mbind result_bind].
    unfold datetime_sub, datetime_add. cbn [micros utcoffset].
    rewrite Z.add_opp_r, Hrange. reflexivity.
Qed.

End StoreFacts.

(** X11 on a stored preference, on one stored as [null], and on keys that
    only [DEFAULT_PREFERENCES] or only the call knows. *)
Lemma get_preference_precedence_witness :
  NoDup (e_prefs env_with_prefs).*1 ∧
  get_preference (world_of env_with_prefs None [] []) "timeout" (JInt 5) = JInt 60 ∧
  get_preference (world_of env_with_prefs None [] []) "language" (JStr "en") = JNull ∧
  get_preference (world_of env_with_prefs None [] []) "device_type" JNull = JStr "Browser" ∧
  get_preference (world_of env_with_prefs None [] []) "entry_token_expire_hours" (JInt 8)
  = JInt 8.
Proof.
  assert (Hnd : NoDup (e_prefs env_with_prefs).*1).
  { apply (bool_decide_unpack _). vm_compute. exact I. }
  split; [exact Hnd|].
  split; [exact (get_preference_precedence (world_of env_with_prefs None [] [])
                   "timeout" (JInt 5) Hnd)|].
  split; [exact (get_preference_precedence (world_of env_with_prefs None [] [])
                   "language" (JStr "en") Hnd)|].
  split; [exact (get_preference_precedence (world_of env_with_prefs None [] [])
                   "device_type" JNull Hnd)|].
  exact (get_preference_precedence (world_of env_with_prefs None [] [])
           "entry_token_expire_hours" (JInt 8) Hnd).
Defined.

(** X12 on a refresh of the entry token of a stored configuration: the
    long token is read back as it was. *)
Lemma save_server_config_read_back_witness :
  NoDup [("entry_token", JStr "entry-2")].*1 ∧
  ∃ server,
    get_server_config
      (save_server_config (L:=Toy.libs) (JStr "nas.example") false
         [("entry_token", JStr "entry-2")]
         (world_of env0 (Some server_expired_session) [] [])) = Some server ∧
    assoc_get "long_token" server = Some (JStr "long-1").
Proof.
  assert (Hnd : NoDup [("entry_token", JStr "entry-2")].*1).
  { apply (bool_decide_unpack _). vm_compute. exact I. }
  split; [exact Hnd|].
  refine (save_server_config_read_back Toy.libs (JStr "nas.example") false
            [("entry_token", JStr "entry-2")]
            (world_of env0 (Some server_expired_session) [] []) "long_token" Hnd _ _).
  - apply (bool_decide_unpack _). vm_compute. exact I.
  - apply (bool_decide_unpack _). vm_compute. exact I.
Defined.


(** X15 on an entry token that expired 83 minutes before the clock
    reading, and on one whose stored expiry is the first instant of the
    calendar, each with the default threshold of one hour. *)
Lemma expired_implies_needs_refresh_witness :
  (read_expiry (L:=Toy.libs)
     (stored_entry_expiry (w_server (world_of env0 (Some server_expired_session) [] [])))
   = Local (now0 - 4980000000) ∧
   is_entry_token_expired (L:=Toy.libs) (world_of env0 (Some server_expired_session) [] [])
   = Ok true ∧
   token_needs_refresh (L:=Toy.libs) (world_of env0 (Some server_expired_session) [] [])
   = Ok true) ∧
  (read_expiry (L:=Toy.libs)
     (stored_entry_expiry (w_server (world_of env0 (Some server_year_one) [] [])))
   = Local 0 ∧
   token_needs_refresh (L:=Toy.libs) (world_of env0 (Some server_year_one) [] [])
   = Raise (Exn OverflowError "date value out of range") ∧
   is_entry_token_expired (L:=Toy.libs) (world_of env0 (Some server_year_one) [] [])
   = Ok true).
Proof.
  split.
  - split; [vm_compute; reflexivity|]. split; [vm_compute; reflexivity|].
    refine (proj1 (expired_implies_needs_refresh Toy.libs
                     (world_of env0 (Some server_expired_session) [] [])
                     (now0 - 4980000000) 3600000000 _ _ _) _).
    + vm_compute; reflexivity.
    + vm_compute; reflexivity.
    + lia.
    + vm_compute; reflexivity.
  - split; [vm_compute; reflexivity|].
    refine (expired_implies_needs_refresh Toy.libs
              (world_of env0 (Some server_year_one) [] []) 0 3600000000 _ _ _).
    + vm_compute; reflexivity.
    + vm_compute; reflexivity.
    + lia.
Defined.

End StoreFacts.

(** ** The queries that are not signed *)
Module QueryFacts.
Import Crypto WsClient MonadFacts PendingFacts HexFacts CryptoFacts AuthFacts RequestFacts
  StoreFacts Samples.

Lemma generate_not_empty (g : ReqIdGenerator) (unix_time : Z) (back_id : string) :
  String.eqb (generate g unix_time back_id).1 "" = false.
Proof.
  destruct (String.eqb_spec (generate g unix_time back_id).1 "") as [H|]; [|done].
  apply (f_equal String.length) in H. unfold generate in H. cbn [fst] in H.
  rewrite !length_string_app in H. cbn [String.length] in H.
  destruct (length_index_field (_index g + 1)) as [Hshort Hlong].
  destruct (N.lt_ge_cases (_index g + 1) 65536) as [Hlt|Hge].
  - specialize (Hshort Hlt). lia.
  - specialize (Hlong Hge). lia.
Qed.

Section QueryFacts.
Context (L : Libs).

(** An unsigned query ([util.crypto.getRSAPub], [util.getSI]) that the
    server answers: the response is the body with the id of the request. *)
Lemma query_answered (w : world) (req : string) (body : dict) (rest : list net_outcome) :
  req ∈ ["util.crypto.getRSAPub"; "util.getSI"] →
  is_connected (w_client w) = true →
  listening (connection (w_client w)) = true →
  w_replies w = Reply body :: rest →
  let reqid := (generate (w_generator w) (e_unix_time (w_env w)) (back_id (w_client w))).1 in
  let response := dict_set "reqid" (JStr reqid) body in
  ∃ w',
    request req [] w = (Ok response, w') ∧
    w_client w'
    = set_connection
        {| ws := ws (connection (w_client w));
           listening := true;
           pending := delete reqid (pending (connection (w_client w)));
           futures := futures (connection (w_client w)) ++ [FResult response] |}
        (w_client w) ∧
    w_replies w' = rest.
Proof.
  intros Hreq Hc Hl Hreplies reqid response.
  rewrite request_connected by done. cbn zeta. fold reqid.
  rewrite Hreplies. cbn [hd].
  assert (Hframed :
    (if bool_decide (req ∈ ["user.login"; "user.add"])
     then public_key ← as_str "RSA.import_key" (pub (w_client w));
          encrypt_login_request
            (json_dumps_compact
               (JDict (dict_update [("req", JStr req); ("reqid", JStr reqid)] [])))
            public_key (_aes_key (w_client w)) (_iv (w_client w))
     else Ok (dict_update [("req", JStr req); ("reqid", JStr reqid)] []))
    ≫= (λ data', sign_request data' (sign_key (w_client w)))
    = Ok (json_dumps_compact (JDict [("req", JStr req); ("reqid", JStr reqid)]))).
  { rewrite !elem_of_cons, elem_of_nil in Hreq.
    destruct Hreq as [->|[->|[]]]; reflexivity. }
  rewrite Hframed.
  match goal with
  | |- ∃ w', ?m ?w1 = _ ∧ _ => set (w2 := w1); set (run := m w2)
  end.
  destruct (request_wait w2 reqid (Reply body)) as (x & Hworld & Hresult & Hx).
  change (w_client w2) with (w_client w) in Hworld, Hresult, Hx.
  lazymatch type of Hworld with _ = ?rhs => change (run.2 = rhs) in Hworld end.
  lazymatch type of Hresult with _ = ?rhs => change (run.1 = rhs) in Hresult end.
  rewrite Hl in Hx, Hworld. subst reqid.
  rewrite generate_not_empty in Hx. cbn [negb andb] in Hx. subst x.
  exists run.2. split; [|by rewrite Hworld].
  apply injective_projections; [exact Hresult | reflexivity].
Qed.

(** X26. The two queries that are never signed, when the server answers
    them, return the body of the answer with the id of the request.
    [get_rsa_pub] raises [RuntimeError] on an answer that has [errno] and
    then leaves the stored key and [si] alone; on any other answer it stores
    the [pub] and [si] of the answer, [None] for one that is missing.
    [get_si] does not look for [errno]: it returns every answer and stores
    its [si], [None] included. *)
Theorem unsigned_queries (w : world) (body : dict) (rest : list net_outcome) :
  is_connected (w_client w) = true →
  listening (connection (w_client w)) = true →
  w_replies w = Reply body :: rest →
  let reqid := (generate (w_generator w) (e_unix_time (w_env w)) (back_id (w_client w))).1 in
  let response := dict_set "reqid" (JStr reqid) body in
  (get_rsa_pub w).1
  = (if dict_has body "errno"
     then Raise (Exn RuntimeError "get_rsa_pub: the server reported an error")
     else Ok response) ∧
  pub (w_client (get_rsa_pub w).2)
  = (if dict_has body "errno" then pub (w_client w) else dict_get body "pub") ∧
  si (w_client (get_rsa_pub w).2)
  = (if dict_has body "errno" then si (w_client w) else dict_get body "si") ∧
  (get_si w).1 = Ok response ∧
  si (w_client (get_si w).2) = dict_get body "si" ∧
  pub (w_client (get_si w).2) = pub (w_client w).
Proof.
  intros Hc Hl Hreplies reqid response.
  assert (Herrno : dict_has response "errno" = dict_has body "errno").
  { unfold dict_has, response. by rewrite assoc_get_dict_set_ne. }
  assert (Hfield : ∀ field, field ≠ "reqid" → dict_get response field = dict_get body field).
  { intros field Hne. unfold response. by apply dict_get_dict_set_ne. }
  destruct (query_answered w "util.crypto.getRSAPub" body rest
              ltac:(by left) Hc Hl Hreplies) as (w1 & Hpub & Hclient1 & _).
  destruct (query_answered w "util.getSI" body rest
              ltac:(by right; left) Hc Hl Hreplies) as (w2 & Hsi & Hclient2 & _).
  fold reqid in Hpub, Hsi, Hclient1, Hclient2. fold response in Hpub, Hsi, Hclient1, Hclient2.
  unfold get_rsa_pub, get_si, modify_client.
  rewrite (bind_run _ _ _ _ _ Hpub), (bind_run _ _ _ _ _ Hsi), Herrno.
  rewrite !bind_modify, !M_ret_eq.
  cbn [fst snd w_client set_client set_pub_si pub si].
  rewrite Hclient2, !Hfield by done.
  destruct (dict_has body "errno").
  - cbn [fst snd raise]. by rewrite Hclient1.
  - rewrite !bind_modify, !M_ret_eq. cbn [fst snd w_client set_client set_pub_si pub si].
    done.
Qed.

End QueryFacts.

(** X26 on an answer that reports an error. *)
Lemma unsigned_queries_witness :
  is_connected (w_client world_error_reply) = true ∧
  (get_rsa_pub (L:=Toy.libs) world_error_reply).1
  = Raise (Exn RuntimeError "get_rsa_pub: the server reported an error") ∧
  (get_si (L:=Toy.libs) world_error_reply).1
  = Ok [("errno", JInt 1); ("reqid", JStr "6aeadd5400000000000000000001")] ∧
  si (w_client (get_si (L:=Toy.libs) world_error_reply).2) = JNull.
Proof.
  assert (Hc : is_connected (w_client world_error_reply) = true)
    by (vm_compute; reflexivity).
  assert (Hl : listening (connection (w_client world_error_reply)) = true)
    by (vm_compute; reflexivity).
  assert (Hr : w_replies world_error_reply = [Reply [("errno", JInt 1)]])
    by (vm_compute; reflexivity).
  destruct (unsigned_queries Toy.libs world_error_reply [("errno", JInt 1)] [] Hc Hl Hr)
    as (H1 & _ & _ & H4 & H5 & _).
  split; [exact Hc|]. split; [exact H1|]. split; [exact H4 | exact H5].
Defined.

End QueryFacts.

(** ** Responses and the requests they belong to *)
Module DispatchFacts.
Import Crypto WsClient Outcomes MonadFacts PendingFacts HexFacts CryptoFacts RequestFacts
  QueryFacts Samples.










Section DispatchFacts.
Context (L : Libs).




End DispatchFacts.



End DispatchFacts.

(** ** What login and refresh leave behind when they fail *)
Module CascadeFacts.
Import Config WsClient Auth MonadFacts PendingFacts AuthFacts ConfigFacts Outcomes Samples.

Section KeepsClient.
Context (L : Libs) {X : Type} (proj : world → X) (Hproj : untouched_by_client proj).

Lemma keeps_modify_client (f : client → client) : keeps proj (modify_client f).
Proof. intros w. apply Hproj. Qed.

Lemma keeps_print (line : out_line) : keeps proj (print line).
Proof. intros w. apply Hproj. Qed.

Ltac keeps_client :=
  keeps_tac;
  first [ apply keeps_modify_client | apply keeps_print
        | apply keeps_modify; intros ?; apply Hproj | idtac ].

Lemma keeps_connect (server : json) : keeps proj (connect server).
Proof. unfold connect, modify_connection. keeps_client. Qed.

Lemma keeps_request (req : string) (kwargs : dict) : keeps proj (request req kwargs).
Proof.
  unfold request, get_client, next_outcome, await_future, get_client, modify_connection.
  keeps_client.
Qed.

Lemma keeps_get_rsa_pub : keeps proj get_rsa_pub.
Proof. unfold get_rsa_pub. keeps_client; apply keeps_request. Qed.

Lemma keeps_login (username password : json) (stay : bool) :
  keeps proj (login username password stay).
Proof. unfold login, get_client. keeps_client; first [apply keeps_request | apply keeps_get_rsa_pub]. Qed.

Lemma keeps_auth_token (main : bool) : keeps proj (auth_token main).
Proof. unfold auth_token, get_client. keeps_client; first [apply keeps_request | apply keeps_get_rsa_pub]. Qed.

Lemma keeps_token_login (long_token : json) : keeps proj (token_login long_token).
Proof. unfold token_login, get_client. keeps_client; apply keeps_request. Qed.

Lemma keeps_exchange : keeps proj exchange_entry_token.
Proof. unfold exchange_entry_token. keeps_client; apply keeps_request. Qed.

Lemma keeps_login_entry_token : keeps proj login_entry_token.
Proof. unfold login_entry_token. keeps_client; apply keeps_exchange. Qed.

Lemma keeps_get_entry_token : keeps proj _get_entry_token.
Proof. unfold _get_entry_token. keeps_client; apply keeps_exchange. Qed.

Lemma keeps_close : keeps proj close.
Proof. unfold close, modify_connection. keeps_client. Qed.

End KeepsClient.

Section RaisesKeep.
Context {X : Type} (proj : world → X).

Lemma raises_keep_keeps {A} (m : M A) : keeps proj m → raises_keep proj m.
Proof. intros Hk w e w' Hm. specialize (Hk w). by rewrite Hm in Hk. Qed.

Lemma raises_keep_never {A} (m : M A) : never_raises m → raises_keep proj m.
Proof. intros Hn w e w' Hm. specialize (Hn w). by rewrite Hm in Hn. Qed.

Lemma raises_keep_bind {A B} (m : M A) (k : A → M B) :
  keeps proj m → (∀ a, raises_keep proj (k a)) → raises_keep proj (m ≫= k).
Proof.
  intros Hm Hk w e w'. rewrite M_bind_eq. specialize (Hm w).
  destruct (m w) as [[a|e1] w1]; cbn [snd] in Hm.
  - intros H. rewrite <- Hm. by eapply Hk.
  - by intros [= _ <-].
Qed.

Lemma raises_keep_if {A} (b : bool) (m1 m2 : M A) :
  raises_keep proj m1 → raises_keep proj m2 → raises_keep proj (if b then m1 else m2).
Proof. by destruct b. Qed.

Lemma raises_keep_try_finally {A} (body : M A) (cleanup : M unit) :
  raises_keep proj body → keeps proj cleanup → never_raises cleanup →
  raises_keep proj (try_finally body cleanup).
Proof.
  intros Hb Hc Hn w e w'. unfold try_finally.
  destruct (body w) as [r w1] eqn:Hbody.
  specialize (Hc w1). specialize (Hn w1).
  destruct (cleanup w1) as [[[]|e1] w2]; [|done]. cbn [snd] in Hc.
  intros [= -> <-]. rewrite Hc. by eapply Hb.
Qed.

(** A strategy inside [attempt]: the result is never an exception, and it
    is [false] only when the strategy raised. *)
Lemma attempt_false (strategy : M unit) (report : exn → out_line) (w w' : world) :
  raises_keep proj strategy → (∀ w l, proj (add_out l w) = proj w) →
  attempt strategy report w = (Ok false, w') → proj w' = proj w.
Proof.
  intros Hs Hout. unfold attempt, try_except. rewrite M_bind_eq.
  destruct (strategy w) as [[[]|e] w1] eqn:Hrun; [done|].
  rewrite bind_print. intros [= <-]. rewrite Hout. by eapply Hs.
Qed.

Lemma attempt_never_raises (strategy : M unit) (report : exn → out_line) :
  never_raises (attempt strategy report).
Proof.
  intros w. unfold attempt, try_except. rewrite M_bind_eq.
  by destruct (strategy w) as [[[]|e] w1].
Qed.

End RaisesKeep.

Section NeverRaises.

Lemma never_raises_ret {A} (a : A) : never_raises (mret a : M A).
Proof. by intros w. Qed.

Lemma never_raises_modify (f : world → world) : never_raises (modify f).
Proof. by intros w. Qed.

Lemma never_raises_get_world : never_raises get_world.
Proof. by intros w. Qed.

Lemma never_raises_bind {A B} (m : M A) (k : A → M B) :
  never_raises m → (∀ a, never_raises (k a)) → never_raises (m ≫= k).
Proof.
  intros Hm Hk w. rewrite M_bind_eq. specialize (Hm w).
  destruct (m w) as [[a|e] w1]; [apply Hk | done].
Qed.

Lemma never_raises_if {A} (b : bool) (m1 m2 : M A) :
  never_raises m1 → never_raises m2 → never_raises (if b then m1 else m2).
Proof. by destruct b. Qed.

End NeverRaises.

Ltac never_raises_tac :=
  repeat first
    [ apply never_raises_bind; [|intros ?]
    | apply never_raises_ret | apply never_raises_modify | apply never_raises_get_world
    | apply never_raises_if ].

Section Cascade.
Context (L : Libs).

Lemma never_raises_close : never_raises close.
Proof. by intros w. Qed.

Lemma never_raises_set_git_extra_header (server token : json) :
  never_raises (set_git_extra_header server token).
Proof. unfold set_git_extra_header. never_raises_tac. Qed.

Lemma never_raises_setup_global_hooks : never_raises setup_global_hooks.
Proof. unfold setup_global_hooks. never_raises_tac. Qed.

Context {X : Type} (proj : world → X) (Hproj : untouched_by_client proj).

Lemma keeps_get_client : keeps proj get_client.
Proof. unfold get_client. keeps_tac. Qed.

Ltac keeps_proj :=
  lazymatch goal with
  | |- keeps _ (connect _) => apply keeps_connect; assumption
  | |- keeps _ get_rsa_pub => apply keeps_get_rsa_pub; assumption
  | |- keeps _ (login _ _ _) => apply keeps_login; assumption
  | |- keeps _ (auth_token _) => apply keeps_auth_token; assumption
  | |- keeps _ (token_login _) => apply keeps_token_login; assumption
  | |- keeps _ exchange_entry_token => apply keeps_exchange; assumption
  | |- keeps _ login_entry_token => apply keeps_login_entry_token; assumption
  | |- keeps _ _get_entry_token => apply keeps_get_entry_token; assumption
  | |- keeps _ (modify_client _) => apply keeps_modify_client; assumption
  | |- keeps _ (print _) => apply keeps_print; assumption
  | |- keeps _ get_client => apply keeps_get_client
  | |- keeps _ get_world => apply keeps_get_world
  | |- keeps _ (lift _) => apply keeps_lift
  | |- keeps _ (mret _) => apply keeps_ret
  | |- keeps _ (raise _) => apply keeps_raise
  | |- keeps _ (modify (set_client _)) => apply keeps_modify; intros ?; apply Hproj
  | |- keeps _ (if _ then _ else _) => apply keeps_if; keeps_proj
  | |- keeps _ (_ ≫= _) => apply keeps_bind; [keeps_proj | intros ?; keeps_proj]
  end.

Ltac raises_keep_step :=
  lazymatch goal with
  | |- raises_keep _ (modify (save_server_config _ _ _) ≫= _) =>
      apply raises_keep_never;
      never_raises_tac;
      first [ apply never_raises_set_git_extra_header
            | apply never_raises_setup_global_hooks ]
  | |- raises_keep _ (_ ≫= _) => apply raises_keep_bind; [keeps_proj | intros ?]
  | |- raises_keep _ (if _ then _ else _) => apply raises_keep_if
  | |- raises_keep _ (raise _) => apply raises_keep_keeps, keeps_raise
  end.

Lemma raises_keep_do_login (server username password : json) :
  raises_keep proj (do_login server username password).
Proof.
  unfold do_login.
  apply raises_keep_try_finally;
    [|by apply keeps_close|apply never_raises_close].
  repeat raises_keep_step.
Qed.

Lemma raises_keep_refresh_with_fnos_token (server fnos_token sign_key : json) :
  raises_keep proj (_refresh_with_fnos_token server fnos_token sign_key).
Proof.
  unfold _refresh_with_fnos_token.
  apply raises_keep_try_finally;
    [|by apply keeps_close|apply never_raises_close].
  repeat raises_keep_step.
Qed.

Lemma raises_keep_refresh_with_long_token (server long_token : json) :
  raises_keep proj (_refresh_with_long_token server long_token).
Proof.
  unfold _refresh_with_long_token.
  apply raises_keep_try_finally;
    [|by apply keeps_close|apply never_raises_close].
  repeat raises_keep_step.
Qed.


Lemma raises_keep_bind_bool {B} (m : M bool) (k : bool → M B) :
  never_raises m →
  (∀ w w', m w = (Ok false, w') → proj w' = proj w) →
  never_raises (k true) → raises_keep proj (k false) →
  raises_keep proj (m ≫= k).
Proof.
  intros Hn Hfalse Htrue Hk w e w'. rewrite M_bind_eq.
  specialize (Hn w). specialize (Hfalse w).
  destruct (m w) as [[[]|e1] w1]; [| |done].
  - intros H. specialize (Htrue w1). by rewrite H in Htrue.
  - intros H. rewrite <- (Hfalse w1) by done. by eapply Hk.
Qed.

Lemma strategy_or_skip (condition : bool) (strategy : M unit) (report : exn → out_line) :
  raises_keep proj strategy →
  never_raises (if condition then attempt strategy report else mret false) ∧
  (∀ w w', (if condition then attempt strategy report else mret false) w = (Ok false, w') →
           proj w' = proj w).
Proof.
  intros Hs. destruct condition.
  - split; [apply attempt_never_raises|].
    intros w w'. apply attempt_false; [done | apply Hproj].
  - split; [apply never_raises_ret|]. by intros w w' [= <-].
Qed.

Lemma raises_keep_login_with_saved_credentials (server : json) :
  raises_keep proj (login_with_saved_credentials server).
Proof.
  unfold login_with_saved_credentials, get_credentials.
  apply raises_keep_bind; [keeps_proj|intros creds].
  apply raises_keep_if; [|apply raises_keep_keeps, keeps_raise].
  apply raises_keep_bind; [keeps_proj|intros _]. apply raises_keep_do_login.
Qed.

Lemma raises_keep_refresh_from_long_token (server long_token : json) (long_expired : bool) :
  raises_keep proj (refresh_from_long_token server long_token long_expired).
Proof.
  unfold refresh_from_long_token.
  destruct (strategy_or_skip (truthy long_token && negb long_expired)
              (_refresh_with_long_token server long_token) OutLongTokenFailed
              (raises_keep_refresh_with_long_token _ _)) as [Hn Hf].
  apply raises_keep_bind_bool; [done | done | apply never_raises_ret |].
  apply raises_keep_login_with_saved_credentials.
Qed.

Lemma raises_keep_do_refresh : raises_keep proj do_refresh.
Proof.
  unfold do_refresh.
  apply raises_keep_bind; [keeps_proj|intros w].
  apply raises_keep_if; [apply raises_keep_keeps, keeps_raise|].
  apply raises_keep_if; [apply raises_keep_keeps, keeps_raise|].
  apply raises_keep_bind; [keeps_proj|intros fnos_expired].
  apply raises_keep_bind; [keeps_proj|intros long_expired].
  match goal with
  | |- raises_keep _ ((if ?c then attempt ?s ?r else _) ≫= _) =>
      destruct (strategy_or_skip c s r (raises_keep_refresh_with_fnos_token _ _ _))
        as [Hn Hf]
  end.
  apply raises_keep_bind_bool; [done | done | apply never_raises_ret |].
  apply raises_keep_refresh_from_long_token.
Qed.

End Cascade.

Lemma server_untouched_by_client : untouched_by_client w_server.
Proof. by repeat split. Qed.

Lemma git_header_untouched_by_client : untouched_by_client w_git_header.
Proof. by repeat split. Qed.

Section Preserves.
Context (P : world → Prop) (Hout : ∀ w l, P w → P (add_out l w)).

Lemma preserves_ret {A} (a : A) : preserves P (mret a : M A).
Proof. by intros w. Qed.

Lemma preserves_raise {A} (e : exn) : preserves P (raise e : M A).
Proof. by intros w. Qed.

Lemma preserves_lift {A} (r : result A) : preserves P (lift r).
Proof. by intros w. Qed.

Lemma preserves_get_world : preserves P get_world.
Proof. by intros w. Qed.

Lemma preserves_print (line : out_line) : preserves P (print line).
Proof. intros w. apply Hout. Qed.

Lemma preserves_bind {A B} (m : M A) (k : A → M B) :
  preserves P m → (∀ a, preserves P (k a)) → preserves P (m ≫= k).
Proof.
  intros Hm Hk w Hw. rewrite M_bind_eq. specialize (Hm w Hw).
  destruct (m w) as [[a|e] w1]; [by apply Hk | done].
Qed.

Lemma preserves_if {A} (b : bool) (m1 m2 : M A) :
  preserves P m1 → preserves P m2 → preserves P (if b then m1 else m2).
Proof. by destruct b. Qed.

Lemma preserves_try_except {A} (body : M A) (handler : exn → M A) :
  preserves P body → (∀ e, preserves P (handler e)) → preserves P (try_except body handler).
Proof.
  intros Hb Hh w Hw. unfold try_except. specialize (Hb w Hw).
  destruct (body w) as [[a|e] w1]; [done | by apply Hh].
Qed.

End Preserves.

Lemma closed_after_finally {A} (body : M A) (w : world) :
  is_connected (w_client (try_finally body close w).2) = false.
Proof.
  unfold try_finally. destruct (body w) as [r w1]. by rewrite close_eq.
Qed.

(** X16. No function of auth.py leaves a socket open: after [do_login] and
    after either token strategy the client is closed, whether the function
    returned or raised, and [do_refresh], started without an open client,
    ends without one on every path of the cascade. *)
Theorem auth_functions_close_the_client (L : Libs) :
  (∀ server username password w,
     is_connected (w_client (do_login server username password w).2) = false) ∧
  (∀ server fnos_token sign_key w,
     is_connected (w_client (_refresh_with_fnos_token server fnos_token sign_key w).2)
     = false) ∧
  (∀ server long_token w,
     is_connected (w_client (_refresh_with_long_token server long_token w).2) = false) ∧
  (∀ w, is_connected (w_client w) = false →
        is_connected (w_client (do_refresh w).2) = false).
Proof.
  split; [|split; [|split]]; try (intros; apply closed_after_finally).
  set (P := λ w : world, is_connected (w_client w) = false).
  assert (Hout : ∀ w l, P w → P (add_out l w)) by done.
  assert (Hlogin : ∀ server username password,
            preserves P (do_login server username password)).
  { intros server username password w _. apply closed_after_finally. }
  assert (Hattempt : ∀ (strategy : M unit) report,
            (∀ w, P (strategy w).2) → preserves P (attempt strategy report)).
  { intros strategy report Hs. unfold attempt.
    apply preserves_try_except.
    - apply preserves_bind; [by intros w _ | intros; apply preserves_ret].
    - intros e. apply preserves_bind; [by apply preserves_print | intros; apply preserves_ret]. }
  assert (Hsaved : ∀ server, preserves P (login_with_saved_credentials server)).
  { intros server. unfold login_with_saved_credentials, get_credentials.
    apply preserves_bind; [|intros creds].
    - apply preserves_bind; [apply preserves_get_world | intros; apply preserves_ret].
    - apply preserves_if; [|apply preserves_raise].
      apply preserves_bind; [by apply preserves_print | intros; apply Hlogin]. }
  change (preserves P do_refresh). unfold do_refresh.
  apply preserves_bind; [apply preserves_get_world | intros w].
  do 2 (apply preserves_if; [apply preserves_raise|]).
  do 2 (apply preserves_bind; [apply preserves_lift | intros ?]).
  apply preserves_bind; [|intros refreshed].
  { apply preserves_if; [|apply preserves_ret].
    apply Hattempt. intros w0. apply closed_after_finally. }
  apply preserves_if; [apply preserves_ret|].
  unfold refresh_from_long_token.
  apply preserves_bind; [|intros refreshed'].
  { apply preserves_if; [|apply preserves_ret].
    apply Hattempt. intros w0. apply closed_after_finally. }
  apply preserves_if; [apply preserves_ret | apply Hsaved].
Qed.

(** X17. A login or a refresh that fails before it writes the
    configuration persists nothing: when [do_login], one of the two token
    strategies or [do_refresh] raises because the connection, a request, an
    answer of the server or the decryption of the secret fails, the stored
    server configuration and the git header are what they were before the
    call. The configuration is written only after the last of these steps;
    an error of the write itself is not part of the statement, the write
    being taken to succeed. *)
Theorem failure_persists_nothing (L : Libs) :
  (∀ server username password w e w',
     do_login server username password w = (Raise e, w') →
     w_server w' = w_server w ∧ w_git_header w' = w_git_header w) ∧
  (∀ server fnos_token sign_key w e w',
     _refresh_with_fnos_token server fnos_token sign_key w = (Raise e, w') →
     w_server w' = w_server w ∧ w_git_header w' = w_git_header w) ∧
  (∀ server long_token w e w',
     _refresh_with_long_token server long_token w = (Raise e, w') →
     w_server w' = w_server w ∧ w_git_header w' = w_git_header w) ∧
  (∀ w e w',
     do_refresh w = (Raise e, w') →
     w_server w' = w_server w ∧ w_git_header w' = w_git_header w).
Proof.
  pose proof server_untouched_by_client as Hs.
  pose proof git_header_untouched_by_client as Hg.
  repeat split; intros.
  - by eapply (raises_keep_do_login L w_server Hs).
  - by eapply (raises_keep_do_login L w_git_header Hg).
  - by eapply (raises_keep_refresh_with_fnos_token L w_server Hs).
  - by eapply (raises_keep_refresh_with_fnos_token L w_git_header Hg).
  - by eapply (raises_keep_refresh_with_long_token L w_server Hs).
  - by eapply (raises_keep_refresh_with_long_token L w_git_header Hg).
  - by eapply (raises_keep_do_refresh L w_server Hs).
  - by eapply (raises_keep_do_refresh L w_git_header Hg).
Qed.

(** X16 on a refresh without network and without saved credentials. *)
Lemma auth_functions_close_the_client_witness :
  is_connected (w_client world_offline) = false ∧
  is_connected (w_client (do_refresh (L:=Toy.libs) world_offline).2) = false.
Proof.
  split; [reflexivity|].
  refine (proj2 (proj2 (proj2 (auth_functions_close_the_client Toy.libs)))
            world_offline _).
  reflexivity.
Defined.

(** X17 on the same refresh: the long-token strategy cannot connect, no
    credentials are saved, and the stored configuration is untouched. *)
Lemma failure_persists_nothing_witness :
  do_refresh (L:=Toy.libs) world_offline
  = (Raise (Exn RuntimeError
              "do_refresh: the tokens are no longer valid and no credentials are saved"),
     (do_refresh (L:=Toy.libs) world_offline).2) ∧
  w_server (do_refresh (L:=Toy.libs) world_offline).2 = w_server world_offline ∧
  w_git_header (do_refresh (L:=Toy.libs) world_offline).2 = w_git_header world_offline.
Proof.
  assert (H : do_refresh (L:=Toy.libs) world_offline
              = (Raise (Exn RuntimeError
                   "do_refresh: the tokens are no longer valid and no credentials are saved"),
                 (do_refresh (L:=Toy.libs) world_offline).2))
    by (vm_compute; reflexivity).
  split; [exact H|].
  exact (proj2 (proj2 (proj2 (failure_persists_nothing Toy.libs)))
           world_offline _ _ H).
Defined.

End CascadeFacts.

(** ** What login and refresh store when they return *)
Module LoginFacts.
Import Config WsClient Auth MonadFacts PendingFacts AuthFacts ConfigFacts Outcomes
  CascadeFacts Samples.

Lemma try_finally_close_ok {A} (body : M A) (w w' : world) (a : A) :
  try_finally body close w = (Ok a, w') →
  ∃ w1, body w = (Ok a, w1) ∧ w' = (close w1).2.
Proof.
  unfold try_finally. destruct (body w) as [r w1]. rewrite close_eq.
  intros [= -> <-]. by exists w1.
Qed.

Lemma kept {X A} (proj : world → X) (m : M A) (w w' : world) (r : result A) :
  keeps proj m → m w = (r, w') → proj w' = proj w.
Proof. intros Hk Hm. specialize (Hk w). by rewrite Hm in Hk. Qed.

Lemma env_untouched_by_client : untouched_by_client w_env.
Proof. by repeat split. Qed.

Tactic Notation "inv_bind" hyp(H) "as" ident(a) ident(w) ident(Ha) :=
  rewrite M_bind_eq in H;
  match type of H with
  | match ?m ?w0 with _ => _ end = _ =>
      destruct (m w0) as [[a|?] w] eqn:Ha; [|discriminate H]
  end.

Tactic Notation "inv_lift" hyp(H) "as" ident(a) ident(Ha) :=
  rewrite M_bind_eq in H;
  match type of H with
  | match lift ?r ?w0 with _ => _ end = _ =>
      change (lift r w0) with (r, w0) in H; destruct r as [a|?] eqn:Ha; [|discriminate H]
  end.

Section LoginFacts.
Context (L : Libs).

(** X18. After a [do_login] that returned, the stored configuration holds
    the address and the user name of the call, a session token and an entry
    token that are not empty, the time of the call as [last_login], and the
    legacy [expires_at] equal to the expiry of the entry token; and when git
    could be configured, the header it carries is the entry token that was
    stored. *)
Theorem successful_login_is_consistent (server username password : json) (w w' : world) :
  do_login server username password w = (Ok tt, w') →
  ∃ stored,
    w_server w' = Some stored ∧
    dict_get stored "url" = server ∧
    dict_get stored "username" = username ∧
    truthy (dict_get stored "fnos_token") = true ∧
    truthy (dict_get stored "entry_token") = true ∧
    dict_get stored "expires_at" = dict_get stored "entry_token_expires_at" ∧
    dict_get stored "last_login" = JStr (datetime_isoformat (naive (e_now (w_env w)))) ∧
    w_git_header w'
    = (if e_git_ok (w_env w) then Some (server, dict_get stored "entry_token")
       else w_git_header w).
Proof.
  intros H. unfold do_login in H.
  apply try_finally_close_ok in H as (w9 & H & ->).
  rewrite bind_modify, bind_print in H.
  inv_bind H as u1 w1 Hconnect. rewrite bind_print in H.
  inv_bind H as pub_response w2 Hpub. rewrite bind_print in H.
  inv_bind H as response w3 Hlogin. rewrite bind_get_client in H.
  inv_bind H as entry_token w4 Hentry.
  inv_bind H as u2 w5 Hwarn.
  destruct (truthy (token (w_client w3))) eqn:Htoken; cbn [negb] in H; [|discriminate H].
  rewrite bind_get_world in H.
  inv_lift H as entry_token_expires_at Hte. inv_lift H as fnos_token_expires_at Htf.
  inv_bind H as long_token_expires_at w6 Hlong.
  rewrite bind_get_client, bind_modify, bind_print in H.
  assert (Hkept : ∀ {X} (proj : world → X), untouched_by_client proj → proj w6 = proj w).
  { intros X proj Hproj.
    assert (proj w6 = proj w5) as ->.
    { destruct (truthy (dict_get response "longToken")); by injection Hlong as _ <-. }
    assert (proj w5 = proj w4) as ->.
    { destruct (negb (truthy entry_token)); injection Hwarn as _ <-; [apply Hproj | done]. }
    rewrite (kept proj _ _ _ _ (keeps_login_entry_token L proj Hproj) Hentry).
    rewrite (kept proj _ _ _ _ (keeps_login L proj Hproj _ _ _) Hlogin).
    pose proof Hproj as (Hc & _ & _ & _ & _ & Ho). rewrite Ho.
    rewrite (kept proj _ _ _ _ (keeps_get_rsa_pub L proj Hproj) Hpub).
    rewrite Ho.
    rewrite (kept proj _ _ _ _ (keeps_connect proj Hproj _) Hconnect).
    by rewrite Ho, Hc. }
  pose proof (Hkept _ w_env env_untouched_by_client) as Henv.
  pose proof (Hkept _ w_git_header git_header_untouched_by_client) as Hgit.
  set (entry := if negb (truthy entry_token) then token (w_client w3) else entry_token) in *.
  assert (Hentry_true : truthy entry = true).
  { subst entry. by destruct (truthy entry_token) eqn:Ht. }
  match type of H with
  | _ (add_out _ (save_server_config _ _ ?kw _)) = _ => set (kwargs := kw) in H
  end.
  set (stored := dict_update
                   (dict_set "last_login"
                      (JStr (datetime_isoformat (naive (e_now (w_env w6)))))
                      (dict_set "url" server (default [] (w_server w6)))) kwargs).
  exists stored.
  assert (Hfields :
    dict_get stored "url" = server ∧ dict_get stored "username" = username ∧
    dict_get stored "fnos_token" = token (w_client w3) ∧
    dict_get stored "entry_token" = entry ∧
    dict_get stored "expires_at" = dict_get stored "entry_token_expires_at" ∧
    dict_get stored "last_login" = JStr (datetime_isoformat (naive (e_now (w_env w))))).
  { subst stored kwargs. rewrite Henv. unfold dict_update. cbn [fold_left fst snd].
    repeat split;
      repeat first [ rewrite dict_get_dict_set | rewrite dict_get_dict_set_ne by done ];
      reflexivity. }
  destruct Hfields as (Hurl & Huser & Hfnos & Hentry' & Hexp & Hlast).
  set (w7 := add_out OutConfiguringGit _) in *.
  assert (Henv7 : w_env w7 = w_env w) by exact Henv.
  assert (Hgit7 : w_git_header w7 = w_git_header w) by exact Hgit.
  assert (Hserver7 : w_server w7 = Some stored) by done.
  clearbody w7 stored.
  unfold set_git_extra_header, setup_global_hooks in H.
  rewrite M_bind_eq, bind_get_world, Henv7 in H.
  destruct (e_git_ok (w_env w)) eqn:Hg;
    repeat first
      [ rewrite bind_modify in H | rewrite bind_print in H | rewrite bind_ret in H
      | rewrite bind_get_world in H | rewrite M_ret_eq in H | rewrite M_bind_eq in H
      | rewrite print_eq in H
      | progress cbn [negb w_env add_out set_git_header] in H ];
    destruct (e_hooks_ok _), (negb (truthy entry_token));
    repeat first
      [ rewrite bind_modify in H | rewrite bind_print in H | rewrite bind_ret in H
      | rewrite M_ret_eq in H | rewrite M_bind_eq in H | rewrite print_eq in H
      | progress cbn [negb] in H ];
    injection H as <-; rewrite close_eq;
    cbn [snd w_server w_git_header set_client add_out set_git_header];
    rewrite ?Hserver7, ?Hgit7, ?Hfnos, ?Hentry'; done.
Qed.

Lemma dict_get_dict_set_if (k field : string) (v : json) (d : dict) :
  dict_get (dict_set k v d) field = if String.eqb field k then v else dict_get d field.
Proof.
  destruct (String.eqb_spec field k) as [->|Hne].
  - apply dict_get_dict_set.
  - by apply dict_get_dict_set_ne.
Qed.

Lemma get_entry_token_truthy (w w' : world) (v : json) :
  _get_entry_token w = (Ok v, w') → truthy v = true.
Proof.
  unfold _get_entry_token. rewrite bind_print. intros H.
  inv_bind H as entry_response w1 Hx.
  destruct (dict_get_or entry_response "data" (JDict [])); try discriminate H.
  destruct (truthy (dict_get fields "token")) eqn:Ht; [|discriminate H].
  rewrite bind_print, M_ret_eq in H. by injection H as <- _.
Qed.

Ltac eval_tail H :=
  repeat first
    [ rewrite bind_modify in H | rewrite bind_print in H | rewrite bind_ret in H
    | rewrite bind_get_world in H | rewrite M_ret_eq in H | rewrite M_bind_eq in H
    | rewrite print_eq in H
    | progress cbn [negb w_env add_out set_git_header] in H ].

Ltac fields_eq :=
  unfold dict_update; cbn [fold_left fst snd];
  rewrite ?dict_get_dict_set_if; cbn [String.eqb Ascii.eqb Bool.eqb]; try reflexivity.

(** X19. A refresh with the session token that returned has stored an
    entry token that is not empty, with the legacy [expires_at] equal to its
    expiry, and the address, session token and signing key of the call;
    every other field of the configuration reads as before, among them the
    expiry of the session token, the long token and its expiry, and
    [last_login]. The git header, when git could be configured, carries the
    new entry token. *)
Theorem fnos_refresh_renews_entry_token_only (server fnos_token sign_key : json)
    (w w' : world) :
  _refresh_with_fnos_token server fnos_token sign_key w = (Ok tt, w') →
  ∃ stored,
    w_server w' = Some stored ∧
    truthy (dict_get stored "entry_token") = true ∧
    dict_get stored "expires_at" = dict_get stored "entry_token_expires_at" ∧
    dict_get stored "url" = server ∧
    dict_get stored "fnos_token" = fnos_token ∧
    dict_get stored "sign_key" = sign_key ∧
    (∀ field,
       field ∉ ["url"; "fnos_token"; "sign_key"; "entry_token";
                "entry_token_expires_at"; "expires_at"] →
       dict_get stored field = dict_get (default [] (w_server w)) field) ∧
    w_git_header w'
    = (if e_git_ok (w_env w) then Some (server, dict_get stored "entry_token")
       else w_git_header w).
Proof.
  intros H. unfold _refresh_with_fnos_token in H.
  apply try_finally_close_ok in H as (w9 & H & ->).
  rewrite bind_modify, bind_print in H.
  inv_bind H as u1 w1 Hconnect.
  inv_bind H as u2 w2 Hset.
  inv_bind H as auth_response w3 Hauth.
  inv_bind H as entry_token w4 Hentry.
  rewrite bind_get_world in H.
  inv_lift H as entry_token_expires_at Hte.
  rewrite bind_modify in H.
  assert (Hkept : ∀ {X} (proj : world → X), untouched_by_client proj → proj w4 = proj w).
  { intros X proj Hproj.
    rewrite (kept proj _ _ _ _ (keeps_get_entry_token L proj Hproj) Hentry).
    rewrite (kept proj _ _ _ _ (keeps_auth_token L proj Hproj _) Hauth).
    rewrite (kept proj _ _ _ _ (keeps_modify_client proj Hproj _) Hset).
    rewrite (kept proj _ _ _ _ (keeps_connect proj Hproj _) Hconnect).
    pose proof Hproj as (Hc & _ & _ & _ & _ & Ho). by rewrite Ho, Hc. }
  pose proof (Hkept _ w_env env_untouched_by_client) as Henv.
  pose proof (Hkept _ w_git_header git_header_untouched_by_client) as Hgit.
  pose proof (Hkept _ w_server server_untouched_by_client) as Hserver.
  pose proof (get_entry_token_truthy _ _ _ Hentry) as Htruthy.
  unfold get_server_config in H. rewrite Hserver in H.
  set (old := default [] (w_server w)) in *.
  match type of H with
  | _ (save_server_config _ _ ?kw _) = _ => set (kwargs := kw) in H
  end.
  set (stored := dict_update (dict_set "url" server old) kwargs).
  assert (Hstored : w_server (save_server_config server false kwargs w4) = Some stored).
  { cbn [w_server save_server_config set_server]. by rewrite Hserver. }
  exists stored.
  assert (Hfields :
    dict_get stored "entry_token" = entry_token ∧
    dict_get stored "expires_at" = dict_get stored "entry_token_expires_at" ∧
    dict_get stored "url" = server ∧
    dict_get stored "fnos_token" = fnos_token ∧
    dict_get stored "sign_key" = sign_key ∧
    (∀ field,
       field ∉ ["url"; "fnos_token"; "sign_key"; "entry_token";
                "entry_token_expires_at"; "expires_at"] →
       dict_get stored field = dict_get old field)).
  { subst stored kwargs. repeat split; try (fields_eq; fail).
    intros field Hfield. rewrite !not_elem_of_cons in Hfield.
    destruct Hfield as (? & ? & ? & ? & ? & ? & _).
    unfold dict_update. cbn [fold_left fst snd].
    rewrite !dict_get_dict_set_if.
    repeat match goal with
           | |- context [String.eqb field ?k] =>
               destruct (String.eqb_spec field k) as [->|?]; [done|]
           end.
    done. }
  destruct Hfields as (He & Hexp & Hurl & Hfnos & Hsign & Hother).
  set (w7 := save_server_config server false kwargs w4) in *.
  assert (Henv7 : w_env w7 = w_env w) by exact Henv.
  assert (Hgit7 : w_git_header w7 = w_git_header w) by exact Hgit.
  clearbody w7 stored.
  unfold set_git_extra_header in H.
  rewrite M_bind_eq, bind_get_world, Henv7 in H.
  destruct (e_git_ok (w_env w)) eqn:Hg; eval_tail H;
    injection H as <-; rewrite close_eq;
    cbn [snd w_server w_git_header set_client add_out set_git_header];
    rewrite ?Hstored, ?Hgit7, ?He, ?Htruthy; done.
Qed.


(** X20. A refresh with the long token that returned has stored a session
    token and an entry token that are not empty and the long token of the
    call; the user name, the expiry of the long token and [last_login] read
    as before: the lifetime of the long token is not extended. The git
    header, when git could be configured, carries the new entry token. *)
Theorem long_token_refresh_keeps_long_token_expiry (server long_token : json)
    (w w' : world) :
  _refresh_with_long_token server long_token w = (Ok tt, w') →
  ∃ stored,
    w_server w' = Some stored ∧
    truthy (dict_get stored "fnos_token") = true ∧
    truthy (dict_get stored "entry_token") = true ∧
    dict_get stored "expires_at" = dict_get stored "entry_token_expires_at" ∧
    dict_get stored "url" = server ∧
    dict_get stored "long_token" = long_token ∧
    (∀ field,
       field ∈ ["username"; "long_token_expires_at"; "last_login"] →
       dict_get stored field = dict_get (default [] (w_server w)) field) ∧
    w_git_header w'
    = (if e_git_ok (w_env w) then Some (server, dict_get stored "entry_token")
       else w_git_header w).
Proof.
  intros H. unfold _refresh_with_long_token in H.
  apply try_finally_close_ok in H as (w9 & H & ->).
  rewrite bind_modify, bind_print in H.
  inv_bind H as u1 w1 Hconnect.
  inv_bind H as pub_response w2 Hpub.
  inv_bind H as response w3 Hlogin.
  rewrite bind_get_client in H.
  destruct (truthy (py_or (dict_get response "token") (token (w_client w3)))) eqn:Hnew;
    cbn [negb] in H; [|discriminate H].
  inv_bind H as entry_token w4 Hentry.
  rewrite bind_get_world in H.
  inv_lift H as fnos_token_expires_at Htf.
  inv_lift H as entry_token_expires_at Hte.
  rewrite bind_get_client, bind_modify in H.
  assert (Hkept : ∀ {X} (proj : world → X), untouched_by_client proj → proj w4 = proj w).
  { intros X proj Hproj.
    rewrite (kept proj _ _ _ _ (keeps_get_entry_token L proj Hproj) Hentry).
    rewrite (kept proj _ _ _ _ (keeps_token_login L proj Hproj _) Hlogin).
    rewrite (kept proj _ _ _ _ (keeps_get_rsa_pub L proj Hproj) Hpub).
    rewrite (kept proj _ _ _ _ (keeps_connect proj Hproj _) Hconnect).
    pose proof Hproj as (Hc & _ & _ & _ & _ & Ho). by rewrite Ho, Hc. }
  pose proof (Hkept _ w_env env_untouched_by_client) as Henv.
  pose proof (Hkept _ w_git_header git_header_untouched_by_client) as Hgit.
  pose proof (Hkept _ w_server server_untouched_by_client) as Hserver.
  pose proof (get_entry_token_truthy _ _ _ Hentry) as Htruthy.
  unfold get_server_config in H. rewrite Hserver in H.
  set (old := default [] (w_server w)) in *.
  match type of H with
  | _ (save_server_config _ _ ?kw _) = _ => set (kwargs := kw) in H
  end.
  set (stored := dict_update (dict_set "url" server old) kwargs).
  assert (Hstored : w_server (save_server_config server false kwargs w4) = Some stored).
  { cbn [w_server save_server_config set_server]. by rewrite Hserver. }
  exists stored.
  assert (Hfields :
    dict_get stored "fnos_token" = py_or (dict_get response "token") (token (w_client w3)) ∧
    dict_get stored "entry_token" = entry_token ∧
    dict_get stored "expires_at" = dict_get stored "entry_token_expires_at" ∧
    dict_get stored "url" = server ∧
    dict_get stored "long_token" = long_token ∧
    (∀ field,
       field ∈ ["username"; "long_token_expires_at"; "last_login"] →
       dict_get stored field = dict_get old field)).
  { subst stored kwargs. repeat split; try (fields_eq; fail).
    intros field Hfield. rewrite !elem_of_cons, elem_of_nil in Hfield.
    destruct Hfield as [->|[->|[->|[]]]]; fields_eq. }
  destruct Hfields as (Hf & He & Hexp & Hurl & Hlong & Hother).
  set (w7 := save_server_config server false kwargs w4) in *.
  assert (Henv7 : w_env w7 = w_env w) by exact Henv.
  assert (Hgit7 : w_git_header w7 = w_git_header w) by exact Hgit.
  clearbody w7 stored.
  unfold set_git_extra_header in H.
  rewrite M_bind_eq, bind_get_world, Henv7 in H.
  destruct (e_git_ok (w_env w)) eqn:Hg; eval_tail H;
    injection H as <-; rewrite close_eq;
    cbn [snd w_server w_git_header set_client add_out set_git_header];
    rewrite ?Hstored, ?Hgit7, ?He, ?Hf, ?Hnew, ?Htruthy; done.
Qed.

Lemma keeps_token_request (req : string) (kwargs : dict) :
  keeps client_token (request req kwargs).
Proof.
  unfold request, get_client, next_outcome, await_future, get_client, modify_connection,
    modify_client.
  keeps_tac.
Qed.

Lemma keeps_token_connect (server : json) : keeps client_token (connect server).
Proof. unfold connect, modify_connection, modify_client. keeps_tac. Qed.

Lemma keeps_token_get_rsa_pub : keeps client_token get_rsa_pub.
Proof. unfold get_rsa_pub, modify_client. keeps_tac. Qed.

Lemma token_login_keeps_token (long_token : json) (w w' : world) (response : dict) :
  token_login long_token w = (Ok response, w') →
  truthy (dict_get response "token") = false →
  client_token w' = client_token w.
Proof.
  intros H Hnone. unfold token_login in H. rewrite bind_get_world in H.
  inv_bind H as r w1 Hreq.
  destruct (dict_has r "errno"); [discriminate H|].
  inv_bind H as u1 w2 H1. inv_bind H as u2 w3 H2. inv_bind H as u3 w4 H3.
  rewrite M_ret_eq in H. injection H as -> <-.
  rewrite Hnone in H1. injection H1 as _ <-.
  assert (client_token w4 = client_token w3) as ->.
  { eapply kept; [|exact H3]. by intros ?. }
  rewrite <- (kept client_token _ _ _ _ (keeps_token_request _ _) Hreq).
  eapply kept; [|exact H2].
  unfold modify_client, get_client. keeps_tac.
Qed.

(** X21. When the response to [user.tokenLogin] carries no token, the
    refresh with the long token raises [RuntimeError] after closing the
    client: the alternative [client.token] of the source is always [None]
    there, because the client is new and neither [connect] nor
    [get_rsa_pub] nor such a [token_login] sets a token. *)
Theorem long_token_refresh_needs_a_new_token (server long_token : json)
    (w w1 w2 w3 : world) (pub_response response : dict) :
  connect server (add_out OutRefreshingWithLongToken (set_client FnOsClient_init w))
    = (Ok tt, w1) →
  get_rsa_pub w1 = (Ok pub_response, w2) →
  token_login long_token w2 = (Ok response, w3) →
  truthy (dict_get response "token") = false →
  token (w_client w3) = JNull ∧
  _refresh_with_long_token server long_token w
  = (Raise (Exn RuntimeError "_refresh_with_long_token: no new fnos_token"), (close w3).2).
Proof.
  intros Hconnect Hpub Hlogin Hnone.
  assert (Htoken : token (w_client w3) = JNull).
  { change (client_token w3 = JNull).
    rewrite (token_login_keeps_token _ _ _ _ Hlogin Hnone).
    rewrite (kept client_token _ _ _ _ keeps_token_get_rsa_pub Hpub).
    by rewrite (kept client_token _ _ _ _ (keeps_token_connect _) Hconnect). }
  split; [done|].
  unfold _refresh_with_long_token, try_finally.
  rewrite bind_modify, bind_print, (bind_run _ _ _ _ _ Hconnect).
  rewrite (bind_run _ _ _ _ _ Hpub), (bind_run _ _ _ _ _ Hlogin), bind_get_client.
  unfold py_or. rewrite Hnone, Htoken. cbn [truthy negb].
  by rewrite close_eq.
Qed.


End LoginFacts.

(** X18 on a login that is answered in full. *)
Lemma successful_login_is_consistent_witness :
  do_login (L:=Toy.libs) (JStr "nas.example") (JStr "alice") (JStr "pw") world_login_ok
  = (Ok tt, (do_login (L:=Toy.libs) (JStr "nas.example") (JStr "alice") (JStr "pw")
               world_login_ok).2) ∧
  ∃ stored,
    w_server (do_login (L:=Toy.libs) (JStr "nas.example") (JStr "alice") (JStr "pw")
                world_login_ok).2 = Some stored ∧
    dict_get stored "url" = JStr "nas.example" ∧
    dict_get stored "username" = JStr "alice" ∧
    truthy (dict_get stored "fnos_token") = true ∧
    truthy (dict_get stored "entry_token") = true ∧
    dict_get stored "expires_at" = dict_get stored "entry_token_expires_at" ∧
    dict_get stored "last_login"
    = JStr (datetime_isoformat (Libs:=Toy.libs) (naive (e_now (w_env world_login_ok)))) ∧
    w_git_header (do_login (L:=Toy.libs) (JStr "nas.example") (JStr "alice") (JStr "pw")
                    world_login_ok).2
    = (if e_git_ok (w_env world_login_ok)
       then Some (JStr "nas.example", dict_get stored "entry_token")
       else w_git_header world_login_ok).
Proof.
  assert (H : do_login (L:=Toy.libs) (JStr "nas.example") (JStr "alice") (JStr "pw")
                world_login_ok
              = (Ok tt, (do_login (L:=Toy.libs) (JStr "nas.example") (JStr "alice")
                           (JStr "pw") world_login_ok).2))
    by (vm_compute; reflexivity).
  split; [exact H|].
  exact (successful_login_is_consistent Toy.libs _ _ _ _ _ H).
Defined.

(** X19 on a session token that the server accepts. *)
Lemma fnos_refresh_renews_entry_token_only_witness :
  _refresh_with_fnos_token (L:=Toy.libs) (JStr "nas.example") (JStr "fnos-0") (JStr "c2ln")
    world_session_ok
  = (Ok tt, (_refresh_with_fnos_token (L:=Toy.libs) (JStr "nas.example") (JStr "fnos-0")
               (JStr "c2ln") world_session_ok).2) ∧
  dict_get (default [] (w_server
     (_refresh_with_fnos_token (L:=Toy.libs) (JStr "nas.example") (JStr "fnos-0")
        (JStr "c2ln") world_session_ok).2)) "entry_token" = JStr "entry-1" ∧
  ∃ stored,
    w_server (_refresh_with_fnos_token (L:=Toy.libs) (JStr "nas.example") (JStr "fnos-0")
                (JStr "c2ln") world_session_ok).2 = Some stored ∧
    truthy (dict_get stored "entry_token") = true ∧
    dict_get stored "expires_at" = dict_get stored "entry_token_expires_at" ∧
    dict_get stored "url" = JStr "nas.example" ∧
    dict_get stored "fnos_token" = JStr "fnos-0" ∧
    dict_get stored "sign_key" = JStr "c2ln" ∧
    (∀ field,
       field ∉ ["url"; "fnos_token"; "sign_key"; "entry_token";
                "entry_token_expires_at"; "expires_at"] →
       dict_get stored field = dict_get (default [] (w_server world_session_ok)) field) ∧
    w_git_header (_refresh_with_fnos_token (L:=Toy.libs) (JStr "nas.example")
                    (JStr "fnos-0") (JStr "c2ln") world_session_ok).2
    = (if e_git_ok (w_env world_session_ok)
       then Some (JStr "nas.example", dict_get stored "entry_token")
       else w_git_header world_session_ok).
Proof.
  assert (H : _refresh_with_fnos_token (L:=Toy.libs) (JStr "nas.example") (JStr "fnos-0")
                (JStr "c2ln") world_session_ok
              = (Ok tt, (_refresh_with_fnos_token (L:=Toy.libs) (JStr "nas.example")
                           (JStr "fnos-0") (JStr "c2ln") world_session_ok).2))
    by (vm_compute; reflexivity).
  split; [exact H|]. split; [vm_compute; reflexivity|].
  exact (fnos_refresh_renews_entry_token_only Toy.libs _ _ _ _ _ H).
Defined.

(** X20 on a long token that the server accepts. *)
Lemma long_token_refresh_keeps_long_token_expiry_witness :
  _refresh_with_long_token (L:=Toy.libs) (JStr "nas.example") (JStr "long-1")
    world_session_ok
  = (Ok tt, (_refresh_with_long_token (L:=Toy.libs) (JStr "nas.example") (JStr "long-1")
               world_session_ok).2) ∧
  dict_get (default [] (w_server
     (_refresh_with_long_token (L:=Toy.libs) (JStr "nas.example") (JStr "long-1")
        world_session_ok).2)) "long_token_expires_at" = JStr "2026-11-29T07:23:00" ∧
  ∃ stored,
    w_server (_refresh_with_long_token (L:=Toy.libs) (JStr "nas.example") (JStr "long-1")
                world_session_ok).2 = Some stored ∧
    truthy (dict_get stored "fnos_token") = true ∧
    truthy (dict_get stored "entry_token") = true ∧
    dict_get stored "expires_at" = dict_get stored "entry_token_expires_at" ∧
    dict_get stored "url" = JStr "nas.example" ∧
    dict_get stored "long_token" = JStr "long-1" ∧
    (∀ field,
       field ∈ ["username"; "long_token_expires_at"; "last_login"] →
       dict_get stored field = dict_get (default [] (w_server world_session_ok)) field) ∧
    w_git_header (_refresh_with_long_token (L:=Toy.libs) (JStr "nas.example")
                    (JStr "long-1") world_session_ok).2
    = (if e_git_ok (w_env world_session_ok)
       then Some (JStr "nas.example", dict_get stored "entry_token")
       else w_git_header world_session_ok).
Proof.
  assert (H : _refresh_with_long_token (L:=Toy.libs) (JStr "nas.example") (JStr "long-1")
                world_session_ok
              = (Ok tt, (_refresh_with_long_token (L:=Toy.libs) (JStr "nas.example")
                           (JStr "long-1") world_session_ok).2))
    by (vm_compute; reflexivity).
  split; [exact H|]. split; [vm_compute; reflexivity|].
  exact (long_token_refresh_keeps_long_token_expiry Toy.libs _ _ _ _ H).
Defined.

(** X21 on a reply to [user.tokenLogin] that carries only a user id. *)
Lemma long_token_refresh_needs_a_new_token_witness :
  (_refresh_with_long_token (L:=Toy.libs) (JStr "nas.example") (JStr "long-1")
     world_tokenless).1
  = Raise (Exn RuntimeError "_refresh_with_long_token: no new fnos_token") ∧
  ∃ w3,
    token (w_client w3) = JNull ∧
    _refresh_with_long_token (L:=Toy.libs) (JStr "nas.example") (JStr "long-1")
      world_tokenless
    = (Raise (Exn RuntimeError "_refresh_with_long_token: no new fnos_token"),
       (close w3).2).
Proof.
  split; [vm_compute; reflexivity|].
  set (w1 := (connect (JStr "nas.example")
                (add_out OutRefreshingWithLongToken
                   (set_client FnOsClient_init world_tokenless))).2).
  set (w2 := (get_rsa_pub (L:=Toy.libs) w1).2).
  set (w3 := (token_login (L:=Toy.libs) (JStr "long-1") w2).2).
  exists w3.
  refine (long_token_refresh_needs_a_new_token Toy.libs (JStr "nas.example")
            (JStr "long-1") world_tokenless w1 w2 w3
            [("pub", JStr "PEM"); ("si", JStr "si-1");
             ("reqid", JStr "6aeadd5400000000000000000001")]
            [("uid", JInt 1000); ("reqid", JStr "6aeadd5400000000000000000002")]
            _ _ _ _); vm_compute; reflexivity.
Defined.

End LoginFacts.

(** ** Saved credentials *)
Module CredentialsFacts.
Import Crypto Credentials Base64Facts CryptoFacts Samples.

Section CredentialsFacts.
Context (L : Libs).

Lemma length_get_random_bytes (n : nat) (s : store) :
  length (get_random_bytes n s).1 = n.
Proof. unfold get_random_bytes. cbn. by rewrite length_map, length_seq. Qed.

Lemma create_key (s : store) :
  key_file s = None ∨ (∃ old, key_file s = Some old ∧ length old ≠ 32) →
  ∃ key,
    _get_or_create_key s
    = (key, write_key key (get_random_bytes 32 s).2) ∧
    key = (get_random_bytes 32 s).1 ∧ length key = 32.
Proof.
  intros H. exists (get_random_bytes 32 s).1.
  split; [|split; [done | apply length_get_random_bytes]].
  unfold _get_or_create_key.
  destruct H as [-> | (old & -> & Hlen)]; [done|].
  by destruct (Nat.eqb_spec (length old) 32).
Qed.

Lemma keep_key (s : store) (key : bytes) :
  key_file s = Some key → length key = 32 → _get_or_create_key s = (key, s).
Proof. intros Hk Hlen. unfold _get_or_create_key. by rewrite Hk, Hlen. Qed.

Lemma key_cases (s : store) :
  (∃ key, key_file s = Some key ∧ length key = 32) ∨
  key_file s = None ∨ (∃ old, key_file s = Some old ∧ length old ≠ 32).
Proof.
  destruct (key_file s) as [key|]; [|by right; left].
  destruct (decide (length key = 32)); [left | right; right]; by exists key.
Qed.

(** X22. [_get_or_create_key] always returns 32 bytes and leaves them in the
    key file, so that the next call returns the same key and changes
    nothing; a key file that holds 32 bytes is returned as it is and never
    rewritten (one of any other length is replaced); the credentials file is
    not touched. *)
Theorem key_is_created_once (s : store) :
  let key := (_get_or_create_key s).1 in
  let s1 := (_get_or_create_key s).2 in
  length key = 32 ∧
  key_file s1 = Some key ∧
  credentials_file s1 = credentials_file s ∧
  _get_or_create_key s1 = (key, s1) ∧
  (∀ old, key_file s = Some old → length old = 32 → key = old ∧ s1 = s) ∧
  (∀ old, key_file s = Some old → length old ≠ 32 → s1 ≠ s).
Proof.
  cbn zeta. destruct (key_cases s) as [(key & Hk & Hlen) | Hnew].
  - rewrite (keep_key s key Hk Hlen). cbn [fst snd].
    split; [done|]. split; [done|]. split; [done|]. split; [by apply keep_key|].
    split; intros old Hold ?; [split|]; congruence.
  - destruct (create_key s Hnew) as (key & -> & Hkey & Hlen). cbn [fst snd].
    split; [done|]. split; [done|]. split; [done|]. split; [by apply keep_key|].
    split; intros old Hold Hold'.
    + destruct Hnew as [?|(old' & ? & ?)]; congruence.
    + intros Heq. apply (f_equal key_file) in Heq.
      cbn in Heq. rewrite Hold in Heq. injection Heq as <-. done.
Qed.

Lemma encrypt_eq (data : string) (s : store) :
  let key := (_get_or_create_key s).1 in
  let s1 := (_get_or_create_key s).2 in
  let iv := (get_random_bytes 16 s1).1 in
  _encrypt data s
  = (Ok (decode_utf8 (b64encode
           (iv ++ cbc_encrypt_blocks key (String.length data / 16 + 1) iv
                    (pad (encode_utf8 data) block_size)))),
     (get_random_bytes 16 s1).2).
Proof.
  cbn zeta. unfold _encrypt.
  pose proof (key_is_created_once s) as (Hlen & _). cbn zeta in Hlen.
  destruct (_get_or_create_key s) as [key s1]. cbn [fst snd] in *.
  pose proof (length_get_random_bytes 16 s1) as Hiv.
  destruct (get_random_bytes 16 s1) as [iv s2]. cbn [fst snd] in *.
  rewrite AES_new_cbc_ok by done. rewrite bind_Ok. unfold cbc_encrypt.
  pose proof (length_pad (encode_utf8 data)) as [Hmod _]. rewrite Hmod.
  cbn [Nat.eqb negb cbc_key cbc_iv]. rewrite bind_Ok.
  assert (length (pad (encode_utf8 data) block_size) / block_size
          = String.length data / 16 + 1) as ->; [|reflexivity].
  unfold pad, block_size. rewrite length_app, length_replicate, length_encode_utf8.
  n_arith.
Qed.

Lemma decrypt_encrypted (HL : block_cipher_ok L) (data : string) (s : store)
    (key iv : bytes) :
  key_file s = Some key → length key = 32 → length iv = 16 →
  valid_utf8 (encode_utf8 data) = true →
  _decrypt
    (JStr (decode_utf8 (b64encode
             (iv ++ cbc_encrypt_blocks key (String.length data / 16 + 1) iv
                      (pad (encode_utf8 data) block_size))))) s
  = (Ok data, s).
Proof.
  intros Hk Hlen Hiv Hvalid. unfold _decrypt. rewrite (keep_key s key Hk Hlen).
  f_equal. cbn [WsClient.as_str]. rewrite bind_Ok, b64decode_b64encode, bind_Ok.
  rewrite take_app_length', drop_app_length' by done.
  rewrite AES_new_cbc_ok by done. rewrite bind_Ok.
  assert (Hpad : length (pad (encode_utf8 data) block_size)
                 = (String.length data / 16 + 1) * 16).
  { unfold pad, block_size. rewrite length_app, length_replicate, length_encode_utf8.
    n_arith. }
  unfold cbc_decrypt. cbn [cbc_key cbc_iv].
  rewrite (length_cbc_encrypt_blocks L HL) by done.
  replace ((String.length data / 16 + 1) * 16 mod block_size) with 0
    by (unfold block_size; n_arith).
  cbn [Nat.eqb negb]. rewrite bind_Ok.
  replace ((String.length data / 16 + 1) * 16 / block_size)
    with (String.length data / 16 + 1) by (unfold block_size; n_arith).
  rewrite (cbc_blocks_roundtrip L HL) by done.
  rewrite unpad_pad, bind_Ok. unfold decode_utf8_strict. rewrite Hvalid.
  unfold decode_utf8, encode_utf8. by rewrite string_of_list_ascii_of_string.
Qed.

Lemma encrypt_result (data : string) (s : store) :
  ∃ key iv s1,
    length key = 32 ∧ length iv = 16 ∧ key_file s1 = Some key ∧
    credentials_file s1 = credentials_file s ∧
    _encrypt data s
    = (Ok (decode_utf8 (b64encode
             (iv ++ cbc_encrypt_blocks key (String.length data / 16 + 1) iv
                      (pad (encode_utf8 data) block_size)))), s1).
Proof.
  rewrite encrypt_eq. cbn zeta.
  pose proof (key_is_created_once s) as (Hlen & Hfile & Hcred & _).
  cbn zeta in Hlen, Hfile, Hcred.
  exists (_get_or_create_key s).1, (get_random_bytes 16 (_get_or_create_key s).2).1,
    (get_random_bytes 16 (_get_or_create_key s).2).2.
  split; [exact Hlen|].
  split; [apply length_get_random_bytes|]. split; [exact Hfile|]. split; [exact Hcred|].
  reflexivity.
Qed.

Lemma encrypted_not_empty (iv ciphertext : bytes) :
  length iv = 16 → decode_utf8 (b64encode (iv ++ ciphertext)) ≠ "".
Proof.
  intros Hiv Hempty. apply (f_equal String.length) in Hempty.
  rewrite length_decode_utf8, length_b64encode, length_app, Hiv in Hempty.
  cbn [String.length] in Hempty. n_arith.
Qed.

(** X23. What [_encrypt] returns, [_decrypt] turns back into the text that
    was encrypted: unlike [aes_decrypt] of crypto.py, [_decrypt] decodes the
    decrypted bytes and does not encode them again. The IV travels in front
    of the ciphertext, and the key is the one of the key file, which
    [_encrypt] creates when there is none. *)
Theorem credentials_cipher_roundtrip (s : store) (password : string) :
  block_cipher_ok L →
  valid_utf8 (encode_utf8 password) = true →
  ∃ encrypted s1,
    _encrypt password s = (Ok encrypted, s1) ∧
    encrypted ≠ "" ∧
    _decrypt (JStr encrypted) s1 = (Ok password, s1).
Proof.
  intros HL Hvalid.
  destruct (encrypt_result password s) as (key & iv & s1 & Hlen & Hiv & Hfile & _ & ->).
  eexists _, _. split; [reflexivity|]. split; [by apply encrypted_not_empty|].
  by apply (decrypt_encrypted HL _ _ key).
Qed.

(** X24. Credentials saved with a user name that is not empty are read back
    as they were saved, password included, and reading changes nothing on
    disk. *)
Theorem saved_credentials_are_read_back (s : store) (username password : string) :
  block_cipher_ok L →
  valid_utf8 (encode_utf8 password) = true →
  username ≠ "" →
  ∃ s1,
    save_credentials username password s = (Ok tt, s1) ∧
    get_credentials s1
    = (Ok (Some [("username", JStr username); ("password", JStr password)]), s1).
Proof.
  intros HL Hvalid Huser.
  destruct (encrypt_result password s) as (key & iv & s1 & Hlen & Hiv & Hfile & _ & Henc).
  unfold save_credentials. rewrite Henc. eexists. split; [reflexivity|].
  set (encrypted := decode_utf8 _).
  set (data := [("username", JStr username); ("password", JStr encrypted)]).
  unfold get_credentials.
  change (_read_credentials_file (write_credentials (Some (JDict data)) s1))
    with (JDict data).
  cbv beta iota.
  change (dict_get data "username") with (JStr username).
  change (dict_get data "password") with (JStr encrypted).
  cbn [truthy]. destruct (String.eqb_spec username ""); [done|].
  destruct (String.eqb_spec encrypted "") as [Hempty|_];
    [by destruct (encrypted_not_empty _ _ Hiv Hempty)|].
  cbn [negb orb]. subst encrypted.
  by rewrite (decrypt_encrypted HL _ _ key iv).
Qed.

(** X25. [get_credentials] returns [None] when there is no credentials
    file (or none that is JSON) and after [delete_credentials]; credentials
    saved with an empty user name are stored and never read back; and a
    file that holds JSON other than an object makes it raise
    [AttributeError], which is outside its [try]. *)
Theorem credentials_that_are_not_read (s : store) :
  (credentials_file s = None → get_credentials s = (Ok None, s)) ∧
  get_credentials (delete_credentials s) = (Ok None, delete_credentials s) ∧
  (∀ password,
     (save_credentials "" password s).1 = Ok tt ∧
     get_credentials (save_credentials "" password s).2
     = (Ok None, (save_credentials "" password s).2)) ∧
  (∀ v, credentials_file s = Some v → (∀ data, v ≠ JDict data) →
        get_credentials s
        = (Raise (Exn AttributeError "get_credentials: object has no attribute get"), s)).
Proof.
  split; [|split; [|split]].
  - intros Hnone. unfold get_credentials, _read_credentials_file. by rewrite Hnone.
  - reflexivity.
  - intros password.
    destruct (encrypt_result password s) as (key & iv & s1 & _ & _ & _ & _ & Henc).
    unfold save_credentials. rewrite Henc. done.
  - intros v Hv Hnd. unfold get_credentials, _read_credentials_file. rewrite Hv.
    destruct v; try done. by destruct (Hnd fields).
Qed.

End CredentialsFacts.

(** X23 on the password [pw], on a machine without a key file. *)
Lemma credentials_cipher_roundtrip_witness :
  block_cipher_ok Toy.libs ∧
  valid_utf8 (encode_utf8 "pw") = true ∧
  ∃ encrypted s1,
    _encrypt (L:=Toy.libs) "pw" store0 = (Ok encrypted, s1) ∧
    encrypted ≠ "" ∧
    _decrypt (L:=Toy.libs) (JStr encrypted) s1 = (Ok "pw", s1).
Proof.
  split; [exact toy_block_cipher_ok|]. split; [reflexivity|].
  exact (credentials_cipher_roundtrip Toy.libs store0 "pw" toy_block_cipher_ok eq_refl).
Defined.

(** X24 on the user [alice]. *)
Lemma saved_credentials_are_read_back_witness :
  block_cipher_ok Toy.libs ∧
  valid_utf8 (encode_utf8 "pw") = true ∧
  ∃ s1,
    save_credentials (L:=Toy.libs) "alice" "pw" store0 = (Ok tt, s1) ∧
    get_credentials (L:=Toy.libs) s1
    = (Ok (Some [("username", JStr "alice"); ("password", JStr "pw")]), s1).
Proof.
  split; [exact toy_block_cipher_ok|]. split; [reflexivity|].
  refine (saved_credentials_are_read_back Toy.libs store0 "alice" "pw"
            toy_block_cipher_ok eq_refl _).
  discriminate.
Defined.

End CredentialsFacts.
